(** * SafeLens: segmentation, suspicion scoring, planning and analysis

    A shallow embedding of the core of the SafeLens video pipeline:
    - [web/app/orchestration/segmentation_config.py] and the non-overlap
      normalisation of [web/app/orchestration/segmentation.py];
    - the planner of [web/app/planning/llm_planner.py] (TTL cache, LLM
      suspicion scoring, probe points, merge with periodic sampling);
    - the orchestrator of [web/app/orchestration/segment_analyzer.py]
      (keyword suspicion, harm decision, the per-segment loop).

    Conventions.  Seconds and confidences are Python floats in the source.
    A finite float is modelled as the rational [Q] it denotes, and a float
    that comes out of a provider reply as [pyfloat], which adds the two
    infinities and NaN.  Comparisons are exact in both; sums, differences
    and quotients of seconds are taken in [Q] without rounding, and the
    theorems on them are stated through the tests that the code itself
    applies (a difference compared with a bound), which is the form that
    also holds of the rounded operation.  The product in
    [int(confidence * 100)] is rounded as binary64 does ([float_mul]),
    because the integer part depends on the rounding.  Python [str] is the
    Stdlib [string] of bytes; [lower] and [strip] act on ASCII.  Dictionaries
    whose shape the code does not fix (provider replies, cached results,
    suspicion results) are insertion-ordered association lists of Python
    values; the two module-level cache dictionaries are [gmap]s. *)

From Stdlib Require Import QArith Qminmax Qround Qabs Qpower Lqa ZArith String Ascii List Bool Lia.
From Stdlib Require Import Sorting.Sorted.
From stdpp Require Import gmap strings list pretty.
Import ListNotations.

Local Open Scope string_scope.
Local Open Scope list_scope.

(** ** Rational comparisons as booleans *)

Definition Qlt_bool (x y : Q) : bool := negb (Qle_bool y x).
Definition Qge_bool (x y : Q) : bool := Qle_bool y x.
Definition Qgt_bool (x y : Q) : bool := Qlt_bool y x.

(** Python's [max(a, b)] and [min(a, b)] on two floats: the first argument
    is kept unless the second is strictly larger (smaller). *)
Definition py_max (a b : Q) : Q := if Qgt_bool b a then b else a.
Definition py_min (a b : Q) : Q := if Qlt_bool b a then b else a.

(** [int(x)]: truncation towards zero. *)
Definition Qtrunc (x : Q) : Z :=
  if Qle_bool 0 x then Qfloor x else Qceiling x.

(** ** Binary64 rounding

    [float_round x] is the float nearest to the rational [x], ties to even:
    [x] is divided by the unit in the last place of its binade (whose
    exponent is at least -1074, where the subnormal numbers start), rounded
    to an integer, and scaled back.  The result is at least [2 ^ 1024] in
    absolute value exactly when the float operation overflows to an
    infinity. *)

Definition round_half_even (x : Q) : Z :=
  let n := Qfloor x in
  match Qcompare (x - inject_Z n) (1 # 2) with
  | Lt => n
  | Gt => (n + 1)%Z
  | Eq => if Z.even n then n else (n + 1)%Z
  end.

(** [floor(log2 |x|)] for [x <> 0]. *)
Definition binade (x : Q) : Z :=
  let e := (Z.log2 (Z.abs (Qnum x)) - Z.log2 (Zpos (Qden x)))%Z in
  if negb (Qle_bool (2 ^ e) (Qabs x)) then (e - 1)%Z else e.

Definition ulp (x : Q) : Q := (2 ^ Z.max (binade x - 52) (-1074))%Q.

Definition float_round (x : Q) : Q :=
  if Qeq_bool x 0 then 0%Q
  else (inject_Z (round_half_even (x / ulp x)) * ulp x)%Q.

(** [x * y] on two finite floats, before the overflow test.  An operand
    that is not itself a float stands for the float nearest to it, as a
    decimal literal does: [float_mul 0.29 100] is the product of the float
    0.29 and 100. *)
Definition float_mul (x y : Q) : Q := float_round (float_round x * float_round y).

(** The rounded value lies outside the finite floats. *)
Definition float_overflows (x : Q) : bool := Qle_bool (2 ^ 1024) (Qabs x).
Arguments float_overflows : simpl never.

(** ** [sorted]: a stable insertion sort *)

Section Sort.
Context {A : Type} (leb : A -> A -> bool).

(** [x] is put in front of the first element that is not smaller than
    it; inserting the elements from the right therefore keeps equal keys in
    their input order, as Python's stable sort does. *)
Fixpoint insert_sorted (x : A) (l : list A) : list A :=
  match l with
  | [] => [x]
  | y :: l' => if leb x y then x :: l else y :: insert_sorted x l'
  end.

Definition py_sorted (l : list A) : list A :=
  fold_right insert_sorted [] l.
End Sort.

(** [adjacent R l]: every element of [l] is related to its right
    neighbour. *)
Fixpoint adjacent {A} (R : A -> A -> Prop) (l : list A) : Prop :=
  match l with
  | a :: ((b :: _) as l') => R a b /\ adjacent R l'
  | _ => True
  end.

(** ** segmentation_config.py *)

Local Open Scope Q_scope.

Record SegmentationConfig := {
  min_len_sec : Q;
  max_len_sec : Q;
  scene_threshold : Q;
  sample_interval_sec : Q;
  batch_size : Z;
  nltk_min_sentence_chars : Z;
  max_iterations : Z;
  merge_threshold_factor : Q;
  non_overlap_tolerance_sec : Q;
  max_len_soft_factor : Q;
  trim_to_transcript_boundaries : bool;
  context_evidence_pad_sec : Q;
  drop_tiny_after_trim_factor : Q;
  seg_safe_sample_sec : Q;
  seg_suspicious_sample_sec : Q;
  max_frames_per_segment : Z;
  suspicion_mode : string;
  seg_llm_timeout_sec : Q
}.

(** The dataclass defaults. *)
Definition DEFAULT_CONFIG : SegmentationConfig := {|
  min_len_sec := 5; max_len_sec := 16;
  scene_threshold := 0.85; sample_interval_sec := 2;
  batch_size := 8%Z; nltk_min_sentence_chars := 20%Z;
  max_iterations := 7%Z; merge_threshold_factor := 1.2;
  non_overlap_tolerance_sec := 0.20; max_len_soft_factor := 1.15;
  trim_to_transcript_boundaries := true;
  context_evidence_pad_sec := 1.5; drop_tiny_after_trim_factor := 0.5;
  seg_safe_sample_sec := 3; seg_suspicious_sample_sec := 5;
  max_frames_per_segment := 10%Z; suspicion_mode := "keywords";
  seg_llm_timeout_sec := 30
|}.

(** [SegmentationConfig.validate]: [true] when no [ValueError] is raised. *)
Definition SegmentationConfig_validate (cfg : SegmentationConfig) : bool :=
  negb (Qle_bool (min_len_sec cfg) 0)
  && negb (Qle_bool (max_len_sec cfg) (min_len_sec cfg))
  && (Qlt_bool 0 (scene_threshold cfg) && Qle_bool (scene_threshold cfg) 1)
  && negb (Qle_bool (sample_interval_sec cfg) 0)
  && negb (batch_size cfg <=? 0)%Z
  && negb (nltk_min_sentence_chars cfg <? 0)%Z
  && negb (max_iterations cfg <=? 0)%Z
  && negb (Qle_bool (merge_threshold_factor cfg) 1)
  && (String.eqb (suspicion_mode cfg) "keywords"
      || String.eqb (suspicion_mode cfg) "llm"
      || String.eqb (suspicion_mode cfg) "off")
  && negb (Qle_bool (seg_llm_timeout_sec cfg) 0).

(** ** segmentation.py: [normalize_non_overlap] *)

(** A segment dictionary, reduced to the two keys the normalisation reads
    and writes. *)
Record segment := mk_segment { seg_start : Q; seg_end : Q }.

(** The sort key [(s['start'], s['end'])], compared as Python compares
    tuples. *)
Definition segment_key_leb (a b : segment) : bool :=
  Qlt_bool (seg_start a) (seg_start b)
  || (Qeq_bool (seg_start a) (seg_start b) && Qle_bool (seg_end a) (seg_end b)).

(** [min(candidates)] for a non-empty list. *)
Definition list_min (x : Q) (l : list Q) : Q := fold_left py_min l x.

(** The nested helper [snap_up_to_transcript]. *)
Definition snap_up_to_transcript (cfg : SegmentationConfig)
    (transcript_bounds : list Q) (t : Q) : Q :=
  if negb (trim_to_transcript_boundaries cfg) || bool_decide (transcript_bounds = [])
  then t
  else
    let tol := non_overlap_tolerance_sec cfg in
    let candidates :=
      filter (fun b => Is_true (Qge_bool b t && Qle_bool (b - t) tol)) transcript_bounds in
    match candidates with
    | [] => t
    | c :: cs => list_min c cs
    end.

(** The state of the first loop: the list [final] and the variable
    [last_end] ([None] until the first segment has been appended). *)
Definition overlap_state : Type := list segment * option Q.

(** [final[-1]['end'] = e]. *)
Definition set_last_end (final : list segment) (e : Q) : list segment :=
  match last final with
  | None => final
  | Some prev => removelast final ++ [mk_segment (seg_start prev) e]
  end.

(** The tail of the loop body: soft-max guard, append, update [last_end]. *)
Definition append_clamped (soft_max : Q) (final : list segment) (s e : Q)
    : overlap_state :=
  let e := if Qgt_bool (e - s) soft_max then s + soft_max else e in
  (final ++ [mk_segment s e], Some e).

(** One iteration of [for seg in segs].  The branch where [last_end] is set
    while [final] is empty cannot be reached ([last_end] is assigned only
    next to an append); the state is returned unchanged there. *)
Definition overlap_step (cfg : SegmentationConfig) (transcript_bounds : list Q)
    (st : overlap_state) (seg : segment) : overlap_state :=
  let '(final, last_end) := st in
  let soft_max := max_len_sec cfg * max_len_soft_factor cfg in
  let tol := non_overlap_tolerance_sec cfg in
  let drop_tiny_factor := drop_tiny_after_trim_factor cfg in
  let s := seg_start seg in
  let e := seg_end seg in
  match last_end with
  | None => (final ++ [mk_segment s e], Some e)
  | Some le =>
      if Qlt_bool s (le - tol) then
        match last final with
        | None => st
        | Some prev =>
            let merged_len := py_max (seg_end prev) e - seg_start prev in
            if Qle_bool merged_len soft_max then
              let e' := py_max (seg_end prev) e in
              (set_last_end final e', Some e')
            else
              let new_start :=
                snap_up_to_transcript cfg transcript_bounds (py_max le s) in
              if Qlt_bool (e - new_start) (min_len_sec cfg * drop_tiny_factor)
              then st
              else append_clamped soft_max final new_start e
        end
      else append_clamped soft_max final s e
  end.

(** One iteration of the final sweep over [final]. *)
Definition sweep_step (tol : Q) (st : overlap_state) (seg : segment)
    : overlap_state :=
  let '(out, last_end) := st in
  let e := seg_end seg in
  let s :=
    match last_end with
    | Some le => if Qlt_bool (seg_start seg) (le - tol) then le else seg_start seg
    | None => seg_start seg
    end in
  if Qle_bool e s then st else (out ++ [mk_segment s e], Some e).

Definition normalize_non_overlap (segments : list segment)
    (transcript_bounds : list Q) (cfg : SegmentationConfig) : list segment :=
  match segments with
  | [] => []
  | _ =>
      let segs := py_sorted segment_key_leb segments in
      let final := fst (fold_left (overlap_step cfg transcript_bounds) segs ([], None)) in
      fst (fold_left (sweep_step (non_overlap_tolerance_sec cfg)) final ([], None))
  end.

(** A configuration that [validate] accepts: the defaults with a minimum
    segment length of 0.3 s. *)
Definition short_min_config : SegmentationConfig := {|
  min_len_sec := 0.3; max_len_sec := 16;
  scene_threshold := 0.85; sample_interval_sec := 2;
  batch_size := 8%Z; nltk_min_sentence_chars := 20%Z;
  max_iterations := 7%Z; merge_threshold_factor := 1.2;
  non_overlap_tolerance_sec := 0.20; max_len_soft_factor := 1.15;
  trim_to_transcript_boundaries := true;
  context_evidence_pad_sec := 1.5; drop_tiny_after_trim_factor := 0.5;
  seg_safe_sample_sec := 3; seg_suspicious_sample_sec := 5;
  max_frames_per_segment := 10%Z; suspicion_mode := "keywords";
  seg_llm_timeout_sec := 30
|}.

(** The defaults with a negative tolerance; [validate] does not look at the
    tolerance. *)
Definition negative_tolerance_config : SegmentationConfig := {|
  min_len_sec := 5; max_len_sec := 16;
  scene_threshold := 0.85; sample_interval_sec := 2;
  batch_size := 8%Z; nltk_min_sentence_chars := 20%Z;
  max_iterations := 7%Z; merge_threshold_factor := 1.2;
  non_overlap_tolerance_sec := -1; max_len_soft_factor := 1.15;
  trim_to_transcript_boundaries := true;
  context_evidence_pad_sec := 1.5; drop_tiny_after_trim_factor := 0.5;
  seg_safe_sample_sec := 3; seg_suspicious_sample_sec := 5;
  max_frames_per_segment := 10%Z; suspicion_mode := "keywords";
  seg_llm_timeout_sec := 30
|}.

(** The defaults with a tolerance of 20 s, above the soft maximum of
    18.4 s, and a drop factor of 10. *)
Definition wide_tolerance_config : SegmentationConfig := {|
  min_len_sec := 5; max_len_sec := 16;
  scene_threshold := 0.85; sample_interval_sec := 2;
  batch_size := 8%Z; nltk_min_sentence_chars := 20%Z;
  max_iterations := 7%Z; merge_threshold_factor := 1.2;
  non_overlap_tolerance_sec := 20; max_len_soft_factor := 1.15;
  trim_to_transcript_boundaries := true;
  context_evidence_pad_sec := 1.5; drop_tiny_after_trim_factor := 10;
  seg_safe_sample_sec := 3; seg_suspicious_sample_sec := 5;
  max_frames_per_segment := 10%Z; suspicion_mode := "keywords";
  seg_llm_timeout_sec := 30
|}.

(** ** Python values *)

(** A float that arrives from outside (a parsed provider reply). *)
Inductive pyfloat := PFin (q : Q) | PInf | PNegInf | PNaN.

(** JSON-shaped values; a dictionary keeps its insertion order. *)
#[warnings="-register-all"]
Inductive pyval :=
| VNone
| VBool (b : bool)
| VInt (n : Z)
| VFloat (x : pyfloat)
| VStr (s : string)
| VList (l : list pyval)
| VDict (d : list (string * pyval)).

Definition pydict : Type := list (string * pyval).

Inductive exn_kind :=
| ValueError | TypeError | OverflowError | KeyError | AttributeError
| ZeroDivisionError | RuntimeError.

(** An exception: its class and [str(e)]. *)
Record exn := Exn { exn_class : exn_kind; exn_message : string }.

(** Comparison of floats; every comparison with NaN is false. *)
Definition pf_lt (x y : pyfloat) : bool :=
  match x, y with
  | PNaN, _ | _, PNaN => false
  | PFin a, PFin b => Qlt_bool a b
  | PNegInf, (PFin _ | PInf) => true
  | PFin _, PInf => true
  | _, _ => false
  end.

Definition pf_le (x y : pyfloat) : bool :=
  match x, y with
  | PNaN, _ | _, PNaN => false
  | PFin a, PFin b => Qle_bool a b
  | PNegInf, _ => true
  | _, PInf => true
  | _, _ => false
  end.

(** [max(0.0, min(1.0, c))], with Python's [min] and [max]: the first
    argument is returned unless the second compares strictly below (above)
    it, so NaN is clamped to [1.0]. *)
Definition clamp01 (c : pyfloat) : pyfloat :=
  let m := if pf_lt c (PFin 1) then c else PFin 1 in
  if pf_lt (PFin 0) m then m else PFin 0.

(** Truthiness ([bool(v)], [if v:], [not v]). *)
Definition truthy (v : pyval) : bool :=
  match v with
  | VNone => false
  | VBool b => b
  | VInt n => negb (n =? 0)%Z
  | VFloat (PFin q) => negb (Qeq_bool q 0)
  | VFloat _ => true
  | VStr s => negb (String.length s =? 0)%nat
  | VList l => negb (Nat.eqb (List.length l) 0)
  | VDict d => negb (Nat.eqb (List.length d) 0)
  end.

Definition is_str (v : pyval) : bool := match v with VStr _ => true | _ => false end.

(** *** Dictionaries *)

Fixpoint dict_get (k : string) (d : pydict) : option pyval :=
  match d with
  | [] => None
  | (k', v) :: d' => if String.eqb k k' then Some v else dict_get k d'
  end.

(** [d.get(k, default)] *)
Definition dict_get_default (k : string) (default : pyval) (d : pydict) : pyval :=
  match dict_get k d with Some v => v | None => default end.

(** [k in d] *)
Definition dict_has (k : string) (d : pydict) : bool :=
  match dict_get k d with Some _ => true | None => false end.

(** [d[k] = v]: replaced in place when present, appended otherwise. *)
Fixpoint dict_set (k : string) (v : pyval) (d : pydict) : pydict :=
  match d with
  | [] => [(k, v)]
  | (k', v') :: d' =>
      if String.eqb k k' then (k', v) :: d' else (k', v') :: dict_set k v d'
  end.

(** [d.pop(k, None)], for the dictionary that remains. *)
Fixpoint dict_pop (k : string) (d : pydict) : pydict :=
  match d with
  | [] => []
  | (k', v') :: d' => if String.eqb k k' then d' else (k', v') :: dict_pop k d'
  end.

(** *** Strings *)

Definition is_space (c : ascii) : bool :=
  let n := nat_of_ascii c in
  ((9 <=? n) && (n <=? 13) || (28 <=? n) && (n <=? 32))%nat.

Fixpoint lstrip (s : string) : string :=
  match s with
  | String c s' => if is_space c then lstrip s' else s
  | EmptyString => EmptyString
  end.

Fixpoint rstrip (s : string) : string :=
  match s with
  | String c s' =>
      match rstrip s' with
      | EmptyString => if is_space c then EmptyString else String c EmptyString
      | r => String c r
      end
  | EmptyString => EmptyString
  end.

(** [s.strip()] *)
Definition strip (s : string) : string := rstrip (lstrip s).

Definition lower_ascii (c : ascii) : ascii :=
  let n := nat_of_ascii c in
  if ((65 <=? n) && (n <=? 90))%nat then ascii_of_nat (n + 32) else c.

(** [s.lower()] *)
Fixpoint lower (s : string) : string :=
  match s with
  | String c s' => String (lower_ascii c) (lower s')
  | EmptyString => EmptyString
  end.

(** [kw in s] *)
Fixpoint contains (kw s : string) : bool :=
  String.prefix kw s ||
  match s with
  | String _ s' => contains kw s'
  | EmptyString => false
  end.

(** [len(s)] as a Python integer. *)
Definition len (s : string) : Z := Z.of_nat (String.length s).

(** [s[:n]] for [n >= 0]. *)
Definition str_take (n : nat) (s : string) : string := String.substring 0 n s.


Inductive outcome (A : Type) := Returned (a : A) | Raised (e : exn).
Arguments Returned {A} a.
Arguments Raised {A} e.

(** ** llm_planner.py: configuration *)

(** The field [suspicion_mode] of the dataclass is [planner_suspicion_mode]
    here, [SegmentationConfig] having a field of the same name. *)
Record LLMPlannerConfig := {
  planning_mode : string;
  planner_suspicion_mode : string;
  suspicion_llm_model : option string;
  suspicion_llm_timeout_sec : Q;
  suspicion_llm_conf_threshold : Q;
  suspicion_llm_max_segments : Z;
  suspicion_llm_min_text_chars : Z;
  suspicion_llm_cache_ttl_sec : Z;
  planner_llm_max_points : Z;
  planner_min_gap_sec : Q;
  planner_max_extra_frames : Z
}.

Definition DEFAULT_PLANNER_CONFIG : LLMPlannerConfig := {|
  planning_mode := "segmentation";
  planner_suspicion_mode := "keywords";
  suspicion_llm_model := None;
  suspicion_llm_timeout_sec := 8;
  suspicion_llm_conf_threshold := 0.6;
  suspicion_llm_max_segments := 50%Z;
  suspicion_llm_min_text_chars := 80%Z;
  suspicion_llm_cache_ttl_sec := 86400%Z;
  planner_llm_max_points := 5%Z;
  planner_min_gap_sec := 8;
  planner_max_extra_frames := 120%Z
|}.

(** [LLMPlannerConfig.validate]: [true] when no [ValueError] is raised. *)
Definition LLMPlannerConfig_validate (cfg : LLMPlannerConfig) : bool :=
  (String.eqb (planning_mode cfg) "segmentation"
   || String.eqb (planning_mode cfg) "llm"
   || String.eqb (planning_mode cfg) "hybrid")
  && (String.eqb (planner_suspicion_mode cfg) "keywords"
      || String.eqb (planner_suspicion_mode cfg) "llm"
      || String.eqb (planner_suspicion_mode cfg) "off")
  && negb (Qle_bool (suspicion_llm_timeout_sec cfg) 0)
  && (Qle_bool 0 (suspicion_llm_conf_threshold cfg)
      && Qle_bool (suspicion_llm_conf_threshold cfg) 1)
  && negb (suspicion_llm_max_segments cfg <? 0)%Z
  && negb (suspicion_llm_min_text_chars cfg <? 0)%Z
  && negb (suspicion_llm_cache_ttl_sec cfg <? 0)%Z
  && negb (planner_llm_max_points cfg <? 0)%Z
  && negb (Qlt_bool (planner_min_gap_sec cfg) 0)
  && negb (planner_max_extra_frames cfg <? 0)%Z.

(** ** The Python runtime and the collaborators outside the repository

    Library functions whose results the repository only passes on are taken
    as given: SHA-1, [str()] of a non-string value, [float()] of a string,
    the process environment (read directly, and by
    [LLMPlannerConfig.from_env]), the [SafetyLLM] constructor and the
    provider behind it, and the media tools of section 6 of the
    specification (transcription, frame extraction, vision and OCR). *)

(** What is interpolated into the three prompts. *)
Inductive prompt :=
| SuspicionPrompt (transcript : string)
| PlanningPrompt (seg_start seg_end segment_duration : Q) (transcript : string)
                 (max_points : Z) (min_gap : Q)
| DecisionPrompt (audio_block ocr_block captions_block : string).

(** [llm.invoke]: the reply to the [n]-th provider call of the process and
    the seconds it took.  A reply is the parsed JSON value, or an
    exception. *)
Definition provider : Type := nat -> prompt -> outcome pyval * Q.

Record runtime := {
  sha1_hexdigest : string -> string;
  py_str : pyval -> string;
  float_of_str : string -> option pyfloat;
  os_getenv : string -> option string;
  SafetyLLM_new : option string -> outcome provider;
  (* LLMPlannerConfig.from_env() *)
  planner_config_from_env : outcome LLMPlannerConfig;
  (* the seconds field of a timestamp, formatted with 06.3f *)
  format_secs : Q -> string;
  (* transcribe_clip(video_path, start, end), which never raises *)
  transcribe_clip : string -> Q -> Q -> string;
  (* extract_frames(video_path, timestamps=...) *)
  extract_frames : string -> list Q -> outcome (list string);
  (* the captions and the OCR text that gather_evidence collects from the
     sampled frames (timestamp, path), or the exception it ends with *)
  collect_evidence : list (Q * string) -> outcome (string * string)
}.

(** [str(v)] *)
Definition str_of (rt : runtime) (v : pyval) : string :=
  match v with VStr s => s | _ => py_str rt v end.

(** [float(n)] for an integer: exact below the point where the nearest
    double would be 2^1024, [OverflowError] from there on. *)
Definition float_of_int (n : Z) : outcome pyfloat :=
  if (Z.abs n <? 2 ^ 1024 - 2 ^ 970)%Z then Returned (PFin (inject_Z n))
  else Raised (Exn OverflowError "int too large to convert to float").

(** [float(v)] *)
Definition py_float (rt : runtime) (v : pyval) : outcome pyfloat :=
  match v with
  | VFloat x => Returned x
  | VInt n => float_of_int n
  | VBool b => Returned (PFin (if b then 1 else 0))
  | VStr s =>
      match float_of_str rt s with
      | Some x => Returned x
      | None => Raised (Exn ValueError "could not convert string to float")
      end
  | _ => Raised (Exn TypeError "float() argument must be a string or a real number")
  end.

(** ** The process state: the two module-level cache dictionaries, the
    wall clock and the provider calls made so far *)

Record world := {
  _cache : gmap string pydict;
  _cache_timestamps : gmap string Q;
  clock : Q;
  provider_log : list prompt
}.

Definition set_caches (c : gmap string pydict) (t : gmap string Q) (w : world) : world :=
  {| _cache := c; _cache_timestamps := t;
     clock := clock w; provider_log := provider_log w |}.

(** Time passing between two calls. *)
Definition set_clock (t : Q) (w : world) : world :=
  {| _cache := _cache w; _cache_timestamps := _cache_timestamps w;
     clock := t; provider_log := provider_log w |}.

(** Computations that read and write a state and may raise. *)
Definition ST (S A : Type) : Type := S -> outcome A * S.

Definition ret {S A} (a : A) : ST S A := fun s => (Returned a, s).
Definition raise {S A} (e : exn) : ST S A := fun s => (Raised e, s).
Definition bind {S A B} (m : ST S A) (f : A -> ST S B) : ST S B :=
  fun s => match m s with
           | (Returned a, s') => f a s'
           | (Raised e, s') => (Raised e, s')
           end.
(** [try: m except Exception as e: h e]; what [m] wrote before raising
    stays written. *)
Definition try_except {S A} (m : ST S A) (h : exn -> ST S A) : ST S A :=
  fun s => match m s with
           | (Returned a, s') => (Returned a, s')
           | (Raised e, s') => h e s'
           end.
Definition lift {S A} (o : outcome A) : ST S A := fun s => (o, s).
Definition get {S} : ST S S := fun s => (Returned s, s).
Definition modify {S} (f : S -> S) : ST S unit := fun s => (Returned tt, f s).

Notation "x <- m ;; k" := (bind m (fun x => k))
  (at level 60, m at next level, right associativity).

(** The planner works on the process state. *)
Definition M (A : Type) : Type := ST world A.

(** [time.time()] *)
Definition time_time : M Q := fun w => (Returned (clock w), w).

(** [llm.invoke(prompt, ...)]: the call is logged, and the clock advances by
    the time the provider takes. *)
Definition invoke (llm : provider) (p : prompt) : M pyval :=
  fun w =>
    let '(reply, elapsed) := llm (List.length (provider_log w)) p in
    (reply, {| _cache := _cache w; _cache_timestamps := _cache_timestamps w;
               clock := clock w + elapsed;
               provider_log := provider_log w ++ [p] |}).

(** ** llm_planner.py: the cache *)

Definition cache_key (video_id : string) (seg_index : Z) (text_hash kind : string)
    : string :=
  video_id +:+ ":" +:+ pretty seg_index +:+ ":" +:+ text_hash +:+ ":" +:+ kind.

Definition _get_cached_result (key : string) (ttl_sec : Z) : M (option pydict) :=
  fun w =>
    match _cache w !! key with
    | None => (Returned None, w)
    | Some result =>
        match _cache_timestamps w !! key with
        | None =>
            (Returned None, set_caches (delete key (_cache w)) (_cache_timestamps w) w)
        | Some cached_time =>
            if Qgt_bool (clock w - cached_time) (inject_Z ttl_sec) then
              (Returned None,
               set_caches (delete key (_cache w)) (delete key (_cache_timestamps w)) w)
            else (Returned (Some result), w)
        end
    end.

Definition _set_cached_result (key : string) (result : pydict) : M unit :=
  fun w =>
    (Returned tt,
     set_caches (<[key := result]> (_cache w)) (<[key := clock w]> (_cache_timestamps w)) w).

(** [text_hash = hashlib.sha1(text.encode('utf-8')).hexdigest()[:10]] *)
Definition text_hash (rt : runtime) (text : string) : string :=
  str_take 10 (sha1_hexdigest rt text).

(** ** llm_planner.py: [suspicion_score] *)

(** [not text or len(text.strip()) < cfg.suspicion_llm_min_text_chars] *)
Definition text_too_short (text : string) (cfg : LLMPlannerConfig) : bool :=
  negb (truthy (VStr text)) || (len (strip text) <? suspicion_llm_min_text_chars cfg)%Z.

(** The provider used by a call: the per-video one when given; otherwise a
    fresh [SafetyLLM], unless the backend is OpenRouter and its key is
    missing ([None]). *)
Definition provided_llm (rt : runtime) (cfg : LLMPlannerConfig)
    (llm : option provider) : M (option provider) :=
  match llm with
  | Some l => ret (Some l)
  | None =>
      let backend := default "openrouter" (os_getenv rt "ANALYSIS_LLM_BACKEND") in
      let key := default "" (os_getenv rt "OPENROUTER_API_KEY") in
      if String.eqb backend "openrouter" && negb (truthy (VStr key)) then ret None
      else l <- lift (SafetyLLM_new rt (suspicion_llm_model cfg)) ;; ret (Some l)
  end.

(** [int((time.time() - start_time) * 1000)] *)
Definition latency_ms (start_time end_time : Q) : Z :=
  Qtrunc ((end_time - start_time) * 1000).

(** [isinstance(result, dict) and "error" not in result] *)
Definition is_success (result : pyval) : option pydict :=
  match result with
  | VDict d => if dict_has "error" d then None else Some d
  | _ => None
  end.

(** [result.get('error', 'Unknown LLM error') if isinstance(result, dict)
    else str(result)], as it is interpolated. *)
Definition error_msg (rt : runtime) (result : pyval) : string :=
  match result with
  | VDict d => str_of rt (dict_get_default "error" (VStr "Unknown LLM error") d)
  | _ => str_of rt result
  end.

Definition suspicion_score (rt : runtime) (text : string) (cfg : LLMPlannerConfig)
    (video_id : string) (seg_index : Z) (llm : option provider) : M pydict :=
  if text_too_short text cfg then
    ret [("suspicious", VBool false); ("confidence", VFloat (PFin 0));
         ("category", VNone); ("reason", VStr "Text too short for analysis")]
  else
    let key := cache_key video_id seg_index (text_hash rt text) "suspicion" in
    cached <- _get_cached_result key (suspicion_llm_cache_ttl_sec cfg) ;;
    match cached with
    | Some cached =>
        (* cached_result = dict(cached); cached_result["_cache_hit"] = True *)
        ret (dict_set "_cache_hit" (VBool true) cached)
    | None =>
        try_except
          (l <- provided_llm rt cfg llm ;;
           match l with
           | None =>
               ret [("suspicious", VBool false); ("confidence", VFloat (PFin 0));
                    ("category", VNone);
                    ("reason", VStr "OpenRouter key missing; using keyword fallback");
                    ("_fallback", VStr "openrouter_missing")]
           | Some l =>
               start_time <- time_time ;;
               result <- invoke l (SuspicionPrompt (strip text)) ;;
               end_time <- time_time ;;
               let latency := latency_ms start_time end_time in
               match is_success result with
               | Some result =>
                   let suspicious :=
                     truthy (dict_get_default "suspicious" (VBool false) result) in
                   confidence <-
                     lift (py_float rt (dict_get_default "confidence" (VFloat (PFin 0)) result)) ;;
                   let confidence := clamp01 confidence in
                   let category := dict_get_default "category" VNone result in
                   let category :=
                     if truthy category && negb (is_str category) then VNone
                     else category in
                   let reason := str_of rt (dict_get_default "reason" (VStr "") result) in
                   let final_result :=
                     [("suspicious", VBool suspicious);
                      ("confidence", VFloat confidence);
                      ("category", category);
                      ("reason", VStr reason);
                      ("_latency_ms", VInt latency);
                      ("_cache_hit", VBool false)] in
                   let cache_result := dict_pop "_cache_hit" final_result in
                   _ <- _set_cached_result key cache_result ;;
                   ret final_result
               | None =>
                   ret [("suspicious", VBool false); ("confidence", VFloat (PFin 0));
                        ("category", VNone);
                        ("reason", VStr ("LLM error: " +:+ error_msg rt result));
                        ("_error", VBool true)]
               end
           end)
          (fun e =>
             ret [("suspicious", VBool false); ("confidence", VFloat (PFin 0));
                  ("category", VNone);
                  ("reason", VStr ("Analysis failed: " +:+ exn_message e));
                  ("_error", VBool true)])
    end.

(** ** llm_planner.py: [propose_points] *)

(** The greedy filter used on proposed points and on merged timestamps: a
    value is kept when it is the first one or at least [min_gap] after the
    last one kept. *)
Definition min_gap_step (min_gap : Q) (filtered : list Q) (point : Q) : list Q :=
  match last filtered with
  | None => filtered ++ [point]
  | Some prev =>
      if Qge_bool (point - prev) min_gap then filtered ++ [point] else filtered
  end.

Definition min_gap_filter (min_gap : Q) (points : list Q) : list Q :=
  fold_left (min_gap_step min_gap) points [].

(** The loop over [raw_points]: [ValueError] and [TypeError] of [float()]
    skip the point, any other exception leaves the loop. *)
Fixpoint absolute_points (rt : runtime) (seg_start segment_duration : Q)
    (raw_points : list pyval) : outcome (list Q) :=
  match raw_points with
  | [] => Returned []
  | point :: rest =>
      let here :=
        match py_float rt point with
        | Returned (PFin relative_point) =>
            if Qle_bool 0 relative_point && Qle_bool relative_point segment_duration
            then Returned [seg_start + relative_point] else Returned []
        | Returned _ => Returned []
        | Raised (Exn (ValueError | TypeError) _) => Returned []
        | Raised e => Raised e
        end in
      match here with
      | Raised e => Raised e
      | Returned ps =>
          match absolute_points rt seg_start segment_duration rest with
          | Raised e => Raised e
          | Returned qs => Returned (ps ++ qs)
          end
      end
  end.

Definition float_list (l : list Q) : pyval := VList (map (fun q => VFloat (PFin q)) l).

(** [min(3, max(1, int(segment_duration / cfg.planner_min_gap_sec)))]; the
    division raises when the gap is zero. *)
Definition max_points_for_segment (segment_duration min_gap : Q) : outcome Z :=
  if Qeq_bool min_gap 0 then Raised (Exn ZeroDivisionError "float division by zero")
  else Returned (Z.min 3 (Z.max 1 (Qtrunc (segment_duration / min_gap)))).

Definition propose_points (rt : runtime) (segment_text : string) (seg_start seg_end : Q)
    (cfg : LLMPlannerConfig) (video_id : string) (seg_index : Z)
    (llm : option provider) : M pyval :=
  if text_too_short segment_text cfg then ret (VList [])
  else
    let segment_duration := seg_end - seg_start in
    if Qlt_bool segment_duration (planner_min_gap_sec cfg) then ret (VList [])
    else
      let key := cache_key video_id seg_index (text_hash rt segment_text) "points" in
      cached <- _get_cached_result key (suspicion_llm_cache_ttl_sec cfg) ;;
      match cached with
      | Some cached =>
          (* cached["_cache_hit"] = True, on the dictionary held by the cache *)
          _ <- modify (fun w =>
                 set_caches (<[key := dict_set "_cache_hit" (VBool true) cached]> (_cache w))
                            (_cache_timestamps w) w) ;;
          ret (dict_get_default "points" (VList []) cached)
      | None =>
          max_points <- lift (max_points_for_segment segment_duration (planner_min_gap_sec cfg)) ;;
          try_except
            (l <- provided_llm rt cfg llm ;;
             match l with
             | None => ret (VList [])
             | Some l =>
                 start_time <- time_time ;;
                 result <- invoke l (PlanningPrompt seg_start seg_end segment_duration
                                       (strip segment_text) max_points
                                       (planner_min_gap_sec cfg)) ;;
                 end_time <- time_time ;;
                 let latency := latency_ms start_time end_time in
                 match is_success result with
                 | Some result =>
                     let raw_points := dict_get_default "points" (VList []) result in
                     let reason := str_of rt (dict_get_default "reason" (VStr "") result) in
                     let raw_points :=
                       match raw_points with VList l => l | _ => [] end in
                     points <- lift (absolute_points rt seg_start segment_duration raw_points) ;;
                     let points := py_sorted Qle_bool points in
                     let filtered_points := min_gap_filter (planner_min_gap_sec cfg) points in
                     let filtered_points := take (Z.to_nat max_points) filtered_points in
                     let cache_result :=
                       [("points", float_list filtered_points);
                        ("reason", VStr reason);
                        ("_latency_ms", VInt latency);
                        ("_cache_hit", VBool false)] in
                     _ <- _set_cached_result key cache_result ;;
                     ret (float_list filtered_points)
                 | None => ret (VList [])
                 end
             end)
            (fun e => ret (VList []))
      end.

(** ** llm_planner.py: [merge_timestamps_with_planning] *)

(** An integer bound or [float('inf')]. *)
Inductive bound := Finite (n : Z) | Infinite.

Definition bound_min (a b : bound) : bound :=
  match a, b with
  | Finite x, Finite y => Finite (Z.min x y)
  | Finite x, Infinite => Finite x
  | Infinite, b => b
  end.

(** [n < b] *)
Definition below (n : Z) (b : bound) : bool :=
  match b with Finite m => (n <? m)%Z | Infinite => true end.

(** [ts in s] for a set of floats. *)
Definition mem (ts : Q) (s : list Q) : bool := existsb (Qeq_bool ts) s.

(** [set(l)]: one representative of each value. *)
Fixpoint py_set (l : list Q) : list Q :=
  match l with
  | [] => []
  | x :: l' => if mem x l' then py_set l' else x :: py_set l'
  end.

(** The last loop: a timestamp that is planned and not periodic is kept
    while fewer than [max_extra] of them have been. *)
Definition merge_step (periodic_set planned_set : list Q) (max_extra : bound)
    (st : list Q * Z) (ts : Q) : list Q * Z :=
  let '(final_timestamps, extra_added) := st in
  let is_extra := mem ts planned_set && negb (mem ts periodic_set) in
  if is_extra then
    if below extra_added max_extra then (final_timestamps ++ [ts], (extra_added + 1)%Z)
    else st
  else (final_timestamps ++ [ts], extra_added).

Definition merge_timestamps_with_planning (periodic_timestamps planned_timestamps : list Q)
    (cfg : LLMPlannerConfig) (max_frames_per_segment remaining_points_budget : option Z)
    : list Q :=
  let all_timestamps := py_set (periodic_timestamps ++ planned_timestamps) in
  let sorted_timestamps := py_sorted Qle_bool all_timestamps in
  let filtered_timestamps := min_gap_filter (planner_min_gap_sec cfg) sorted_timestamps in
  let planned_set := planned_timestamps in
  let periodic_set := periodic_timestamps in
  let max_extra_by_segment :=
    match max_frames_per_segment with
    | Some m =>
        if truthy (VInt m)
        then Finite (m - Z.of_nat (List.length periodic_timestamps))
        else Infinite
    | None => Infinite
    end in
  let max_extra_by_points :=
    match remaining_points_budget with Some b => Finite b | None => Infinite end in
  let max_extra_by_frames := Finite (planner_max_extra_frames cfg) in
  let max_extra :=
    bound_min (bound_min max_extra_by_segment max_extra_by_points) max_extra_by_frames in
  let '(final_timestamps, _) :=
    fold_left (merge_step periodic_set planned_set max_extra) filtered_timestamps ([], 0%Z) in
  py_sorted Qle_bool final_timestamps.

(** ** segment_analyzer.py: keyword suspicion *)

(** The table, in the order of the dictionary literal. *)
Definition SUSPICION_KEYWORDS : list (string * list string) :=
  [("hate",
    ["nazi"; "hitler"; "swastika"; "kkk"; "white power"; "n-word"; "jew"; "kike";
     "spic"; "chink"; "towelhead"; "raghead"; "faggot"; "tranny"; "retard"]);
   ("self_harm",
    ["suicide"; "kill myself"; "end it all"; "razor"; "cutting"; "self-harm";
     "overdose"; "pills"; "jump off"; "hang myself"]);
   ("nudity",
    ["naked"; "nude"; "penis"; "vagina"; "boobs"; "tits"; "ass"; "porn";
     "sex tape"; "masturbat"; "orgasm"; "horny"]);
   ("drugs",
    ["cocaine"; "heroin"; "meth"; "crack"; "weed"; "marijuana"; "molly";
     "ecstasy"; "lsd"; "acid"; "shrooms"; "xanax"; "oxy"; "fentanyl"]);
   ("violence",
    ["kill"; "murder"; "shoot"; "stab"; "beat up"; "fight"; "blood";
     "weapon"; "gun"; "knife"; "bomb"; "explosive"; "torture"]);
   ("abuse",
    ["molest"; "rape"; "assault"; "abuse"; "victim"; "predator";
     "kidnap"; "traffick"; "exploit"; "coerce"])].

(** The nested loops [for category, keywords in ...: for keyword in
    keywords: if keyword in text_lower: return ...]: the first hit in table
    order. *)
Fixpoint first_keyword (keywords : list string) (text_lower : string) : option string :=
  match keywords with
  | [] => None
  | keyword :: rest =>
      if contains keyword text_lower then Some keyword
      else first_keyword rest text_lower
  end.

Fixpoint first_match (table : list (string * list string)) (text_lower : string)
    : option (string * string) :=
  match table with
  | [] => None
  | (category, keywords) :: rest =>
      match first_keyword keywords text_lower with
      | Some keyword => Some (category, keyword)
      | None => first_match rest text_lower
      end
  end.

(** The branch [mode == "keywords"] of [score_suspicion]. *)
Definition score_keywords (segment_text : string) : pydict :=
  if negb (truthy (VStr segment_text)) then
    [("suspicious", VBool false); ("confidence", VFloat (PFin 0));
     ("method", VStr "keywords"); ("reason", VStr "No text available")]
  else
    let text_lower := lower segment_text in
    match first_match SUSPICION_KEYWORDS text_lower with
    | Some (category, keyword) =>
        [("suspicious", VBool true); ("confidence", VFloat (PFin 0.8));
         ("method", VStr "keywords"); ("category", VStr category);
         ("keyword", VStr keyword);
         ("reason", VStr ("Keyword '" +:+ keyword +:+ "' found in " +:+ category))]
    | None =>
        [("suspicious", VBool false); ("confidence", VFloat (PFin 0.9));
         ("method", VStr "keywords");
         ("reason", VStr "No suspicious keywords found")]
    end.

(** [d[k]] *)
Definition item {S} (k : string) (d : pydict) : ST S pyval :=
  match dict_get k d with
  | Some v => ret v
  | None => raise (Exn KeyError k)
  end.

(** [v >= threshold] for a float threshold. *)
Definition py_ge (v : pyval) (threshold : Q) : outcome bool :=
  match v with
  | VFloat x => Returned (pf_le (PFin threshold) x)
  | VInt n => Returned (Qle_bool threshold (inject_Z n))
  | VBool b => Returned (Qle_bool threshold (if b then 1 else 0))
  | _ => Raised (Exn TypeError "'>=' not supported")
  end.

(** [score_suspicion]; its calls to itself with mode ["keywords"] are the
    calls of [score_keywords]. *)
Definition score_suspicion (rt : runtime) (segment_text mode : string)
    (planner_cfg : option LLMPlannerConfig) (video_id : string) (seg_index : Z)
    (llm : option provider) : M pydict :=
  if String.eqb mode "off" then
    ret [("suspicious", VBool false); ("confidence", VFloat (PFin 0));
         ("method", VStr "off"); ("reason", VStr "Suspicion scoring disabled")]
  else if String.eqb mode "keywords" then ret (score_keywords segment_text)
  else if String.eqb mode "llm" then
    match planner_cfg with
    | None => ret (score_keywords segment_text)
    | Some planner_cfg =>
        try_except
          (llm_result <- suspicion_score rt segment_text planner_cfg video_id seg_index llm ;;
           let llm_result := dict_set "method" (VStr "llm") llm_result in
           if truthy (dict_get_default "_error" VNone llm_result)
           then ret (score_keywords segment_text)
           else
             confidence <- item "confidence" llm_result ;;
             above <- lift (py_ge confidence (suspicion_llm_conf_threshold planner_cfg)) ;;
             let llm_result :=
               if (above : bool) then dict_set "suspicious" (VBool true) llm_result
               else llm_result in
             (* the debug message reads llm_result['suspicious'] *)
             _ <- item "suspicious" llm_result ;;
             ret llm_result)
          (fun e => ret (score_keywords segment_text))
    end
  else ret (score_keywords segment_text).

(** ** segment_analyzer.py: [segment_transcript], [sample_frames] *)

(** [s[a:b]] with Python's treatment of negative and large indices. *)
Definition slice_index (i n : Z) : Z :=
  if (i <? 0)%Z then Z.max 0 (n + i) else Z.min i n.

Definition str_slice (s : string) (a b : Z) : string :=
  let n := len s in
  let a := slice_index a n in
  let b := slice_index b n in
  String.substring (Z.to_nat a) (Z.to_nat (b - a)) s.

Definition segment_transcript (full_text : string) (word_timestamps : list (string * Q))
    (start end_ : Q) : string :=
  let segment_text :=
    match word_timestamps with
    | [] =>
        if negb (truthy (VStr full_text)) then ""
        else
          let duration_ratio := py_min 1 ((end_ - start) / 300) in
          let text_len := inject_Z (len full_text) in
          let start_char := Qtrunc ((start / 300) * text_len) in
          let end_char := Qtrunc (inject_Z start_char + duration_ratio * text_len) in
          str_slice full_text start_char end_char
    | _ =>
        let segment_words :=
          map fst (filter (fun wt => Is_true (Qle_bool start (snd wt) && Qle_bool (snd wt) end_))
                          word_timestamps) in
        String.concat " " segment_words
    end in
  if (1000 <? len segment_text)%Z then str_take 1000 segment_text +:+ "..."
  else segment_text.

(** [l[:cap]] *)
Definition list_prefix {A} (cap : Z) (l : list A) : list A :=
  take (Z.to_nat (slice_index cap (Z.of_nat (List.length l)))) l.

(** [while current < end and len(ts) < cap: ts.append(current); current +=
    interval]; the length test bounds the number of rounds by [cap]. *)
Fixpoint periodic_from (rounds : nat) (current end_ interval : Q) : list Q :=
  match rounds with
  | O => []
  | S rounds =>
      if Qlt_bool current end_
      then current :: periodic_from rounds (current + interval) end_ interval
      else []
  end.

Definition periodic_timestamps (start end_ interval : Q) (cap : Z) : list Q :=
  periodic_from (Z.to_nat cap) start end_ interval.

(** The frame dictionaries [{'ts': ..., 'path': ...}] as pairs. *)
Definition sample_frames (rt : runtime) (video_path : string) (start end_ interval_sec : Q)
    (cap : Z) (timestamps : option (list Q)) : list (Q * string) :=
  let segment_timestamps :=
    match timestamps with
    | Some timestamps =>
        list_prefix cap
          (filter (fun ts => Is_true (Qle_bool start ts && Qle_bool ts end_)) timestamps)
    | None => periodic_timestamps start end_ interval_sec cap
    end in
  match extract_frames rt video_path segment_timestamps with
  | Returned frame_paths =>
      (* results[i] exists when i < len(segment_timestamps) *)
      zip segment_timestamps frame_paths
  | Raised _ => []
  end.

(** ** segment_analyzer.py: [llm_decide] *)

(** [(text or "").strip() or placeholder] *)
Definition block_or (text placeholder : string) : string :=
  let b := strip text in
  if truthy (VStr b) then b else placeholder.

(** [a or b] *)
Definition py_or (a b : pyval) : pyval := if truthy a then a else b.

Definition safe_default_decision : pydict :=
  [("is_harmful", VBool false); ("confidence", VFloat (PFin 0));
   ("categories", VList []);
   ("explanation", VStr "Analysis failed - assuming safe")].

Definition llm_decide (rt : runtime) (audio_text ocr_text captions_text : string)
    (llm : provider) : M pydict :=
  let audio_block := block_or audio_text "No audio transcript available" in
  let ocr_block := block_or ocr_text "No OCR text detected" in
  let captions_block := block_or captions_text "No image descriptions available" in
  normalized <-
    try_except
      (result <- invoke llm (DecisionPrompt audio_block ocr_block captions_block) ;;
       match result with
       | VDict result =>
           if dict_has "error" result then ret None
           else
             let is_harmful :=
               truthy (dict_get_default "pred_is_harmful" (VBool false) result) in
             confidence <-
               lift (py_float rt (dict_get_default "confidence" (VFloat (PFin 0)) result)) ;;
             let confidence := clamp01 confidence in
             let categories := dict_get_default "harm_categories" (VList []) result in
             let categories :=
               match categories with VList _ => categories | _ => VList [] end in
             let explanation :=
               str_of rt
                 (py_or (dict_get_default "explanation" (VStr "") result)
                   (py_or (dict_get_default "rationale" (VStr "") result)
                     (py_or (dict_get_default "reason" (VStr "") result)
                            (dict_get_default "justification" (VStr "") result)))) in
             ret (Some [("is_harmful", VBool is_harmful);
                        ("confidence", VFloat confidence);
                        ("categories", categories);
                        ("explanation", VStr explanation);
                        ("_token_usage", dict_get_default "_token_usage" VNone result)])
       | _ => ret None
       end)
      (fun e => ret None) ;;
  match normalized with
  | Some decision => ret decision
  | None => ret safe_default_decision
  end.

(** ** segment_analyzer.py: [format_timestamp] *)

(** [f"{n:02d}"] *)
Definition format_02d (n : Z) : string :=
  if ((0 <=? n) && (n <? 10))%Z then "0" +:+ pretty n else pretty n.

Definition format_timestamp (rt : runtime) (seconds : Q) : string :=
  let hours := Qfloor (seconds / 3600) in
  let rem := seconds - 3600 * inject_Z (Qfloor (seconds / 3600)) in
  let minutes := Qfloor (rem / 60) in
  let secs := seconds - 60 * inject_Z (Qfloor (seconds / 60)) in
  format_02d hours +:+ ":" +:+ format_02d minutes +:+ ":" +:+ format_secs rt secs.

(** ** segment_analyzer.py: [_apply_text_hygiene] *)

(** [s.split(sep, 1)[1]] for a separator that occurs in [s]: what follows
    its first occurrence. *)
Fixpoint after_first (sep s : string) : string :=
  if String.prefix sep s
  then String.substring (String.length sep) (String.length s - String.length sep) s
  else match s with
       | String _ s' => after_first sep s'
       | EmptyString => EmptyString
       end.

(** The text of a part after its timestamp, for the comparison. *)
Definition part_content (part : string) : string :=
  if contains "] " part then after_first "] " part else part.

(** The loop that drops a part whose content equals that of the part kept
    last; [prev_content] is [None] before the first part. *)
Fixpoint dedupe_parts (prev_content : option string) (text_parts : list string)
    : list string :=
  match text_parts with
  | [] => []
  | part :: rest =>
      let content := part_content part in
      let differs :=
        match prev_content with
        | Some prev => negb (String.eqb content prev)
        | None => true
        end in
      if differs then part :: dedupe_parts (Some content) rest
      else dedupe_parts prev_content rest
  end.

(** [s.rfind(c)] for a single character: the index of its last occurrence,
    or -1. *)
Fixpoint rfind (c : ascii) (s : string) : Z :=
  match s with
  | EmptyString => (-1)%Z
  | String x s' =>
      let r := rfind c s' in
      if (r =? -1)%Z then (if Ascii.eqb x c then 0 else -1)%Z else (r + 1)%Z
  end.

Definition _apply_text_hygiene (text_parts : list string) (max_chars : Z) : string :=
  match text_parts with
  | [] => ""
  | _ =>
      let deduped_parts := dedupe_parts None text_parts in
      let full_text := String.concat "; " deduped_parts in
      if (max_chars <? len full_text)%Z then
        let truncated := str_slice full_text 0 max_chars in
        let last_period := rfind "." truncated in
        let last_semicolon := rfind ";" truncated in
        let cut_point := Z.max last_period last_semicolon in
        if Qgt_bool (inject_Z cut_point) (inject_Z max_chars * 0.8)
        then str_slice truncated 0 (cut_point + 1) +:+ "..."
        else truncated +:+ "..."
      else full_text
  end.

(** ** segment_analyzer.py: [analyze_segments] *)

(** *** Dynamic operations the loop applies to values *)

(** [v == s] for a string literal [s]. *)
Definition py_eq_str (v : pyval) (s : string) : bool :=
  match v with VStr x => String.eqb x s | _ => false end.

(** [v[:n]] *)
Definition py_prefix (n : Z) (v : pyval) : outcome pyval :=
  match v with
  | VList l => Returned (VList (list_prefix n l))
  | VStr s => Returned (VStr (str_slice s 0 n))
  | _ => Raised (Exn TypeError "object is not subscriptable")
  end.

(** [len(v)] *)
Definition py_len (v : pyval) : outcome Z :=
  match v with
  | VList l => Returned (Z.of_nat (List.length l))
  | VStr s => Returned (len s)
  | VDict d => Returned (Z.of_nat (List.length d))
  | _ => Raised (Exn TypeError "object has no len()")
  end.

(** The planned timestamps as the list of floats that
    [merge_timestamps_with_planning] is written for.  [propose_points] only
    stores and returns lists of finite floats; on any other value the
    concatenation, the set or the sort of the merge raises. *)
Fixpoint as_timestamps_list (l : list pyval) : outcome (list Q) :=
  match l with
  | [] => Returned []
  | v :: l' =>
      match v, as_timestamps_list l' with
      | VFloat (PFin q), Returned qs => Returned (q :: qs)
      | VInt n, Returned qs => Returned (inject_Z n :: qs)
      | VBool b, Returned qs => Returned ((if b then 1 else 0) :: qs)
      | _, Raised e => Raised e
      | _, _ => Raised (Exn TypeError "timestamps are not comparable")
      end
  end.

Definition as_timestamps (v : pyval) : outcome (list Q) :=
  match v with
  | VList l => as_timestamps_list l
  | _ => Raised (Exn TypeError "can only concatenate list to list")
  end.

(** [int(v * 100)]: on a float, the product is the rounded float product,
    and [int] raises on an infinity. *)
Definition int_times_100 (v : pyval) : outcome Z :=
  match v with
  | VFloat (PFin q) =>
      let product := float_mul q 100 in
      if float_overflows product
      then Raised (Exn OverflowError "cannot convert float infinity to integer")
      else Returned (Qtrunc product)
  | VFloat PNaN => Raised (Exn ValueError "cannot convert float NaN to integer")
  | VFloat _ => Raised (Exn OverflowError "cannot convert float infinity to integer")
  | VInt n => Returned (n * 100)%Z
  | VBool b => Returned (if b then 100 else 0)%Z
  | VStr _ | VList _ => Raised (Exn ValueError "invalid literal for int()")
  | _ => Raised (Exn TypeError "unsupported operand type(s) for *")
  end.

Definition pf_add (x y : pyfloat) : pyfloat :=
  match x, y with
  | PNaN, _ | _, PNaN => PNaN
  | PFin a, PFin b => PFin (a + b)
  | PInf, PNegInf | PNegInf, PInf => PNaN
  | PInf, _ | _, PInf => PInf
  | PNegInf, _ | _, PNegInf => PNegInf
  end.

(** [a + b] on numbers. *)
Definition py_add (a b : pyval) : outcome pyval :=
  let as_int v := match v with VInt n => Some n | VBool b => Some (if b then 1 else 0)%Z
                               | _ => None end in
  let as_float v := match v with
                    | VFloat x => Some x
                    | VInt n => Some (PFin (inject_Z n))
                    | VBool b => Some (PFin (if b then 1 else 0))
                    | _ => None end in
  match as_int a, as_int b with
  | Some x, Some y => Returned (VInt (x + y))
  | _, _ =>
      match as_float a, as_float b with
      | Some x, Some y => Returned (VFloat (pf_add x y))
      | _, _ => Raised (Exn TypeError "unsupported operand type(s) for +=")
      end
  end.

(** *** The variables of a run *)

(** The variables that live across the iterations of the loop, with the
    configuration object (the loop assigns to [cfg.suspicion_mode]) and the
    process state.  [budget_trace] is a ghost field: the successive values of
    the two counters, one entry per assignment. *)
Record run := {
  suspicion_llm_calls : Z;
  planned_points_total : Z;
  harmful_events : list pydict;
  total_tokens : pydict;
  run_cfg : SegmentationConfig;
  run_world : world;
  budget_trace : list (Z * Z)
}.

Definition set_suspicion_mode (mode : string) (cfg : SegmentationConfig)
    : SegmentationConfig :=
  {| min_len_sec := min_len_sec cfg; max_len_sec := max_len_sec cfg;
     scene_threshold := scene_threshold cfg;
     sample_interval_sec := sample_interval_sec cfg;
     batch_size := batch_size cfg;
     nltk_min_sentence_chars := nltk_min_sentence_chars cfg;
     max_iterations := max_iterations cfg;
     merge_threshold_factor := merge_threshold_factor cfg;
     non_overlap_tolerance_sec := non_overlap_tolerance_sec cfg;
     max_len_soft_factor := max_len_soft_factor cfg;
     trim_to_transcript_boundaries := trim_to_transcript_boundaries cfg;
     context_evidence_pad_sec := context_evidence_pad_sec cfg;
     drop_tiny_after_trim_factor := drop_tiny_after_trim_factor cfg;
     seg_safe_sample_sec := seg_safe_sample_sec cfg;
     seg_suspicious_sample_sec := seg_suspicious_sample_sec cfg;
     max_frames_per_segment := max_frames_per_segment cfg;
     suspicion_mode := mode;
     seg_llm_timeout_sec := seg_llm_timeout_sec cfg |}.

(** [suspicion_llm_calls += 1] *)
Definition count_suspicion_call (r : run) : run :=
  {| suspicion_llm_calls := suspicion_llm_calls r + 1;
     planned_points_total := planned_points_total r;
     harmful_events := harmful_events r; total_tokens := total_tokens r;
     run_cfg := run_cfg r; run_world := run_world r;
     budget_trace :=
       budget_trace r ++ [(suspicion_llm_calls r + 1, planned_points_total r)%Z] |}.

(** [planned_points_total += n] *)
Definition count_planned_points (n : Z) (r : run) : run :=
  {| suspicion_llm_calls := suspicion_llm_calls r;
     planned_points_total := planned_points_total r + n;
     harmful_events := harmful_events r; total_tokens := total_tokens r;
     run_cfg := run_cfg r; run_world := run_world r;
     budget_trace :=
       budget_trace r ++ [(suspicion_llm_calls r, planned_points_total r + n)%Z] |}.

(** [cfg.suspicion_mode = "keywords"] *)
Definition switch_to_keywords (r : run) : run :=
  {| suspicion_llm_calls := suspicion_llm_calls r;
     planned_points_total := planned_points_total r;
     harmful_events := harmful_events r; total_tokens := total_tokens r;
     run_cfg := set_suspicion_mode "keywords" (run_cfg r);
     run_world := run_world r; budget_trace := budget_trace r |}.

(** [harmful_events.append(harmful_event)] *)
Definition append_event (harmful_event : pydict) (r : run) : run :=
  {| suspicion_llm_calls := suspicion_llm_calls r;
     planned_points_total := planned_points_total r;
     harmful_events := harmful_events r ++ [harmful_event];
     total_tokens := total_tokens r;
     run_cfg := run_cfg r; run_world := run_world r;
     budget_trace := budget_trace r |}.

Definition set_total_tokens (t : pydict) (r : run) : run :=
  {| suspicion_llm_calls := suspicion_llm_calls r;
     planned_points_total := planned_points_total r;
     harmful_events := harmful_events r; total_tokens := t;
     run_cfg := run_cfg r; run_world := run_world r;
     budget_trace := budget_trace r |}.

Definition set_run_world (w : world) (r : run) : run :=
  {| suspicion_llm_calls := suspicion_llm_calls r;
     planned_points_total := planned_points_total r;
     harmful_events := harmful_events r; total_tokens := total_tokens r;
     run_cfg := run_cfg r; run_world := w; budget_trace := budget_trace r |}.

(** A planner or provider computation, run on the process state of the
    run. *)
Definition in_world {A} (m : M A) : ST run A :=
  fun r => let '(a, w) := m (run_world r) in (a, set_run_world w r).

(** *** The loop body, step by step *)

(** Step 1. *)
Definition segment_text_of (rt : runtime) (video_path : string)
    (full_text : option string) (word_timestamps : option (list (string * Q)))
    (start end_ : Q) : string :=
  match full_text, word_timestamps with
  | Some full_text, Some word_timestamps =>
      segment_transcript full_text word_timestamps start end_
  | _, _ => transcribe_clip rt video_path start end_
  end.

(** The pre-check of step 2: the mode handed to [score_suspicion]. *)
Definition current_suspicion_mode (planner_cfg : LLMPlannerConfig) (r : run) : string :=
  if String.eqb (suspicion_mode (run_cfg r)) "llm"
     && (suspicion_llm_max_segments planner_cfg <=? suspicion_llm_calls r)%Z
  then "keywords" else suspicion_mode (run_cfg r).

(** Step 2: score, count the call, switch the mode once the budget is used. *)
Definition suspicion_step (rt : runtime) (planner_cfg : LLMPlannerConfig)
    (video_id : string) (i : Z) (llm : provider) (segment_text : string)
    : ST run pydict :=
  r <- get ;;
  suspicion_result <-
    in_world (score_suspicion rt segment_text (current_suspicion_mode planner_cfg r)
                (Some planner_cfg) video_id i (Some llm)) ;;
  _ <- (if String.eqb (suspicion_mode (run_cfg r)) "llm"
           && py_eq_str (dict_get_default "method" VNone suspicion_result) "llm"
           && negb (truthy (dict_get_default "_cache_hit" (VBool false) suspicion_result))
        then modify count_suspicion_call else ret tt) ;;
  r <- get ;;
  _ <- (if String.eqb (suspicion_mode (run_cfg r)) "llm"
           && (suspicion_llm_max_segments planner_cfg <=? suspicion_llm_calls r)%Z
        then modify switch_to_keywords else ret tt) ;;
  ret suspicion_result.

(** The guard of step 3. *)
Definition planning_allowed (planner_cfg : LLMPlannerConfig) (planning_mode : string)
    (is_suspicious : pyval) (r : run) : bool :=
  (String.eqb planning_mode "llm" || String.eqb planning_mode "hybrid")
  && truthy is_suspicious
  && (planned_points_total r <? planner_llm_max_points planner_cfg)%Z.

(** Step 3: the planned timestamps of the segment ([[]] unless the guard
    holds and the inner [try] completes). *)
Definition planning_step (rt : runtime) (planner_cfg : LLMPlannerConfig)
    (planning_mode video_id : string) (i : Z) (llm : provider)
    (segment_text : string) (start end_ : Q) (is_suspicious : pyval)
    : ST run pyval :=
  r <- get ;;
  if planning_allowed planner_cfg planning_mode is_suspicious r then
    try_except
      (proposed_points <-
         in_world (propose_points rt segment_text start end_ planner_cfg video_id i (Some llm)) ;;
       r <- get ;;
       let remaining_budget :=
         (planner_llm_max_points planner_cfg - planned_points_total r)%Z in
       planned_timestamps <- lift (py_prefix remaining_budget proposed_points) ;;
       n <- lift (py_len planned_timestamps) ;;
       _ <- modify (count_planned_points n) ;;
       ret planned_timestamps)
      (fun e => ret (VList []))
  else ret (VList []).

(** Step 4. *)
Definition final_timestamps_of (planner_cfg : LLMPlannerConfig) (start end_ interval : Q)
    (planned_timestamps : pyval) : ST run (list Q) :=
  r <- get ;;
  let periodic := periodic_timestamps start end_ interval
                    (max_frames_per_segment (run_cfg r)) in
  if truthy planned_timestamps then
    let remaining_points_budget :=
      (planner_llm_max_points planner_cfg - planned_points_total r)%Z in
    planned <- lift (as_timestamps planned_timestamps) ;;
    ret (merge_timestamps_with_planning periodic planned planner_cfg
           (Some (max_frames_per_segment (run_cfg r))) (Some remaining_points_budget))
  else ret periodic.

(** Step 8: the event dictionary. *)
Definition harmful_event_of (rt : runtime) (planning_mode : string) (start end_ : Q)
    (segment_text captions ocr : string) (num_frames : nat)
    (decision suspicion_result : pydict) (planned_timestamps : pyval)
    : ST run pydict :=
  let analysis_performed :=
    [VStr "frame_extraction"; VStr "audio_analysis"]
    ++ (if truthy (VStr captions) then
          if contains "Caption:" captions then [VStr "image_captioning"]
          else [VStr "image_classification"]
        else [])
    ++ (if truthy (VStr ocr) then [VStr "ocr"] else []) in
  confidence <- item "confidence" decision ;;
  confidence <- lift (int_times_100 confidence) ;;
  explanation <- item "explanation" decision ;;
  categories <- item "categories" decision ;;
  planned_points <-
    (if truthy planned_timestamps then lift (py_len planned_timestamps) else ret 0%Z) ;;
  ret [("segment_start", VStr (format_timestamp rt start));
       ("segment_end", VStr (format_timestamp rt end_));
       ("analysis_mode", VStr "region");
       ("num_frames", VInt (Z.of_nat num_frames));
       ("analysis_performed", VList analysis_performed);
       ("audio_evidence", VStr segment_text);
       ("analysis_data",
        VDict [("is_harmful", VBool true);
               ("needs_verification", VBool false);
               ("confidence", VInt confidence);
               ("explanation", explanation);
               ("categories", categories);
               ("suspicion_method",
                dict_get_default "method" (VStr "unknown") suspicion_result);
               ("planning_mode", VStr planning_mode);
               ("planned_points", VInt planned_points)])].

(** [total_tokens[k] += tokens_used.get(k, 0)] *)
Definition add_tokens (k : string) (tokens_used : pydict) : ST run unit :=
  r <- get ;;
  old <- item k (total_tokens r) ;;
  new <- lift (py_add old (dict_get_default k (VInt 0) tokens_used)) ;;
  modify (set_total_tokens (dict_set k new (total_tokens r))).

Definition aggregate_tokens (decision : pydict) : ST run unit :=
  let tokens_used := dict_get_default "_token_usage" VNone decision in
  if truthy tokens_used then
    match tokens_used with
    | VDict tokens_used =>
        _ <- add_tokens "prompt_tokens" tokens_used ;;
        add_tokens "completion_tokens" tokens_used
    | _ => raise (Exn AttributeError "object has no attribute 'get'")
    end
  else ret tt.

(** The body of the [try] for segment [i].  The metrics calls that follow
    the token aggregation write to the log only and are left out. *)
Definition analyze_segment (rt : runtime) (planner_cfg : LLMPlannerConfig)
    (video_id video_path : string) (llm : provider)
    (full_text : option string) (word_timestamps : option (list (string * Q)))
    (planning_mode : string) (i : Z) (seg : segment) : ST run unit :=
  let start := seg_start seg in
  let end_ := seg_end seg in
  let segment_text :=
    segment_text_of rt video_path full_text word_timestamps start end_ in
  suspicion_result <- suspicion_step rt planner_cfg video_id i llm segment_text ;;
  is_suspicious <- item "suspicious" suspicion_result ;;
  planned_timestamps <-
    planning_step rt planner_cfg planning_mode video_id i llm segment_text
      start end_ is_suspicious ;;
  r <- get ;;
  let interval :=
    if truthy is_suspicious then seg_suspicious_sample_sec (run_cfg r)
    else seg_safe_sample_sec (run_cfg r) in
  final_timestamps <- final_timestamps_of planner_cfg start end_ interval planned_timestamps ;;
  let frame_infos :=
    sample_frames rt video_path start end_ interval
      (max_frames_per_segment (run_cfg r)) (Some final_timestamps) in
  match frame_infos with
  | [] => ret tt (* continue *)
  | _ =>
      evidence <- lift (collect_evidence rt frame_infos) ;;
      let captions := fst evidence in
      let ocr := snd evidence in
      decision <- in_world (llm_decide rt segment_text ocr captions llm) ;;
      is_harmful <- item "is_harmful" decision ;;
      _ <- (if truthy is_harmful then
              harmful_event <-
                harmful_event_of rt planning_mode start end_ segment_text captions ocr
                  (List.length frame_infos) decision suspicion_result planned_timestamps ;;
              modify (append_event harmful_event)
            else ret tt) ;;
      aggregate_tokens decision
  end.

(** [for i, segment in enumerate(segments): try: ... except Exception:
    continue], from index [i] on. *)
Fixpoint analyze_loop (rt : runtime) (planner_cfg : LLMPlannerConfig)
    (video_id video_path : string) (llm : provider)
    (full_text : option string) (word_timestamps : option (list (string * Q)))
    (planning_mode : string) (i : Z) (segments : list segment) : ST run unit :=
  match segments with
  | [] => ret tt
  | seg :: rest =>
      _ <- try_except
             (analyze_segment rt planner_cfg video_id video_path llm
                full_text word_timestamps planning_mode i seg)
             (fun e => ret tt) ;;
      analyze_loop rt planner_cfg video_id video_path llm
        full_text word_timestamps planning_mode (i + 1)%Z rest
  end.

(** The variables as they are set before the loop. *)
Definition start_of_run (cfg : SegmentationConfig) (w : world) : run :=
  {| suspicion_llm_calls := 0; planned_points_total := 0;
     harmful_events := [];
     total_tokens := [("prompt_tokens", VInt 0); ("completion_tokens", VInt 0)];
     run_cfg := cfg; run_world := w; budget_trace := [(0, 0)%Z] |}.

(** [analyze_segments]: the returned pair, and the variables at the end of
    the run (with the configuration object and the process state as the
    run leaves them).  The planner configuration is read from the
    environment and validated; a failure of either ends the call before the
    loop. *)
Definition analyze_segments (rt : runtime) (video_id video_path : string)
    (segments : list segment) (cfg : SegmentationConfig) (llm : provider)
    (full_text : option string) (word_timestamps : option (list (string * Q)))
    (planning_mode : string) (w : world)
    : outcome (list pydict * pydict) * run :=
  let r0 := start_of_run cfg w in
  match planner_config_from_env rt with
  | Raised e => (Raised e, r0)
  | Returned planner_cfg =>
      if LLMPlannerConfig_validate planner_cfg then
        match analyze_loop rt planner_cfg video_id video_path llm
                full_text word_timestamps planning_mode 0%Z segments r0 with
        | (Returned _, r) => (Returned (harmful_events r, total_tokens r), r)
        | (Raised e, r) => (Raised e, r)
        end
      else (Raised (Exn ValueError "invalid planner configuration"), r0)
  end.

(** ** segmentation.py: splitting and merging segments *)

(** A segment dictionary with the keys ['start'], ['end'] and, when present,
    ['text']. *)
Record span := mk_span { span_start : Q; span_end : Q; span_text : option string }.

Definition span_duration (seg : span) : Q := span_end seg - span_start seg.

(** [seg.get('text', '')] *)
Definition text_of (seg : span) : string := default "" (span_text seg).

(** The loop of [force_split_smart], from index [i] on: [rounds] indices
    are left, [current_start] is the start of the next piece.  The pieces
    are listed in the order in which they are appended; the [break] ends the
    list. *)
Fixpoint force_split_loop (rounds : nat) (i num_segments : Z)
    (segment_duration end_ min_len current_start : Q) : list span :=
  match rounds with
  | O => []
  | S rounds =>
      let segment_end :=
        if (i =? num_segments - 1)%Z then end_ else current_start + segment_duration in
      if (i =? num_segments - 2)%Z && Qlt_bool (end_ - segment_end) min_len then
        [mk_span current_start end_
           (Some ("Force split segment " +:+ pretty (i + 1)%Z +:+ "-"
                  +:+ pretty num_segments))]
      else
        mk_span current_start segment_end
          (Some ("Force split segment " +:+ pretty (i + 1)%Z))
        :: force_split_loop rounds (i + 1)%Z num_segments segment_duration end_ min_len
             segment_end
  end.

(** [x / y] on floats. *)
Definition py_div (x y : Q) : outcome Q :=
  if Qeq_bool y 0 then Raised (Exn ZeroDivisionError "float division by zero")
  else Returned (x / y).

(** The number of pieces and their duration, as [force_split_smart]
    computes them. *)
Definition force_split_plan (duration : Q) (cfg : SegmentationConfig) : outcome (Z * Q) :=
  match py_div duration (max_len_sec cfg) with
  | Raised e => Raised e
  | Returned ratio =>
      let num_segments := Qceiling ratio in
      match py_div duration (inject_Z num_segments) with
      | Raised e => Raised e
      | Returned segment_duration =>
          if Qlt_bool segment_duration (min_len_sec cfg) then
            match py_div duration (min_len_sec cfg) with
            | Raised e => Raised e
            | Returned ratio =>
                let num_segments := Z.max 1 (Qfloor ratio) in
                match py_div duration (inject_Z num_segments) with
                | Raised e => Raised e
                | Returned segment_duration => Returned (num_segments, segment_duration)
                end
            end
          else Returned (num_segments, segment_duration)
      end
  end.

Definition force_split_smart (seg : span) (cfg : SegmentationConfig) : outcome (list span) :=
  let start := span_start seg in
  let end_ := span_end seg in
  let duration := end_ - start in
  if Qle_bool duration (max_len_sec cfg) then Returned [seg]
  else
    match force_split_plan duration cfg with
    | Raised e => Raised e
    | Returned (num_segments, segment_duration) =>
        Returned (force_split_loop (Z.to_nat num_segments) 0 num_segments
                    segment_duration end_ (min_len_sec cfg) start)
    end.

(** [find_visual_boundaries]: [detect start end] stands for the sample
    times at which the similarity of two neighbouring frames falls below the
    threshold (none when the video cannot be read or the model fails); the
    function keeps those strictly inside the segment and sorts them. *)
Definition find_visual_boundaries (detect : Q -> Q -> list Q) (start end_ : Q) : list Q :=
  py_sorted Qle_bool
    (filter (fun t => Is_true (Qlt_bool start t && Qlt_bool t end_)) (detect start end_)).

(** One candidate in the loop over the candidates of [split_long_segment];
    [valid_splits] starts as [[start]] and is never empty. *)
Definition split_step (min_len end_ : Q) (valid_splits : list Q) (candidate : Q) : list Q :=
  match last valid_splits with
  | None => valid_splits
  | Some prev_end =>
      if Qle_bool candidate prev_end then valid_splits
      else if Qge_bool (candidate - prev_end) min_len then
        let remaining := end_ - candidate in
        if Qge_bool remaining min_len then valid_splits ++ [candidate]
        else if Qlt_bool remaining min_len && (1 <? Z.of_nat (length valid_splits))%Z
        then removelast valid_splits ++ [candidate]
        else valid_splits
      else valid_splits
  end.

(** The pieces between neighbouring split points, from index [i] on; a
    piece shorter than [min_len] is left out. *)
Fixpoint split_pieces (min_len : Q) (i : Z) (valid_splits : list Q) : list span :=
  match valid_splits with
  | seg_start :: ((seg_end :: _) as rest) =>
      (if Qge_bool (seg_end - seg_start) min_len
       then [mk_span seg_start seg_end (Some ("Split segment " +:+ pretty (i + 1)%Z))]
       else [])
      ++ split_pieces min_len (i + 1)%Z rest
  | _ => []
  end.

Definition split_long_segment (detect : Q -> Q -> list Q) (seg : span)
    (transcript : list span) (cfg : SegmentationConfig) : outcome (list span) :=
  let start := span_start seg in
  let end_ := span_end seg in
  let duration := end_ - start in
  if Qle_bool duration (max_len_sec cfg) then Returned [seg]
  else
    let visual_boundaries := find_visual_boundaries detect start end_ in
    let candidates :=
      visual_boundaries
      ++ map span_end
           (filter (fun t_seg => Is_true (Qlt_bool start (span_end t_seg)
                                          && Qlt_bool (span_end t_seg) end_))
              transcript) in
    match candidates with
    | [] => force_split_smart seg cfg
    | _ =>
        let candidates := py_sorted Qle_bool (py_set candidates) in
        let valid_splits :=
          fold_left (split_step (min_len_sec cfg) end_) candidates [start] ++ [end_] in
        match split_pieces (min_len_sec cfg) 0 valid_splits with
        | [] => force_split_smart seg cfg
        | result_segments => Returned result_segments
        end
    end.

(** [f"Merged: {a.get('text', '')} + {b.get('text', '')}"[:200]] *)
Definition merged_text (a b : span) : string :=
  str_slice ("Merged: " +:+ text_of a +:+ " + " +:+ text_of b) 0 200.

(** The merge pass at the head of every iteration of [process_segments]:
    a segment shorter than [min_len_sec] is merged with its successor when
    the two together do not pass [max_len_sec * merge_threshold_factor]. *)
Fixpoint merge_short (cfg : SegmentationConfig) (segments : list span) : list span :=
  match segments with
  | [] => []
  | current :: rest =>
      match rest with
      | next_seg :: rest' =>
          if Qlt_bool (span_duration current) (min_len_sec cfg) then
            let merged_duration := span_end next_seg - span_start current in
            if Qle_bool merged_duration (max_len_sec cfg * merge_threshold_factor cfg)
            then mk_span (span_start current) (span_end next_seg)
                   (Some (merged_text current next_seg))
                 :: merge_short cfg rest'
            else current :: merge_short cfg rest
          else current :: merge_short cfg rest
      | [] => [current]
      end
  end.

(** The split pass: every segment longer than [max_len_sec] is replaced by
    the result of [split_long_segment]. *)
Fixpoint split_all (detect : Q -> Q -> list Q) (transcript : list span)
    (cfg : SegmentationConfig) (segments : list span) : outcome (list span) :=
  match segments with
  | [] => Returned []
  | seg :: rest =>
      let here :=
        if Qgt_bool (span_duration seg) (max_len_sec cfg)
        then split_long_segment detect seg transcript cfg
        else Returned [seg] in
      match here with
      | Raised e => Raised e
      | Returned split_result =>
          match split_all detect transcript cfg rest with
          | Raised e => Raised e
          | Returned others => Returned (split_result ++ others)
          end
      end
  end.

(** [segments.sort(key=lambda x: x['start'])] *)
Definition sort_by_start (segments : list span) : list span :=
  py_sorted (fun a b => Qle_bool (span_start a) (span_start b)) segments.

(** The iterations of [process_segments]; [vit] tells whether [load_vit]
    succeeded, in which case the split pass runs.  The loop ends early when
    an iteration leaves the number of segments as it was. *)
Fixpoint iterate_segments (rounds : nat) (vit : bool) (detect : Q -> Q -> list Q)
    (transcript : list span) (cfg : SegmentationConfig) (segments : list span)
    : outcome (list span) :=
  match rounds with
  | O => Returned segments
  | S rounds =>
      let initial_count := length segments in
      let merged_segments := merge_short cfg segments in
      let after_split :=
        if vit then split_all detect transcript cfg merged_segments
        else Returned merged_segments in
      match after_split with
      | Raised e => Raised e
      | Returned segments =>
          let segments := sort_by_start segments in
          if Nat.eqb (length segments) initial_count then Returned segments
          else iterate_segments rounds vit detect transcript cfg segments
      end
  end.

(** The loop of [merge_tiny_segments]. *)
Fixpoint merge_tiny_loop (detect : Q -> Q -> list Q) (transcript : list span)
    (cfg : SegmentationConfig) (segments : list span) : outcome (list span) :=
  match segments with
  | [] => Returned []
  | current_seg :: rest =>
      let keep_and_go_on :=
        match merge_tiny_loop detect transcript cfg rest with
        | Raised e => Raised e
        | Returned result => Returned (current_seg :: result)
        end in
      if Qge_bool (span_duration current_seg) (min_len_sec cfg) then keep_and_go_on
      else
        match rest with
        | next_seg :: rest' =>
            let merged_duration := span_end next_seg - span_start current_seg in
            if Qle_bool merged_duration (max_len_sec cfg * 1.5) then
              let merged_seg :=
                mk_span (span_start current_seg) (span_end next_seg)
                  (Some (merged_text current_seg next_seg)) in
              let here :=
                if Qgt_bool merged_duration (max_len_sec cfg)
                then split_long_segment detect merged_seg transcript cfg
                else Returned [merged_seg] in
              match here with
              | Raised e => Raised e
              | Returned pieces =>
                  match merge_tiny_loop detect transcript cfg rest' with
                  | Raised e => Raised e
                  | Returned result => Returned (pieces ++ result)
                  end
              end
            else keep_and_go_on
        | [] => keep_and_go_on
        end
  end.

Definition merge_tiny_segments (detect : Q -> Q -> list Q) (transcript : list span)
    (cfg : SegmentationConfig) (segments : list span) : outcome (list span) :=
  if (Z.of_nat (length segments) <=? 1)%Z then Returned segments
  else merge_tiny_loop detect transcript cfg segments.

(** The final validation: a segment is kept, with its two bounds, when its
    duration is within the two limits or is positive. *)
Definition final_cleanup (cfg : SegmentationConfig) (segments : list span) : list segment :=
  map (fun seg => mk_segment (span_start seg) (span_end seg))
    (filter (fun seg =>
               Is_true ((Qge_bool (span_duration seg) (min_len_sec cfg)
                         && Qle_bool (span_duration seg) (max_len_sec cfg))
                        || Qgt_bool (span_duration seg) 0))
       segments).

(** [sorted(list(set(transcript_bounds)))] for the starts and ends of the
    transcript segments. *)
Definition transcript_bounds_of (transcript_segments : list span) : list Q :=
  py_sorted Qle_bool
    (py_set (concat (map (fun seg => [span_start seg; span_end seg]) transcript_segments))).

Definition process_segments (vit : bool) (detect : Q -> Q -> list Q)
    (transcript_segments : list span) (cfg : SegmentationConfig)
    : outcome (list segment) :=
  if negb (SegmentationConfig_validate cfg)
  then Raised (Exn ValueError "invalid segmentation configuration")
  else
    match transcript_segments with
    | [] => Returned []
    | _ =>
        let segments := sort_by_start transcript_segments in
        match iterate_segments (Z.to_nat (max_iterations cfg)) vit detect
                transcript_segments cfg segments with
        | Raised e => Raised e
        | Returned segments =>
            let tidy :=
              if vit then merge_tiny_segments detect transcript_segments cfg segments
              else Returned segments in
            match tidy with
            | Raised e => Raised e
            | Returned segments =>
                let final_segments :=
                  py_sorted (fun a b => Qle_bool (seg_start a) (seg_start b))
                    (final_cleanup cfg segments) in
                Returned (normalize_non_overlap final_segments
                            (transcript_bounds_of transcript_segments) cfg)
            end
        end
    end.

(** ** Fixtures for the closed examples *)

(** A process that has just started. *)
Definition empty_world : world :=
  {| _cache := ∅; _cache_timestamps := ∅; clock := 0; provider_log := [] |}.

(** A runtime for the examples: the strings it produces are placeholders
    (no example depends on them), no key or backend is configured, and every
    requested frame is extracted. *)
Definition example_runtime : runtime :=
  {| sha1_hexdigest := fun text => "da39a3ee5e6b4b0d3255bfef95601890afd80709";
     py_str := fun _ => "";
     float_of_str := fun _ => None;
     os_getenv := fun _ => None;
     SafetyLLM_new := fun _ => Raised (Exn RuntimeError "no provider configured");
     planner_config_from_env := Returned DEFAULT_PLANNER_CONFIG;
     format_secs := fun _ => "";
     transcribe_clip := fun _ _ _ => "";
     extract_frames := fun _ timestamps => Returned (map (fun _ => "frame.jpg") timestamps);
     collect_evidence := fun _ => Returned ("", "") |}.

(** A provider that finds every segment harmful, with confidence 0.87, and
    answers the planner and the suspicion scorer with the same object. *)
Definition harmful_provider : provider :=
  fun _ _ =>
    (Returned (VDict [("pred_is_harmful", VBool true);
                      ("confidence", VFloat (PFin 0.87));
                      ("harm_categories", VStr "drugs");
                      ("explanation", VStr "describes a sale")]),
     2).

(** A provider that reports harm with confidence 0.29. *)
Definition doubtful_provider : provider :=
  fun _ _ =>
    (Returned (VDict [("pred_is_harmful", VBool true);
                      ("confidence", VFloat (PFin 0.29));
                      ("harm_categories", VList [VStr "drugs"]);
                      ("explanation", VStr "mentions a sale")]),
     2).

(** A provider whose every reply is an error object. *)
Definition failing_provider : provider :=
  fun _ _ => (Returned (VDict [("error", VStr "API error 500")]), 1).

(** The planner configuration of the examples: the defaults, with LLM
    suspicion and planning switched on and a low minimum text length. *)
Definition llm_planner_config : LLMPlannerConfig := {|
  planning_mode := "llm";
  planner_suspicion_mode := "llm";
  suspicion_llm_model := None;
  suspicion_llm_timeout_sec := 8;
  suspicion_llm_conf_threshold := 0.6;
  suspicion_llm_max_segments := 50%Z;
  suspicion_llm_min_text_chars := 10%Z;
  suspicion_llm_cache_ttl_sec := 86400%Z;
  planner_llm_max_points := 5%Z;
  planner_min_gap_sec := 8;
  planner_max_extra_frames := 120%Z
|}.

(** A provider that scores every excerpt as suspicious (0.9) within a
    quarter of a second. *)
Definition scoring_provider : provider :=
  fun _ _ =>
    (Returned (VDict [("suspicious", VBool true);
                      ("confidence", VFloat (PFin 0.9));
                      ("category", VStr "drugs");
                      ("reason", VStr "mentions a sale")]),
     0.25).

(** A planner configuration with small budgets: one LLM suspicion call and
    two planned points per run. *)
Definition tight_planner_config : LLMPlannerConfig := {|
  planning_mode := "llm";
  planner_suspicion_mode := "llm";
  suspicion_llm_model := None;
  suspicion_llm_timeout_sec := 8;
  suspicion_llm_conf_threshold := 0.6;
  suspicion_llm_max_segments := 1%Z;
  suspicion_llm_min_text_chars := 10%Z;
  suspicion_llm_cache_ttl_sec := 86400%Z;
  planner_llm_max_points := 2%Z;
  planner_min_gap_sec := 8;
  planner_max_extra_frames := 120%Z
|}.

Definition tight_runtime : runtime :=
  {| sha1_hexdigest := sha1_hexdigest example_runtime;
     py_str := py_str example_runtime;
     float_of_str := float_of_str example_runtime;
     os_getenv := os_getenv example_runtime;
     SafetyLLM_new := SafetyLLM_new example_runtime;
     planner_config_from_env := Returned tight_planner_config;
     format_secs := format_secs example_runtime;
     transcribe_clip := transcribe_clip example_runtime;
     extract_frames := extract_frames example_runtime;
     collect_evidence := collect_evidence example_runtime |}.

(** A provider that finds every excerpt suspicious, proposes three probe
    points per segment, and decides that nothing is harmful. *)
Definition helpful_provider : provider :=
  fun _ p =>
    match p with
    | SuspicionPrompt _ =>
        (Returned (VDict [("suspicious", VBool true); ("confidence", VFloat (PFin 0.9));
                          ("category", VStr "drugs"); ("reason", VStr "mentions a sale")]),
         0.25)
    | PlanningPrompt _ _ _ _ _ _ =>
        (Returned (VDict [("points", VList [VInt 2; VInt 12; VFloat (PFin 22.5)]);
                          ("reason", VStr "gestures")]),
         0.5)
    | DecisionPrompt _ _ _ =>
        (Returned (VDict [("pred_is_harmful", VBool false);
                          ("confidence", VFloat (PFin 0.2));
                          ("explanation", VStr "a news report")]),
         2)
    end.

(** The segmentation defaults with LLM suspicion. *)
Definition llm_config : SegmentationConfig := set_suspicion_mode "llm" DEFAULT_CONFIG.

(** A transcript with a keyword in each of three half-minute segments. *)
Definition three_segments : list segment :=
  [mk_segment 0 30; mk_segment 30 60; mk_segment 60 90].
Definition drug_transcript : list (string * Q) :=
  [("they", 1); ("sold", 2); ("heroin", 3); ("there", 4);
   ("more", 31); ("heroin", 32); ("arrived", 33);
   ("and", 61); ("cocaine", 62); ("too", 63)].

(** A provider that flags every excerpt with a confidence that is not a
    probability. *)
Definition overconfident_provider : provider :=
  fun _ _ =>
    (Returned (VDict [("suspicious", VInt 1); ("confidence", VFloat PInf);
                      ("category", VInt 7)]),
     0.25).

(** A provider that flags every excerpt, with a confidence below the default
    threshold of 0.6. *)
Definition hesitant_provider : provider :=
  fun _ _ =>
    (Returned (VDict [("suspicious", VBool true); ("confidence", VFloat (PFin 0.3));
                      ("category", VStr "drugs"); ("reason", VStr "unclear")]),
     0.25).

(** The planner configuration of the examples with a gap of zero, which
    [validate] accepts. *)
Definition zero_gap_config : LLMPlannerConfig := {|
  planning_mode := "llm";
  planner_suspicion_mode := "llm";
  suspicion_llm_model := None;
  suspicion_llm_timeout_sec := 8;
  suspicion_llm_conf_threshold := 0.6;
  suspicion_llm_max_segments := 50%Z;
  suspicion_llm_min_text_chars := 10%Z;
  suspicion_llm_cache_ttl_sec := 86400%Z;
  planner_llm_max_points := 5%Z;
  planner_min_gap_sec := 0;
  planner_max_extra_frames := 120%Z
|}.

(** A segment of forty seconds, and a transcript with boundaries at 20 and
    38 seconds inside it. *)
Definition long_span : span := mk_span 0 40 (Some "a long stretch of speech").
Definition late_boundary : list span :=
  [mk_span 0 20 (Some "half of it"); mk_span 20 38 (Some "most of the rest");
   mk_span 38 40 (Some "the end")].

(** No scene change is detected. *)
Definition no_detection : Q -> Q -> list Q := fun _ _ => [].


(** ** Reading the emitted events *)

(** [harmful_event["analysis_data"][k]] *)
Definition analysis_data_get (k : string) (harmful_event : pydict) : option pyval :=
  match dict_get "analysis_data" harmful_event with
  | Some (VDict analysis_data) => dict_get k analysis_data
  | _ => None
  end.

(** The event was built from the decision of the [n]-th provider call of
    the process.  The log holds the prompt of that call, the decision
    prompt of [llm_decide] for the event's audio text; [decision] is what
    [llm_decide] returns for the provider's reply to that call; its
    [is_harmful] is true and its confidence [q] lies in [[0,1]]; and the
    event's confidence is the integer part of the float product [q * 100],
    which lies in [[0,100]].  The categories are the decision's. *)
Definition event_of_call (rt : runtime) (llm : provider) (log : list prompt)
    (harmful_event : pydict) (n : nat) : Prop :=
  exists segment_text ocr captions decision verdict q,
    log !! n = Some (DecisionPrompt
                       (block_or segment_text "No audio transcript available")
                       (block_or ocr "No OCR text detected")
                       (block_or captions "No image descriptions available")) /\
    (forall w, length (provider_log w) = n ->
       fst (llm_decide rt segment_text ocr captions llm w) = Returned decision) /\
    dict_get "audio_evidence" harmful_event = Some (VStr segment_text) /\
    dict_get "is_harmful" decision = Some verdict /\ truthy verdict = true /\
    dict_get "confidence" decision = Some (VFloat (PFin q)) /\ 0 <= q <= 1 /\
    analysis_data_get "confidence" harmful_event
      = Some (VInt (Qtrunc (float_mul q 100))) /\
    (0 <= Qtrunc (float_mul q 100) <= 100)%Z /\
    analysis_data_get "categories" harmful_event = dict_get "categories" decision.

(** ** The provider's reply to a call *)

(** The reply the provider [l] gives to prompt [p] when it is asked in the
    state [w]. *)
Definition reply_of (l : provider) (w : world) (p : prompt) : outcome pyval :=
  fst (l (List.length (provider_log w)) p).

(** ** What a planner call leaves in the cache

    Both tables are read after a look-up that has missed, in the state
    [w1] that the look-up leaves; [call] is the whole call, from the state
    [w] before the look-up. *)

(** [suspicion_score]: an entry is stored exactly when the provider's reply
    is a dictionary without "error" whose confidence converts to a float.
    In every other case the result is marked [_error] (or, without a
    provider, is the fallback) and there is no entry under the key. *)
Definition suspicion_call_stores (rt : runtime) (cfg : LLMPlannerConfig)
    (video_id : string) (seg_index : Z) (llm : option provider) (text : string)
    (w : world) : Prop :=
  let key := cache_key video_id seg_index (text_hash rt text) "suspicion" in
  let w1 := snd (_get_cached_result key (suspicion_llm_cache_ttl_sec cfg) w) in
  let call := suspicion_score rt text cfg video_id seg_index llm w in
  let stored :=
    exists result,
      fst call = Returned result /\
      dict_get "_cache_hit" result = Some (VBool false) /\
      dict_get "_error" result = None /\
      _cache (snd call) !! key = Some (dict_pop "_cache_hit" result) in
  let failed :=
    exists result,
      fst call = Returned result /\
      dict_get "_error" result = Some (VBool true) /\
      _cache (snd call) !! key = None in
  let not_asked :=
    exists result,
      fst call = Returned result /\
      dict_get "_cache_hit" result = None /\
      _cache (snd call) !! key = None /\
      provider_log (snd call) = provider_log w in
  match fst (provided_llm rt cfg llm w1) with
  | Returned (Some l) =>
      match reply_of l w1 (SuspicionPrompt (strip text)) with
      | Returned (VDict d) =>
          if dict_has "error" d then failed
          else
            match py_float rt (dict_get_default "confidence" (VFloat (PFin 0)) d) with
            | Returned _ => stored
            | Raised _ => failed
            end
      | _ => failed
      end
  | Returned None => not_asked
  | Raised _ => failed
  end.

(** [propose_points]: an entry is stored exactly when the reply is a
    dictionary without "error" and the conversion of its points does not
    raise; it holds the points that are returned.  In every other case the
    empty list is returned and there is no entry under the key. *)
Definition points_call_stores (rt : runtime) (cfg : LLMPlannerConfig)
    (video_id : string) (seg_index : Z) (llm : option provider)
    (segment_text : string) (seg_start seg_end : Q) (w : world) : Prop :=
  let key := cache_key video_id seg_index (text_hash rt segment_text) "points" in
  let w1 := snd (_get_cached_result key (suspicion_llm_cache_ttl_sec cfg) w) in
  let call := propose_points rt segment_text seg_start seg_end cfg video_id seg_index llm w in
  let segment_duration := seg_end - seg_start in
  let min_gap := planner_min_gap_sec cfg in
  let max_points := Z.min 3 (Z.max 1 (Qtrunc (segment_duration / min_gap))) in
  let stored (raw_points : list pyval) :=
    exists points filtered_points entry,
      absolute_points rt seg_start segment_duration raw_points = Returned points /\
      filtered_points =
        take (Z.to_nat max_points) (min_gap_filter min_gap (py_sorted Qle_bool points)) /\
      fst call = Returned (float_list filtered_points) /\
      _cache (snd call) !! key = Some entry /\
      dict_get "points" entry = Some (float_list filtered_points) /\
      dict_get "_cache_hit" entry = Some (VBool false) in
  let failed :=
    fst call = Returned (VList []) /\ _cache (snd call) !! key = None in
  let not_asked :=
    fst call = Returned (VList []) /\ _cache (snd call) !! key = None /\
    provider_log (snd call) = provider_log w in
  match fst (provided_llm rt cfg llm w1) with
  | Returned (Some l) =>
      match reply_of l w1
              (PlanningPrompt seg_start seg_end segment_duration (strip segment_text)
                 max_points min_gap) with
      | Returned (VDict d) =>
          if dict_has "error" d then failed
          else
            let raw_points :=
              match dict_get_default "points" (VList []) d with
              | VList l => l
              | _ => []
              end in
            match absolute_points rt seg_start segment_duration raw_points with
            | Returned _ => stored raw_points
            | Raised _ => failed
            end
      | _ => failed
      end
  | Returned None => not_asked
  | Raised _ => failed
  end.

(** ** Reading the provider log *)

Definition is_suspicion_prompt (p : prompt) : bool :=
  match p with SuspicionPrompt _ => true | _ => false end.
Definition is_planning_prompt (p : prompt) : bool :=
  match p with PlanningPrompt _ _ _ _ _ _ => true | _ => false end.
Definition is_decision_prompt (p : prompt) : bool :=
  match p with DecisionPrompt _ _ _ => true | _ => false end.

(** The calls of one kind that have been made. *)
Definition calls_of (kind : prompt -> bool) (w : world) : list prompt :=
  List.filter kind (provider_log w).

(** ** The budget counters along a run *)

(** A pair of counter values within the two ceilings. *)
Definition within_budget (planner_cfg : LLMPlannerConfig) (p : Z * Z) : Prop :=
  (0 <= fst p <= suspicion_llm_max_segments planner_cfg)%Z /\
  (0 <= snd p <= planner_llm_max_points planner_cfg)%Z.

(** From one assignment to the next no counter goes down. *)
Definition not_decreasing (p q : Z * Z) : Prop :=
  (fst p <= fst q)%Z /\ (snd p <= snd q)%Z.

(** The counters started at zero, have only gone up, have been within
    their ceilings at every assignment, and the trace ends with their
    present values. *)
Definition budget_respected (planner_cfg : LLMPlannerConfig) (r : run) : Prop :=
  head (budget_trace r) = Some (0, 0)%Z /\
  adjacent not_decreasing (budget_trace r) /\
  Forall (within_budget planner_cfg) (budget_trace r) /\
  last (budget_trace r) = Some (suspicion_llm_calls r, planned_points_total r).

(** An event of a segment that was scored without the LLM. *)
Definition scored_without_llm (harmful_event : pydict) : Prop :=
  analysis_data_get "suspicion_method" harmful_event = Some (VStr "keywords") \/
  analysis_data_get "suspicion_method" harmful_event = Some (VStr "off").

(** An event of a segment that was sampled without planned points. *)
Definition without_planned_points (harmful_event : pydict) : Prop :=
  analysis_data_get "planned_points" harmful_event = Some (VInt 0).

(** The suspicion ceiling was reached in [r1], and from there to [r] the
    run has taken the cheaper path: the counter has not moved, no suspicion
    prompt has been sent, and every event emitted since reports keyword (or
    disabled) scoring. *)
Definition suspicion_budget_spent (planner_cfg : LLMPlannerConfig) (r1 r : run) : Prop :=
  suspicion_llm_calls r = suspicion_llm_calls r1 /\
  calls_of is_suspicion_prompt (run_world r) = calls_of is_suspicion_prompt (run_world r1) /\
  exists new, harmful_events r = harmful_events r1 ++ new /\ Forall scored_without_llm new.

(** The same for the planned points: the counter has not moved, no planning
    prompt has been sent, and every event emitted since has no planned
    point. *)
Definition points_budget_spent (planner_cfg : LLMPlannerConfig) (r1 r : run) : Prop :=
  planned_points_total r = planned_points_total r1 /\
  calls_of is_planning_prompt (run_world r) = calls_of is_planning_prompt (run_world r1) /\
  exists new, harmful_events r = harmful_events r1 ++ new /\ Forall without_planned_points new.

(** *** The merge of periodic and planned timestamps *)

(** [ts in planned_set and ts not in periodic_set] *)
Definition is_extra (periodic planned : list Q) (ts : Q) : bool :=
  mem ts planned && negb (mem ts periodic).

(** The number of timestamps of a list that count as extra. *)
Definition extra_count (periodic planned : list Q) (l : list Q) : Z :=
  Z.of_nat (length (List.filter (is_extra periodic planned) l)).

(** The timestamps that pass the minimum-gap filter of the merge. *)
Definition gap_survivors (periodic planned : list Q) (cfg : LLMPlannerConfig) : list Q :=
  min_gap_filter (planner_min_gap_sec cfg)
    (py_sorted Qle_bool (py_set (periodic ++ planned))).

(** The last character of a string. *)
Fixpoint last_char (s : string) : option ascii :=
  match s with
  | EmptyString => None
  | String c EmptyString => Some c
  | String _ s' => last_char s'
  end.

(** *** Sanitised suspicion results *)

(** A suspicion result whose flag is a boolean and whose confidence is a
    finite float of [[0,1]]. *)
Definition sanitised (d : pydict) : Prop :=
  exists (b : bool) (c : Q),
    dict_get "suspicious" d = Some (VBool b) /\
    dict_get "confidence" d = Some (VFloat (PFin c)) /\ 0 <= c <= 1.

(** Every entry of the cache under a suspicion key is sanitised. *)
Definition cache_sanitised (w : world) : Prop :=
  forall video_id seg_index text_hash d,
    _cache w !! cache_key video_id seg_index text_hash "suspicion" = Some d ->
    sanitised d.

(** The provider's reply is a failure for the planner: an exception, a value
    that is not a dictionary, or a dictionary with an "error" key. *)
Definition failed_reply (reply : outcome pyval) : bool :=
  match reply with
  | Returned (VDict d) => dict_has "error" d
  | _ => true
  end.

(** *** Pieces of a segment *)

(** The pieces tile the interval from [start] to [stop]: the first starts at
    [start], each of the others starts where the one before it ends, and the
    last ends at [stop]. *)
Fixpoint tiles (start stop : Q) (pieces : list span) : Prop :=
  match pieces with
  | [] => False
  | piece :: rest =>
      span_start piece = start /\
      match rest with
      | [] => span_end piece = stop
      | _ => tiles (span_end piece) stop rest
      end
  end.

(** ** Predicates used in the proofs *)

(** *** Normalisation *)

Definition positive (a : segment) : Prop := seg_start a < seg_end a.




(** *** Invariants of stateful computations *)

(** [triple I m Phi]: started in a state that satisfies [I], the computation
    [m] ends in a state that satisfies [I], whether it returns or raises, and
    a returned value satisfies [Phi]. *)
Definition triple {S A} (I : S -> Prop) (m : ST S A) (Phi : A -> Prop) : Prop :=
  forall s, I s ->
    match m s with
    | (Returned a, s') => Phi a /\ I s'
    | (Raised _, s') => I s'
    end.

(** [preserves I m]: the invariant alone. *)
Definition preserves {S A} (I : S -> Prop) (m : ST S A) : Prop :=
  triple I m (fun _ => True).

(** *** The process state across a call *)

(** What a call of [llm_decide] does to the process state: one provider
    call, with the decision prompt; the cache is not touched. *)
Definition decided (w w' : world) (p : prompt) (llm : provider) : Prop :=
  _cache w' = _cache w /\ _cache_timestamps w' = _cache_timestamps w /\
  provider_log w' = provider_log w ++ [p] /\
  clock w' = clock w + snd (llm (length (provider_log w)) p).

(** The log grows by calls of one kind only. *)
Definition log_grows_by (kind : prompt -> bool) (w w' : world) : Prop :=
  exists extra, provider_log w' = provider_log w ++ extra /\ forallb kind extra = true.

(** *** What the steps of the loop body leave alone *)

Definition same_events (r0 r : run) : Prop :=
  harmful_events r = harmful_events r0.

(** The events of the run come, one each and in the order of the calls,
    from provider calls that were made since the log had [first] entries. *)
Definition events_from_calls (rt : runtime) (llm : provider) (first : nat) (r : run)
    : Prop :=
  (first <= length (provider_log (run_world r)))%nat /\
  exists calls : list nat,
    Forall2 (event_of_call rt llm (provider_log (run_world r))) (harmful_events r) calls /\
    StronglySorted lt calls /\
    Forall (fun n => (first <= n < length (provider_log (run_world r)))%nat) calls.

(** *** After a ceiling has been reached *)

(** The invariants of the rest of a run, from the state [r1] in which a
    ceiling was found reached. *)
Definition after_suspicion_ceiling (planner_cfg : LLMPlannerConfig) (r1 r : run) : Prop :=
  (suspicion_llm_max_segments planner_cfg <= suspicion_llm_calls r1)%Z /\
  suspicion_budget_spent planner_cfg r1 r.

Definition after_points_ceiling (planner_cfg : LLMPlannerConfig) (r1 r : run) : Prop :=
  (planner_llm_max_points planner_cfg <= planned_points_total r1)%Z /\
  points_budget_spent planner_cfg r1 r.

(** [apart min_gap a b]: [b] is at least [min_gap] after [a]. *)
Definition apart (min_gap a b : Q) : Prop := min_gap <= b - a.

(** The split points after any number of candidates strictly inside the
    segment: they start with [start], neighbours are at least [min_len]
    apart, and the last one lies before [end]. *)
Definition splits_ok (min_len start end_ : Q) (valid_splits : list Q) : Prop :=
  head valid_splits = Some start /\
  adjacent (apart min_len) valid_splits /\
  exists l, last valid_splits = Some l /\ l < end_.

(** *** Lists that the normalisation leaves as they are *)

(** A segment of positive duration, not longer than [soft_max]. *)
Definition well_sized (soft_max : Q) (seg : segment) : Prop :=
  seg_start seg < seg_end seg /\ seg_end seg - seg_start seg <= soft_max.

(** [b] starts after [a] starts, and no more than [tol] before [a] ends. *)
Definition follows (tol : Q) (a b : segment) : Prop :=
  seg_start a < seg_start b /\ seg_end a - tol <= seg_start b.


(** *** Counting provider calls *)

(** [hoare P m Q]: from a state that satisfies [P], the computation [m] ends
    in a state that satisfies [Q], whether it returns or raises. *)
Definition hoare {S A} (P : S -> Prop) (m : ST S A) (Q : S -> Prop) : Prop :=
  forall s, P s -> Q (snd (m s)).

(** The log grows by at most one call, of the given kind. *)
Definition asks_once (kind : prompt -> bool) (w w' : world) : Prop :=
  exists extra, provider_log w' = provider_log w ++ extra /\
                forallb kind extra = true /\ (length extra <= 1)%nat.

(** The number of calls of one kind made so far. *)
Definition prompts (kind : prompt -> bool) (w : world) : nat :=
  length (calls_of kind w).

(** Since the state [r0], at most [a] suspicion prompts, [b] planning
    prompts and [c] decision prompts have been sent, no other, and at most
    [e] events have been emitted. *)
Definition spent (r0 : run) (a b c e : nat) (r : run) : Prop :=
  (prompts is_suspicion_prompt (run_world r)
   <= prompts is_suspicion_prompt (run_world r0) + a)%nat /\
  (prompts is_planning_prompt (run_world r)
   <= prompts is_planning_prompt (run_world r0) + b)%nat /\
  (prompts is_decision_prompt (run_world r)
   <= prompts is_decision_prompt (run_world r0) + c)%nat /\
  (length (harmful_events r) <= length (harmful_events r0) + e)%nat.

(** A transcript segment whose duration lies within the two limits. *)
Definition within_limits (cfg : SegmentationConfig) (seg : span) : Prop :=
  min_len_sec cfg <= span_duration seg /\ span_duration seg <= max_len_sec cfg.

(** The two bounds of a segment dictionary. *)
Definition bounds_of (seg : span) : segment := mk_segment (span_start seg) (span_end seg).

(** * Properties *)

(** ** Rational comparisons *)

Lemma Qlt_bool_iff (x y : Q) : Qlt_bool x y = true <-> x < y.
Proof.
  unfold Qlt_bool. rewrite negb_true_iff, <- not_true_iff_false, Qle_bool_iff.
  split; [apply Qnot_le_lt | apply Qlt_not_le].
Qed.

Lemma Qlt_bool_false (x y : Q) : Qlt_bool x y = false <-> y <= x.
Proof.
  unfold Qlt_bool. rewrite negb_false_iff. apply Qle_bool_iff.
Qed.

Lemma Qle_bool_false (x y : Q) : Qle_bool x y = false <-> y < x.
Proof.
  rewrite <- not_true_iff_false, Qle_bool_iff.
  split; [apply Qnot_le_lt | apply Qlt_not_le].
Qed.



Ltac qbool :=
  repeat match goal with
  | H : Qlt_bool _ _ = true |- _ => apply Qlt_bool_iff in H
  | H : Qlt_bool _ _ = false |- _ => apply Qlt_bool_false in H
  | H : Qgt_bool _ _ = true |- _ => apply Qlt_bool_iff in H
  | H : Qgt_bool _ _ = false |- _ => apply Qlt_bool_false in H
  | H : Qle_bool _ _ = true |- _ => apply Qle_bool_iff in H
  | H : Qle_bool _ _ = false |- _ => apply Qle_bool_false in H
  | H : Qge_bool _ _ = true |- _ => apply Qle_bool_iff in H
  | H : Qge_bool _ _ = false |- _ => apply Qle_bool_false in H
  end.

(** ** Lists: neighbours, and sortedness of [py_sorted] *)

Lemma adjacent_cons {A} (R : A -> A -> Prop) (a b : A) (l : list A) :
  adjacent R (a :: b :: l) <-> R a b /\ adjacent R (b :: l).
Proof. reflexivity. Qed.

Lemma adjacent_snoc {A} (R : A -> A -> Prop) (l : list A) (x : A) :
  adjacent R l -> (forall a, last l = Some a -> R a x) -> adjacent R (l ++ [x]).
Proof.
  induction l as [|a l IH]; intros Hl Hx; [exact I|].
  destruct l as [|b l].
  - simpl. split; [now apply Hx | exact I].
  - apply adjacent_cons in Hl. destruct Hl as [Hab Hl].
    change (adjacent R (a :: b :: (l ++ [x]))). apply adjacent_cons.
    split; [exact Hab|]. apply IH; [exact Hl | intros c Hc; now apply Hx].
Qed.

Lemma adjacent_snoc_inv {A} (R : A -> A -> Prop) (l : list A) (x : A) :
  adjacent R (l ++ [x]) -> adjacent R l.
Proof.
  induction l as [|a l IH]; intros Hl; [exact I|].
  destruct l as [|b l]; [exact I|].
  change (adjacent R (a :: b :: (l ++ [x]))) in Hl. apply adjacent_cons in Hl.
  destruct Hl as [Hab Hl]. apply adjacent_cons. split; [exact Hab | now apply IH].
Qed.


Lemma StronglySorted_snoc {A} (R : A -> A -> Prop) (l : list A) (x : A) :
  StronglySorted R l -> Forall (fun a => R a x) l -> StronglySorted R (l ++ [x]).
Proof.
  induction 1 as [|a l Hl IH Ha]; intros Hx; simpl.
  - repeat constructor.
  - inversion Hx; subst. constructor; [now apply IH|].
    apply Forall_app. split; [exact Ha | now constructor].
Qed.



Section SortFacts.
Context {A : Type} (leb : A -> A -> bool) (R : A -> A -> Prop).
Hypothesis leb_true : forall x y, leb x y = true -> R x y.
Hypothesis leb_false : forall x y, leb x y = false -> R y x.
Hypothesis R_trans : forall x y z, R x y -> R y z -> R x z.

Lemma insert_sorted_elem_of (x y : A) (l : list A) :
  y ∈ insert_sorted leb x l <-> y = x \/ y ∈ l.
Proof.
  induction l as [|z l IH]; simpl.
  - rewrite list_elem_of_singleton, elem_of_nil. tauto.
  - destruct (leb x z).
    + rewrite elem_of_cons. tauto.
    + rewrite !elem_of_cons, IH. tauto.
Qed.

Lemma insert_sorted_sorted (x : A) (l : list A) :
  StronglySorted R l -> StronglySorted R (insert_sorted leb x l).
Proof.
  induction 1 as [|z l Hl IH Hz]; simpl.
  - repeat constructor.
  - destruct (leb x z) eqn:E.
    + constructor; [now constructor|].
      constructor; [now apply leb_true|].
      rewrite Forall_forall in *. intros w Hw.
      apply R_trans with z; [now apply leb_true | now apply Hz].
    + constructor; [exact IH|].
      rewrite Forall_forall in *. intros w Hw.
      apply insert_sorted_elem_of in Hw. destruct Hw as [->|Hw];
        [now apply leb_false | now apply Hz].
Qed.

Lemma py_sorted_sorted (l : list A) : StronglySorted R (py_sorted leb l).
Proof.
  induction l as [|x l IH]; simpl; [constructor | now apply insert_sorted_sorted].
Qed.

Lemma py_sorted_elem_of (y : A) (l : list A) : y ∈ py_sorted leb l <-> y ∈ l.
Proof.
  induction l as [|x l IH]; simpl; [tauto|].
  rewrite insert_sorted_elem_of, elem_of_cons, IH. tauto.
Qed.
End SortFacts.

(** ** Binary64 rounding *)

Lemma round_half_even_le (x : Q) (n : Z) : x <= inject_Z n -> (round_half_even x <= n)%Z.
Proof.
  intros H. unfold round_half_even.
  assert (Hf : (Qfloor x <= n)%Z).
  { rewrite <- (Qfloor_Z n). now apply Qfloor_resp_le. }
  assert (Hup : 1 # 2 <= x - inject_Z (Qfloor x) -> (Qfloor x + 1 <= n)%Z).
  { intros Hhalf. destruct (Z.eq_dec (Qfloor x) n) as [E|E]; [|lia].
    rewrite E in Hhalf. lra. }
  destruct (Qcompare_spec (x - inject_Z (Qfloor x)) (1 # 2)) as [E|E|E].
  - destruct (Z.even _); [exact Hf | apply Hup; lra].
  - exact Hf.
  - apply Hup. lra.
Qed.

Lemma round_half_even_nonneg (x : Q) : 0 <= x -> (0 <= round_half_even x)%Z.
Proof.
  intros H. unfold round_half_even.
  assert (Hf : (0 <= Qfloor x)%Z).
  { change 0%Z with (Qfloor 0). now apply Qfloor_resp_le. }
  destruct (Qcompare _ _); [destruct (Z.even _)| |]; lia.
Qed.

Lemma ulp_pos (x : Q) : 0 < ulp x.
Proof. apply Qpower_0_lt. reflexivity. Qed.

(** [2 ^ binade x <= x] for a positive [x]. *)
Lemma binade_le (x : Q) : 0 < x -> 2 ^ binade x <= x.
Proof.
  intros Hx. unfold binade.
  destruct (Qle_bool _ (Qabs x)) eqn:E; cbv [negb].
  - apply Qle_bool_iff in E. rewrite Qabs_pos in E by lra. exact E.
  - destruct x as [n d]. unfold Qlt in Hx. simpl in Hx. rewrite Z.mul_1_r in Hx.
    cbn [Qnum Qden] in *.
    rewrite (Z.abs_eq n) by lia.
    set (a := Z.log2 n). set (b := Z.log2 (Zpos d)).
    assert (Ha : (2 ^ a <= n)%Z) by (apply Z.log2_spec; exact Hx).
    assert (Hb : (Zpos d < 2 ^ (b + 1))%Z).
    { pose proof (Z.log2_spec (Zpos d) eq_refl) as [_ H]. now rewrite <- Z.add_1_r in H. }
    assert (Ha0 : (0 <= a)%Z) by apply Z.log2_nonneg.
    assert (Hb0 : (0 <= b)%Z) by apply Z.log2_nonneg.
    replace (a - b - 1)%Z with (a - (b + 1))%Z by lia.
    rewrite Qpower_minus by discriminate.
    assert (E1 : 2 ^ a == inject_Z (2 ^ a)) by (now rewrite Zpower_Qpower by lia).
    assert (E2 : 2 ^ (b + 1) == inject_Z (2 ^ (b + 1))) by (now rewrite Zpower_Qpower by lia).
    rewrite E1, E2.
    apply Qle_shift_div_r.
    { change 0 with (inject_Z 0). rewrite <- Zlt_Qlt. apply Z.pow_pos_nonneg; lia. }
    unfold Qle, Qmult, inject_Z. cbn [Qnum Qden]. rewrite Pos.mul_1_r, !Z.mul_1_r.
    transitivity (n * Zpos d)%Z.
    + apply Z.mul_le_mono_nonneg_r; lia.
    + apply Z.mul_le_mono_nonneg_l; lia.
Qed.

(** A value between 0 and an integer below [2^53] is rounded to a value
    between 0 and that integer: both ends are floats. *)
Lemma float_round_below (x : Q) (n : Z) :
  (n < 2 ^ 53)%Z -> 0 <= x <= inject_Z n -> 0 <= float_round x <= inject_Z n.
Proof.
  intros Hn [H0 H1]. unfold float_round.
  destruct (Qeq_bool x 0) eqn:E; [lra|].
  apply Qeq_bool_neq in E.
  assert (Hx : 0 < x) by (destruct (Qlt_le_dec 0 x); [assumption | exfalso; apply E; lra]).
  pose proof (ulp_pos x) as Hu.
  split.
  - apply Qmult_le_0_compat; [|lra].
    change 0 with (inject_Z 0). rewrite <- Zle_Qle.
    apply round_half_even_nonneg. apply Qle_shift_div_l; lra.
  - assert (Hb : (binade x <= 52)%Z).
    { destruct (Z_le_gt_dec (binade x) 52) as [H|H]; [exact H | exfalso].
      pose proof (binade_le x Hx) as Hle.
      assert (H53 : 2 ^ 53 <= 2 ^ binade x) by (apply Qpower_le_compat_l; [lia | lra]).
      assert (Hq : inject_Z n < 2 ^ 53).
      { change (2 ^ 53) with (inject_Z (2 ^ 53)). now rewrite <- Zlt_Qlt. }
      lra. }
    unfold ulp in *. set (k := Z.max (binade x - 52) (-1074)) in *.
    assert (Hk : (k <= 0)%Z) by lia.
    assert (Hinv : 2 ^ k * inject_Z (2 ^ (- k)) == 1).
    { rewrite Zpower_Qpower by lia. change (inject_Z 2) with 2.
      rewrite <- Qpower_plus by discriminate.
      replace (k + - k)%Z with 0%Z by lia. reflexivity. }
    assert (Hr : (round_half_even (x / 2 ^ k) <= n * 2 ^ (- k))%Z).
    { apply round_half_even_le. apply Qle_shift_div_r; [exact Hu|].
      rewrite inject_Z_mult.
      set (p := 2 ^ k) in *. set (z := inject_Z (2 ^ (- k))) in *.
      set (m := inject_Z n) in *. nra. }
    rewrite Zle_Qle, inject_Z_mult in Hr.
    set (p := 2 ^ k) in *. set (z := inject_Z (2 ^ (- k))) in *.
    set (m := inject_Z n) in *.
    set (r := inject_Z (round_half_even (x / p))) in *.
    assert (r * p <= m * z * p) by (apply Qmult_le_compat_r; lra).
    nra.
Qed.

Lemma Qtrunc_percent (x : Q) : 0 <= x <= 100 -> (0 <= Qtrunc x <= 100)%Z.
Proof.
  intros [H0 H1]. unfold Qtrunc.
  assert (Hle : Qle_bool 0 x = true) by (apply Qle_bool_iff; lra).
  rewrite Hle. split.
  - apply (Z.le_trans _ (Qfloor 0)); [reflexivity | apply Qfloor_resp_le; lra].
  - apply (Z.le_trans _ (Qfloor 100)); [apply Qfloor_resp_le; lra | reflexivity].
Qed.

(** One hundred times a confidence of [[0,1]], as a float, lies in
    [[0,100]] and is finite. *)
Lemma float_mul_percent (q : Q) :
  0 <= q <= 1 ->
  0 <= float_mul q 100 <= 100 /\ float_overflows (float_mul q 100) = false.
Proof.
  intros Hq. assert (H : 0 <= float_mul q 100 <= 100).
  { unfold float_mul.
    assert (Hunit : 0 <= float_round q <= 1) by (apply (float_round_below q 1); [reflexivity | change (inject_Z 1) with 1; lra]).
    assert (Hundred : float_round 100 == 100) by (apply Qeq_bool_iff; vm_compute; reflexivity).
    apply (float_round_below _ 100); [reflexivity|]. rewrite Hundred.
    change (inject_Z 100) with 100. nra. }
  split; [exact H|]. unfold float_overflows.
  destruct (Qle_bool _ _) eqn:E; [|reflexivity].
  apply Qle_bool_iff in E. rewrite Qabs_pos in E by tauto.
  assert (Hbig : 100 < 2 ^ 1024) by reflexivity. lra.
Qed.

(** ** [normalize_non_overlap] *)



Section Sweep.
Variable tol : Q.



(** The strict positivity of the kept segments needs nothing of [tol]. *)
Lemma sweep_fold_positive (final : list segment) (st : overlap_state) :
  Forall positive (fst st) ->
  Forall positive (fst (fold_left (sweep_step tol) final st)).
Proof.
  revert st. induction final as [|seg final IH]; intros [out le] Hst; simpl.
  - exact Hst.
  - apply IH. unfold sweep_step.
    destruct (Qle_bool (seg_end seg) _) eqn:E; simpl; [exact Hst|].
    apply Forall_app. split; [exact Hst|]. constructor; [|constructor].
    unfold positive. simpl. qbool. exact E.
Qed.
End Sweep.

Lemma adjacent_last {A} (R : A -> A -> Prop) (l : list A) (a x : A) :
  adjacent R (l ++ [x]) -> last l = Some a -> R a x.
Proof.
  intros H Ha. apply last_Some in Ha. destruct Ha as [l' ->].
  rewrite <- app_assoc in H. simpl in H. clear -H.
  induction l' as [|b l' IH]; [now destruct H|].
  apply IH. destruct l' as [|c l']; simpl in *; tauto.
Qed.


Section FirstPass.
Variable cfg : SegmentationConfig.
Variable bounds : list Q.

Let tol := non_overlap_tolerance_sec cfg.
Let soft_max := max_len_sec cfg * max_len_soft_factor cfg.

Hypothesis tol_nonneg : 0 <= tol.
Hypothesis tol_below_tiny : tol <= min_len_sec cfg * drop_tiny_after_trim_factor cfg.
Hypothesis tol_below_soft : tol <= soft_max.





End FirstPass.




(** ** Keyword suspicion *)






(** ** Dictionaries *)

Lemma dict_get_set_eq (k : string) (v : pyval) (d : pydict) :
  dict_get k (dict_set k v d) = Some v.
Proof.
  induction d as [|[k' v'] d IH]; simpl.
  - now rewrite String.eqb_refl.
  - destruct (String.eqb k k') eqn:E; simpl; rewrite E; [reflexivity | exact IH].
Qed.

Lemma dict_get_set_ne (k k' : string) (v : pyval) (d : pydict) :
  k <> k' -> dict_get k' (dict_set k v d) = dict_get k' d.
Proof.
  intros Hne. induction d as [|[k0 v0] d IH]; simpl.
  - destruct (String.eqb k' k) eqn:E; [|reflexivity].
    apply String.eqb_eq in E. congruence.
  - destruct (String.eqb k k0) eqn:E; simpl.
    + apply String.eqb_eq in E. subst k0.
      destruct (String.eqb k' k) eqn:E'; [|reflexivity].
      apply String.eqb_eq in E'. congruence.
    + now rewrite IH.
Qed.

(** ** The cache *)

(** A lookup that finds nothing leaves no entry under the key, and touches
    nothing else. *)
Lemma _get_cached_result_miss (key : string) (ttl : Z) (w w' : world) :
  _get_cached_result key ttl w = (Returned None, w') ->
  _cache w' !! key = None /\
  (forall k, k <> key -> _cache w' !! k = _cache w !! k) /\
  clock w' = clock w /\ provider_log w' = provider_log w.
Proof.
  unfold _get_cached_result.
  destruct (_cache w !! key) as [c|] eqn:Ec.
  - destruct (_cache_timestamps w !! key) as [t0|].
    + destruct (Qgt_bool _ _); intros H; inversion H; subst; simpl.
      split; [apply lookup_delete_eq|].
      split; [intros; now apply lookup_delete_ne | split; reflexivity].
    + intros H; inversion H; subst; simpl.
      split; [apply lookup_delete_eq|].
      split; [intros; now apply lookup_delete_ne | split; reflexivity].
  - intros H; inversion H; subst. auto.
Qed.

(** A lookup either misses or returns the entry and leaves the state as it
    is. *)
Lemma _get_cached_result_cases (key : string) (ttl : Z) (w : world) :
  (exists w', _get_cached_result key ttl w = (Returned None, w')) \/
  (exists c, _get_cached_result key ttl w = (Returned (Some c), w) /\
             _cache w !! key = Some c).
Proof.
  unfold _get_cached_result.
  destruct (_cache w !! key) as [c|]; [|eauto].
  destruct (_cache_timestamps w !! key) as [t0|]; [|eauto].
  destruct (Qgt_bool _ _); eauto.
Qed.

(** A stored entry is found again as long as no more than the TTL has
    passed. *)
Lemma _get_cached_result_hit (key : string) (ttl : Z) (w : world) (c : pydict) (t0 : Q) :
  _cache w !! key = Some c ->
  _cache_timestamps w !! key = Some t0 ->
  clock w - t0 <= inject_Z ttl ->
  _get_cached_result key ttl w = (Returned (Some c), w).
Proof.
  intros Hc Ht Hle. unfold _get_cached_result. rewrite Hc, Ht.
  destruct (Qgt_bool _ _) eqn:E; [|reflexivity]. qbool. lra.
Qed.

(** ** [suspicion_score] *)

(** The provider chosen for a call never touches the process state. *)
Lemma provided_llm_state (rt : runtime) (cfg : LLMPlannerConfig)
    (llm : option provider) (w : world) :
  snd (provided_llm rt cfg llm w) = w.
Proof.
  unfold provided_llm. destruct llm as [l|]; [reflexivity|].
  destruct (_ && _); [reflexivity|].
  unfold bind, lift, ret. now destruct (SafetyLLM_new rt _).
Qed.

Lemma provided_llm_given (rt : runtime) (cfg : LLMPlannerConfig) (l : provider) (w : world) :
  provided_llm rt cfg (Some l) w = (Returned (Some l), w).
Proof. reflexivity. Qed.

(** A second look-up of a stored suspicion result. *)
Lemma suspicion_score_hit (rt : runtime) (text : string) (cfg : LLMPlannerConfig)
    (video_id : string) (seg_index : Z) (llm : option provider) (w : world)
    (c : pydict) (t0 : Q) :
  let key := cache_key video_id seg_index (text_hash rt text) "suspicion" in
  text_too_short text cfg = false ->
  _cache w !! key = Some c ->
  _cache_timestamps w !! key = Some t0 ->
  clock w - t0 <= inject_Z (suspicion_llm_cache_ttl_sec cfg) ->
  suspicion_score rt text cfg video_id seg_index llm w
    = (Returned (dict_set "_cache_hit" (VBool true) c), w).
Proof.
  intros key Hshort Hc Ht Hle. unfold suspicion_score. rewrite Hshort.
  unfold bind. fold key.
  now rewrite (_get_cached_result_hit key _ w c t0 Hc Ht Hle).
Qed.

(** The only result that carries [_cache_hit = False] is the one built from
    a successful provider reply, and that call has stored it, without the
    flag, under the key of the call and the time of the store. *)
Lemma suspicion_score_fresh (rt : runtime) (text : string) (cfg : LLMPlannerConfig)
    (video_id : string) (seg_index : Z) (llm : option provider) (w : world)
    (result : pydict) (w1 : world) :
  let key := cache_key video_id seg_index (text_hash rt text) "suspicion" in
  suspicion_score rt text cfg video_id seg_index llm w = (Returned result, w1) ->
  dict_get "_cache_hit" result = Some (VBool false) ->
  text_too_short text cfg = false /\
  _cache w1 !! key = Some (dict_pop "_cache_hit" result) /\
  _cache_timestamps w1 !! key = Some (clock w1) /\
  dict_set "_cache_hit" (VBool true) (dict_pop "_cache_hit" result)
    = dict_set "_cache_hit" (VBool true) result.
Proof.
  intros key. unfold suspicion_score. fold key.
  destruct (text_too_short text cfg); [intros H; inversion H; subst; discriminate|].
  unfold bind.
  destruct (_get_cached_result_cases key (suspicion_llm_cache_ttl_sec cfg) w)
    as [[w' Hm]|[c [Hh Hc]]].
  2:{ rewrite Hh. unfold ret. intros H; inversion H; subst.
      rewrite dict_get_set_eq. discriminate. }
  rewrite Hm. unfold try_except, bind.
  pose proof (provided_llm_state rt cfg llm w') as Hst.
  destruct (provided_llm rt cfg llm w') as [[[l|]|e] w2]; simpl in Hst; subst w2;
    try (unfold ret; intros H; inversion H; subst; discriminate).
  unfold time_time, invoke.
  destruct (l (length (provider_log w')) (SuspicionPrompt (strip text))) as [reply elapsed].
  destruct reply as [reply|e];
    [|unfold ret; intros H; inversion H; subst; discriminate].
  destruct (is_success reply) as [d|];
    [|unfold ret; intros H; inversion H; subst; discriminate].
  unfold lift.
  destruct (py_float rt _) as [x|e];
    [|unfold ret; intros H; inversion H; subst; discriminate].
  unfold _set_cached_result, ret. intros H; inversion H; subst. intros _.
  simpl. split; [reflexivity|]. split; [apply lookup_insert_eq|].
  split; [apply lookup_insert_eq | reflexivity].
Qed.

(** ** Invariants of stateful computations *)

Lemma triple_ret {S A} (I : S -> Prop) (a : A) (Phi : A -> Prop) :
  Phi a -> triple I (ret a) Phi.
Proof. intros H s Hs. simpl. auto. Qed.

Lemma triple_raise {S A} (I : S -> Prop) (e : exn) (Phi : A -> Prop) :
  triple I (raise e) Phi.
Proof. intros s Hs. exact Hs. Qed.

Lemma triple_bind {S A B} (I : S -> Prop) (m : ST S A) (f : A -> ST S B)
    (Phi : A -> Prop) (Psi : B -> Prop) :
  triple I m Phi -> (forall a, Phi a -> triple I (f a) Psi) ->
  triple I (bind m f) Psi.
Proof.
  intros Hm Hf s Hs. unfold bind. specialize (Hm s Hs).
  destruct (m s) as [[a|e] s']; [|exact Hm].
  destruct Hm as [Ha Hs']. exact (Hf a Ha s' Hs').
Qed.

Lemma triple_try_except {S A} (I : S -> Prop) (m : ST S A) (h : exn -> ST S A)
    (Phi : A -> Prop) :
  triple I m Phi -> (forall e, triple I (h e) Phi) ->
  triple I (try_except m h) Phi.
Proof.
  intros Hm Hh s Hs. unfold try_except. specialize (Hm s Hs).
  destruct (m s) as [[a|e] s']; [exact Hm | exact (Hh e s' Hm)].
Qed.

Lemma triple_lift {S A} (I : S -> Prop) (o : outcome A) (Phi : A -> Prop) :
  (forall a, o = Returned a -> Phi a) -> triple I (lift o) Phi.
Proof. intros H s Hs. unfold lift. destruct o; auto. Qed.

Lemma triple_get {S} (I : S -> Prop) : triple I get I.
Proof. intros s Hs. simpl. auto. Qed.

Lemma triple_modify {S} (I : S -> Prop) (f : S -> S) :
  (forall s, I s -> I (f s)) -> triple I (modify f) (fun _ => True).
Proof. intros H s Hs. simpl. auto. Qed.

Lemma triple_weaken {S A} (I : S -> Prop) (m : ST S A) (Phi Psi : A -> Prop) :
  triple I m Phi -> (forall a, Phi a -> Psi a) -> triple I m Psi.
Proof.
  intros Hm H s Hs. specialize (Hm s Hs).
  destruct (m s) as [[a|e] s']; [|exact Hm]. destruct Hm; auto.
Qed.

Lemma triple_item {S} (I : S -> Prop) (k : string) (d : pydict) :
  triple I (item (S := S) k d) (fun v => dict_get k d = Some v).
Proof.
  intros s Hs. unfold item. destruct (dict_get k d); simpl; auto.
Qed.

(** A planner computation inside a run: the invariant has to survive the
    change of the process state. *)
Lemma triple_in_world {A} (I : run -> Prop) (m : M A) (Phi : A -> Prop) :
  (forall r, I r ->
     match m (run_world r) with
     | (Returned a, w') => Phi a /\ I (set_run_world w' r)
     | (Raised _, w') => I (set_run_world w' r)
     end) ->
  triple I (in_world m) Phi.
Proof.
  intros H r Hr. unfold in_world. specialize (H r Hr).
  destruct (m (run_world r)) as [[a|e] w']; exact H.
Qed.

(** The state a computation ends in. *)
Lemma triple_final {S A} (I : S -> Prop) (m : ST S A) (Phi : A -> Prop) (s : S) :
  triple I m Phi -> I s -> I (snd (m s)).
Proof.
  intros Hm Hs. specialize (Hm s Hs). destruct (m s) as [[a|e] s']; simpl; tauto.
Qed.

Lemma preserves_triple {S A} (I : S -> Prop) (m : ST S A) (Phi : A -> Prop) :
  triple I m Phi -> preserves I m.
Proof. intros H. eapply triple_weaken; [exact H | auto]. Qed.

Lemma preserves_ret {S A} (I : S -> Prop) (a : A) : preserves I (ret a).
Proof. now apply triple_ret. Qed.

Lemma preserves_raise {S A} (I : S -> Prop) (e : exn) : preserves (A := A) I (raise e).
Proof. apply triple_raise. Qed.

Lemma preserves_bind {S A B} (I : S -> Prop) (m : ST S A) (f : A -> ST S B) :
  preserves I m -> (forall a, preserves I (f a)) -> preserves I (bind m f).
Proof. intros Hm Hf. eapply triple_bind; [exact Hm | intros a _; apply Hf]. Qed.

Lemma preserves_try_except {S A} (I : S -> Prop) (m : ST S A) (h : exn -> ST S A) :
  preserves I m -> (forall e, preserves I (h e)) -> preserves I (try_except m h).
Proof. intros Hm Hh. now apply triple_try_except. Qed.

Lemma preserves_lift {S A} (I : S -> Prop) (o : outcome A) : preserves I (lift o).
Proof. now apply triple_lift. Qed.

Lemma preserves_get {S} (I : S -> Prop) : preserves I get.
Proof. eapply preserves_triple. apply triple_get. Qed.

Lemma preserves_modify {S} (I : S -> Prop) (f : S -> S) :
  (forall s, I s -> I (f s)) -> preserves I (modify f).
Proof. apply triple_modify. Qed.

Lemma preserves_item {S} (I : S -> Prop) (k : string) (d : pydict) :
  preserves I (item (S := S) k d).
Proof. eapply preserves_triple. apply triple_item. Qed.

Lemma preserves_in_world {A} (I : run -> Prop) (m : M A) :
  (forall r w, I r -> I (set_run_world w r)) -> preserves I (in_world m).
Proof.
  intros H. apply triple_in_world. intros r Hr.
  destruct (m (run_world r)) as [[a|e] w']; auto.
Qed.

Lemma preserves_final {S A} (I : S -> Prop) (m : ST S A) (s : S) :
  preserves I m -> I s -> I (snd (m s)).
Proof. apply triple_final. Qed.

(** The structural rules, applied as far as they go. *)
Ltac preserves_step :=
  lazymatch goal with
  | |- preserves _ (bind _ _) => apply preserves_bind; [|intros ?]
  | |- preserves _ (ret _) => apply preserves_ret
  | |- preserves _ (raise _) => apply preserves_raise
  | |- preserves _ (try_except _ _) => apply preserves_try_except; [|intros ?]
  | |- preserves _ (lift _) => apply preserves_lift
  | |- preserves _ get => apply preserves_get
  | |- preserves _ (item _ _) => apply preserves_item
  | |- preserves _ (if ?b then _ else _) => destruct b
  | |- preserves _ (match ?x with _ => _ end) => destruct x
  end.

Ltac preserves_auto := repeat preserves_step.

(** ** Clamping and [llm_decide] *)

(** The clamp always yields a finite value of [[0,1]], the argument itself
    when it already lies there. *)
Lemma clamp01_range (c : pyfloat) :
  exists q, clamp01 c = PFin q /\ 0 <= q <= 1 /\
            (forall x, c = PFin x -> 0 <= x <= 1 -> q == x).
Proof.
  unfold clamp01. destruct c as [x| | |]; simpl.
  - destruct (Qlt_bool x 1) eqn:E1; simpl.
    + destruct (Qlt_bool 0 x) eqn:E0; qbool.
      * exists x. split; [reflexivity|]. split; [lra|].
        intros y Hy _. inversion Hy. reflexivity.
      * exists 0. split; [reflexivity|]. split; [lra|].
        intros y Hy Hr. inversion Hy; subst y. lra.
    + qbool. exists 1. split; [reflexivity|]. split; [lra|].
      intros y Hy Hr. inversion Hy; subst y. lra.
  - exists 1. split; [reflexivity|]. split; [lra|]. discriminate.
  - exists 0. split; [reflexivity|]. split; [lra|]. discriminate.
  - exists 1. split; [reflexivity|]. split; [lra|]. discriminate.
Qed.

(** [llm_decide] case by case on the provider's reply. *)
Lemma llm_decide_cases (rt : runtime) (audio_text ocr_text captions_text : string)
    (llm : provider) (w : world) :
  let p := DecisionPrompt (block_or audio_text "No audio transcript available")
                          (block_or ocr_text "No OCR text detected")
                          (block_or captions_text "No image descriptions available") in
  exists d w',
    llm_decide rt audio_text ocr_text captions_text llm w = (Returned d, w') /\
    decided w w' p llm /\
    match fst (llm (length (provider_log w)) p) with
    | Raised _ => d = safe_default_decision
    | Returned (VDict result) =>
        if dict_has "error" result then d = safe_default_decision
        else
          match py_float rt (dict_get_default "confidence" (VFloat (PFin 0)) result) with
          | Raised _ => d = safe_default_decision
          | Returned c =>
              d = [("is_harmful",
                    VBool (truthy (dict_get_default "pred_is_harmful" (VBool false) result)));
                   ("confidence", VFloat (clamp01 c));
                   ("categories",
                    match dict_get_default "harm_categories" (VList []) result with
                    | VList l => VList l
                    | _ => VList []
                    end);
                   ("explanation",
                    VStr (str_of rt
                      (py_or (dict_get_default "explanation" (VStr "") result)
                        (py_or (dict_get_default "rationale" (VStr "") result)
                          (py_or (dict_get_default "reason" (VStr "") result)
                                 (dict_get_default "justification" (VStr "") result))))));
                   ("_token_usage", dict_get_default "_token_usage" VNone result)]
          end
    | Returned _ => d = safe_default_decision
    end.
Proof.
  intros p. unfold llm_decide. fold p. unfold bind, try_except, invoke.
  destruct (llm (length (provider_log w)) p) as [reply elapsed] eqn:El. simpl.
  assert (Hd : decided w
            {| _cache := _cache w; _cache_timestamps := _cache_timestamps w;
               clock := clock w + elapsed; provider_log := provider_log w ++ [p] |} p llm).
  { unfold decided. simpl. rewrite El. auto. }
  destruct reply as [v|e]; [|eexists _, _; split; [reflexivity|]; split; [exact Hd | reflexivity]].
  destruct v as [| | | | | |result];
    try (eexists _, _; split; [reflexivity|]; split; [exact Hd | reflexivity]).
  destruct (dict_has "error" result);
    [eexists _, _; split; [reflexivity|]; split; [exact Hd | reflexivity]|].
  unfold lift.
  destruct (py_float rt _) as [c|e];
    [|eexists _, _; split; [reflexivity|]; split; [exact Hd | reflexivity]].
  eexists _, _. split; [reflexivity|]. split; [exact Hd|].
  destruct (dict_get_default "harm_categories" (VList []) result); reflexivity.
Qed.

(** Every decision has a Boolean verdict and a finite confidence in
    [[0,1]]. *)
Lemma llm_decide_shape (rt : runtime) (audio_text ocr_text captions_text : string)
    (llm : provider) (w : world) :
  exists d w' b q,
    llm_decide rt audio_text ocr_text captions_text llm w = (Returned d, w') /\
    dict_get "is_harmful" d = Some (VBool b) /\
    dict_get "confidence" d = Some (VFloat (PFin q)) /\ 0 <= q <= 1.
Proof.
  destruct (llm_decide_cases rt audio_text ocr_text captions_text llm w)
    as (d & w' & Hrun & _ & Hd).
  assert (Hsafe : d = safe_default_decision ->
            exists b q, llm_decide rt audio_text ocr_text captions_text llm w
                          = (Returned d, w') /\
                        dict_get "is_harmful" d = Some (VBool b) /\
                        dict_get "confidence" d = Some (VFloat (PFin q)) /\ 0 <= q <= 1).
  { intros ->. exists false, 0. split; [exact Hrun|].
    repeat split; try reflexivity; lra. }
  exists d, w'.
  destruct (fst _) as [v|e]; [|exact (Hsafe Hd)].
  destruct v as [|b|n|x|s|l|result]; try exact (Hsafe Hd).
  destruct (dict_has "error" result); [exact (Hsafe Hd)|].
  destruct (py_float rt _) as [c|e]; [|exact (Hsafe Hd)].
  destruct (clamp01_range c) as (q & Hq & Hr & _).
  subst d. rewrite Hq in *. eexists _, q. split; [exact Hrun|].
  split; [reflexivity|]. split; [reflexivity | exact Hr].
Qed.

(** ** What the steps of the loop body leave alone *)

Lemma suspicion_step_events rt planner_cfg video_id i llm segment_text (r0 : run) :
  preserves (same_events r0) (suspicion_step rt planner_cfg video_id i llm segment_text).
Proof.
  unfold suspicion_step. preserves_auto;
    try (apply preserves_in_world; intros; assumption);
    apply preserves_modify; intros; assumption.
Qed.

Lemma planning_step_events rt planner_cfg planning_mode video_id i llm segment_text
    start end_ is_suspicious (r0 : run) :
  preserves (same_events r0)
    (planning_step rt planner_cfg planning_mode video_id i llm segment_text
       start end_ is_suspicious).
Proof.
  unfold planning_step. preserves_auto;
    try (apply preserves_in_world; intros; assumption);
    apply preserves_modify; intros; assumption.
Qed.

Lemma final_timestamps_of_state planner_cfg start end_ interval planned_timestamps
    (I : run -> Prop) :
  preserves I (final_timestamps_of planner_cfg start end_ interval planned_timestamps).
Proof. unfold final_timestamps_of. preserves_auto. Qed.

Lemma harmful_event_of_state rt planning_mode start end_ segment_text captions ocr
    num_frames decision suspicion_result planned_timestamps (I : run -> Prop) :
  preserves I
    (harmful_event_of rt planning_mode start end_ segment_text captions ocr
       num_frames decision suspicion_result planned_timestamps).
Proof. unfold harmful_event_of. preserves_auto. Qed.

Lemma aggregate_tokens_state (decision : pydict) (I : run -> Prop) :
  (forall r t, I r -> I (set_total_tokens t r)) ->
  preserves I (aggregate_tokens decision).
Proof.
  intros H. unfold aggregate_tokens, add_tokens.
  preserves_auto; apply preserves_modify; intros; now apply H.
Qed.

(** ** [score_suspicion] and step 2 of the loop *)

Lemma score_keywords_method (segment_text : string) :
  dict_get "method" (score_keywords segment_text) = Some (VStr "keywords") /\
  dict_get "_cache_hit" (score_keywords segment_text) = None /\
  exists v, dict_get "suspicious" (score_keywords segment_text) = Some v.
Proof.
  unfold score_keywords. destruct (negb _); [repeat split; eauto|].
  destruct (first_match _ _) as [[category keyword]|]; repeat split; eauto.
Qed.

(** In a mode other than "llm" the scorer neither reads nor writes the
    process state, and the method it reports is not "llm". *)
Lemma score_suspicion_not_llm rt segment_text mode planner_cfg video_id seg_index llm
    (w : world) :
  String.eqb mode "llm" = false ->
  exists d,
    score_suspicion rt segment_text mode planner_cfg video_id seg_index llm w
      = (Returned d, w) /\
    py_eq_str (dict_get_default "method" VNone d) "llm" = false.
Proof.
  intros Hmode. unfold score_suspicion. rewrite Hmode.
  destruct (score_keywords_method segment_text) as (Hm & _ & _).
  destruct (String.eqb mode "off"); [eexists; split; reflexivity|].
  destruct (String.eqb mode "keywords");
    (eexists; split; [reflexivity|]; unfold dict_get_default; now rewrite Hm).
Qed.

(** A cache hit under "llm": the state is left alone, and the result either
    carries the hit flag or is the keyword fallback. *)
Lemma score_suspicion_hit rt text cfg video_id seg_index llm (w : world)
    (c : pydict) (t0 : Q) :
  let key := cache_key video_id seg_index (text_hash rt text) "suspicion" in
  text_too_short text cfg = false ->
  _cache w !! key = Some c ->
  _cache_timestamps w !! key = Some t0 ->
  clock w - t0 <= inject_Z (suspicion_llm_cache_ttl_sec cfg) ->
  exists d,
    score_suspicion rt text "llm" (Some cfg) video_id seg_index llm w = (Returned d, w) /\
    (py_eq_str (dict_get_default "method" VNone d) "llm" = false \/
     truthy (dict_get_default "_cache_hit" (VBool false) d) = true).
Proof.
  intros key Hshort Hc Ht Hle.
  destruct (score_keywords_method text) as (Hm & _ & _).
  assert (Hkw : py_eq_str (dict_get_default "method" VNone (score_keywords text)) "llm"
                = false) by (unfold dict_get_default; now rewrite Hm).
  unfold score_suspicion.
  change (String.eqb "llm" "off") with false.
  change (String.eqb "llm" "keywords") with false.
  change (String.eqb "llm" "llm") with true. cbv iota.
  unfold try_except, bind.
  rewrite (suspicion_score_hit rt text cfg video_id seg_index llm w c t0 Hshort Hc Ht Hle).
  set (d0 := dict_set "method" (VStr "llm") (dict_set "_cache_hit" (VBool true) c)).
  assert (Hhit : forall b : bool,
            truthy (dict_get_default "_cache_hit" (VBool false)
                      (if b then dict_set "suspicious" (VBool true) d0 else d0)) = true).
  { intros b. unfold dict_get_default.
    assert (H0 : dict_get "_cache_hit" d0 = Some (VBool true)).
    { unfold d0. rewrite dict_get_set_ne by discriminate. apply dict_get_set_eq. }
    destruct b; [rewrite dict_get_set_ne by discriminate|]; now rewrite H0. }
  destruct (truthy (dict_get_default "_error" VNone d0)); [eexists; split; eauto|].
  unfold item. destruct (dict_get "confidence" d0) as [conf|];
    [|eexists; split; [reflexivity | now left]].
  unfold ret, lift. simpl.
  destruct (py_ge conf _) as [above|e]; [|eexists; split; [reflexivity | now left]].
  destruct (dict_get "suspicious" _);
    eexists; (split; [reflexivity|]); [right; apply Hhit | now left].
Qed.

(** The scorer never raises. *)
Lemma score_suspicion_returns rt segment_text mode planner_cfg video_id seg_index llm
    (w : world) :
  exists d w',
    score_suspicion rt segment_text mode planner_cfg video_id seg_index llm w
      = (Returned d, w').
Proof.
  unfold score_suspicion.
  destruct (String.eqb mode "off"); [eexists _, _; reflexivity|].
  destruct (String.eqb mode "keywords"); [eexists _, _; reflexivity|].
  destruct (String.eqb mode "llm"); [|eexists _, _; reflexivity].
  destruct planner_cfg as [cfg|]; [|eexists _, _; reflexivity].
  unfold try_except.
  match goal with |- context [match ?m w with _ => _ end] => destruct (m w) as [[d|e] w'] end;
    eexists _, _; reflexivity.
Qed.

(** Step 2 in terms of the scorer's result. *)
Lemma suspicion_step_run rt planner_cfg video_id i llm segment_text (r : run)
    (d : pydict) (w' : world) :
  score_suspicion rt segment_text (current_suspicion_mode planner_cfg r)
    (Some planner_cfg) video_id i (Some llm) (run_world r) = (Returned d, w') ->
  suspicion_step rt planner_cfg video_id i llm segment_text r =
    (Returned d,
     let r1 := set_run_world w' r in
     let r2 :=
       if String.eqb (suspicion_mode (run_cfg r)) "llm"
          && py_eq_str (dict_get_default "method" VNone d) "llm"
          && negb (truthy (dict_get_default "_cache_hit" (VBool false) d))
       then count_suspicion_call r1 else r1 in
     if String.eqb (suspicion_mode (run_cfg r2)) "llm"
        && (suspicion_llm_max_segments planner_cfg <=? suspicion_llm_calls r2)%Z
     then switch_to_keywords r2 else r2).
Proof.
  intros H. unfold suspicion_step, bind, get, in_world. rewrite H. simpl.
  destruct (_ && _ && _); simpl; destruct (_ && _); reflexivity.
Qed.

(** ** What a call stores *)

Section Stores.
Variable rt : runtime.
Variable cfg : LLMPlannerConfig.
Variables (video_id : string) (seg_index : Z) (llm : option provider).

(** [suspicion_score] after a look-up that misses, case by case on the
    provider and its reply: an entry is stored exactly when the reply is a
    dictionary without "error" whose confidence converts to a float. *)
Lemma suspicion_score_stores (text : string) (w : world) :
  let key := cache_key video_id seg_index (text_hash rt text) "suspicion" in
  text_too_short text cfg = false ->
  fst (_get_cached_result key (suspicion_llm_cache_ttl_sec cfg) w) = Returned None ->
  suspicion_call_stores rt cfg video_id seg_index llm text w.
Proof.
  intros key Hshort Hmiss. unfold suspicion_call_stores. fold key. cbv zeta.
  set (lookup := _get_cached_result key (suspicion_llm_cache_ttl_sec cfg) w) in *.
  destruct (suspicion_score rt text cfg video_id seg_index llm w) as [o w'] eqn:Hcall.
  simpl fst. simpl snd.
  unfold suspicion_score in Hcall. fold key in Hcall.
  rewrite Hshort in Hcall. unfold bind at 1 in Hcall. fold lookup in Hcall.
  destruct lookup as [o1 w1] eqn:El. simpl in Hmiss. subst o1. simpl snd.
  destruct (_get_cached_result_miss key _ w w1 El) as (Hnone & _ & _ & Hlog).
  unfold try_except, bind in Hcall.
  pose proof (provided_llm_state rt cfg llm w1) as Hst.
  destruct (provided_llm rt cfg llm w1) as [[[l|]|e] w2]; simpl in Hst; subst w2; simpl fst.
  - unfold time_time, invoke in Hcall. unfold reply_of.
    destruct (l (length (provider_log w1)) (SuspicionPrompt (strip text)))
      as [reply elapsed]. simpl fst.
    destruct reply as [v|e];
      [|inversion Hcall; subst; eexists; repeat split; eauto].
    destruct v as [|b|n|x|s|lst|d];
      try (inversion Hcall; subst; eexists; repeat split; eauto; fail).
    unfold is_success in Hcall.
    destruct (dict_has "error" d);
      [inversion Hcall; subst; eexists; repeat split; eauto|].
    unfold lift in Hcall.
    destruct (py_float rt _) as [c|e];
      [|inversion Hcall; subst; eexists; repeat split; eauto].
    inversion Hcall; subst. eexists. split; [reflexivity|].
    split; [reflexivity|]. split; [reflexivity|]. apply lookup_insert_eq.
  - inversion Hcall; subst. eexists. repeat split; eauto.
  - inversion Hcall; subst. eexists. repeat split; eauto.
Qed.

(** After a miss with a provider at hand, the provider is asked. *)
Lemma suspicion_score_asks (text : string) (l : provider) (w : world) :
  let key := cache_key video_id seg_index (text_hash rt text) "suspicion" in
  text_too_short text cfg = false ->
  _cache w !! key = None ->
  provider_log (snd (suspicion_score rt text cfg video_id seg_index (Some l) w))
    = provider_log w ++ [SuspicionPrompt (strip text)].
Proof.
  intros key Hshort Hnone. unfold suspicion_score. fold key. rewrite Hshort.
  unfold bind at 1. unfold _get_cached_result. rewrite Hnone.
  unfold try_except, bind. rewrite provided_llm_given.
  unfold time_time, invoke.
  destruct (l (length (provider_log w)) (SuspicionPrompt (strip text)))
    as [reply elapsed].
  destruct reply as [v|e]; [|reflexivity].
  destruct (is_success v); [|reflexivity].
  unfold lift. destruct (py_float rt _); reflexivity.
Qed.

(** [propose_points] after a look-up that misses: an entry is stored
    exactly when the reply is a dictionary without "error" and the
    conversion of its points does not raise. *)
Lemma propose_points_stores (segment_text : string) (seg_start seg_end : Q) (w : world) :
  let key := cache_key video_id seg_index (text_hash rt segment_text) "points" in
  text_too_short segment_text cfg = false ->
  Qlt_bool (seg_end - seg_start) (planner_min_gap_sec cfg) = false ->
  Qeq_bool (planner_min_gap_sec cfg) 0 = false ->
  fst (_get_cached_result key (suspicion_llm_cache_ttl_sec cfg) w) = Returned None ->
  points_call_stores rt cfg video_id seg_index llm segment_text seg_start seg_end w.
Proof.
  intros key Hshort Hdur Hgap Hmiss. unfold points_call_stores. fold key. cbv zeta.
  set (lookup := _get_cached_result key (suspicion_llm_cache_ttl_sec cfg) w) in *.
  set (segment_duration := seg_end - seg_start) in *.
  set (min_gap := planner_min_gap_sec cfg) in *.
  set (max_points := Z.min 3 (Z.max 1 (Qtrunc (segment_duration / min_gap)))).
  destruct (propose_points rt segment_text seg_start seg_end cfg video_id seg_index llm w)
    as [o w'] eqn:Hcall.
  simpl fst. simpl snd.
  unfold propose_points in Hcall. fold key segment_duration min_gap in Hcall.
  rewrite Hshort, Hdur in Hcall. unfold bind at 1 in Hcall. fold lookup in Hcall.
  destruct lookup as [o1 w1] eqn:El. simpl in Hmiss. subst o1. simpl snd.
  destruct (_get_cached_result_miss key _ w w1 El) as (Hnone & _ & _ & Hlog).
  unfold max_points_for_segment in Hcall. rewrite Hgap in Hcall.
  unfold bind at 1 in Hcall. unfold lift at 1 in Hcall. fold max_points in Hcall.
  unfold try_except, bind in Hcall.
  pose proof (provided_llm_state rt cfg llm w1) as Hst.
  destruct (provided_llm rt cfg llm w1) as [[[l|]|e] w2]; simpl in Hst; subst w2; simpl fst.
  - unfold time_time, invoke in Hcall. unfold reply_of.
    destruct (l (length (provider_log w1)) _) as [reply elapsed]. simpl fst.
    destruct reply as [v|e]; [|inversion Hcall; subst; auto].
    destruct v as [|b|n|x|s|lst|d]; try (inversion Hcall; subst; auto; fail).
    unfold is_success in Hcall.
    destruct (dict_has "error" d); [inversion Hcall; subst; auto|].
    unfold lift in Hcall. cbv zeta.
    destruct (absolute_points rt seg_start segment_duration _) as [points|e];
      [|inversion Hcall; subst; auto].
    inversion Hcall; subst. eexists _, _, _. split; [reflexivity|].
    split; [reflexivity|]. split; [reflexivity|].
    split; [apply lookup_insert_eq|]. split; reflexivity.
  - inversion Hcall; subst. auto.
  - inversion Hcall; subst. auto.
Qed.

(** With a zero gap the division raises, outside the [try]. *)
Lemma propose_points_zero_gap (segment_text : string) (seg_start seg_end : Q) (w : world) :
  let key := cache_key video_id seg_index (text_hash rt segment_text) "points" in
  let lookup := _get_cached_result key (suspicion_llm_cache_ttl_sec cfg) w in
  let call := propose_points rt segment_text seg_start seg_end cfg video_id seg_index llm w in
  text_too_short segment_text cfg = false ->
  Qlt_bool (seg_end - seg_start) (planner_min_gap_sec cfg) = false ->
  Qeq_bool (planner_min_gap_sec cfg) 0 = true ->
  fst lookup = Returned None ->
  fst call = Raised (Exn ZeroDivisionError "float division by zero") /\
  _cache (snd call) !! key = None.
Proof.
  intros key lookup call Hshort Hdur Hgap Hmiss.
  destruct call as [o w'] eqn:Hcall. subst call. simpl fst. simpl snd.
  unfold propose_points in Hcall. fold key in Hcall.
  rewrite Hshort, Hdur in Hcall. unfold bind at 1 in Hcall. fold lookup in Hcall.
  destruct lookup as [o1 w1] eqn:El. simpl in Hmiss. subst o1.
  destruct (_get_cached_result_miss key _ w w1 El) as (Hnone & _).
  unfold max_points_for_segment in Hcall. rewrite Hgap in Hcall.
  inversion Hcall; subst. auto.
Qed.

(** After a miss with a provider at hand, the provider is asked. *)
Lemma propose_points_asks (segment_text : string) (seg_start seg_end : Q)
    (l : provider) (w : world) :
  let key := cache_key video_id seg_index (text_hash rt segment_text) "points" in
  let segment_duration := seg_end - seg_start in
  let min_gap := planner_min_gap_sec cfg in
  text_too_short segment_text cfg = false ->
  Qlt_bool segment_duration min_gap = false ->
  Qeq_bool min_gap 0 = false ->
  _cache w !! key = None ->
  provider_log
    (snd (propose_points rt segment_text seg_start seg_end cfg video_id seg_index
            (Some l) w))
    = provider_log w ++
      [PlanningPrompt seg_start seg_end segment_duration (strip segment_text)
         (Z.min 3 (Z.max 1 (Qtrunc (segment_duration / min_gap)))) min_gap].
Proof.
  intros key segment_duration min_gap Hshort Hdur Hgap Hnone.
  unfold propose_points. fold key segment_duration min_gap.
  rewrite Hshort, Hdur. unfold bind at 1. unfold _get_cached_result. rewrite Hnone.
  unfold max_points_for_segment. rewrite Hgap.
  unfold bind at 1. unfold lift at 1. unfold try_except, bind.
  rewrite provided_llm_given. unfold time_time, invoke.
  destruct (l (length (provider_log w)) _) as [reply elapsed].
  destruct reply as [v|e]; [|reflexivity].
  destruct (is_success v); [|reflexivity].
  unfold lift. destruct (absolute_points rt _ _ _); reflexivity.
Qed.
End Stores.

(** ** Which provider calls a function makes *)

Lemma log_grows_refl (kind : prompt -> bool) (w w' : world) :
  provider_log w' = provider_log w -> log_grows_by kind w w'.
Proof. intros H. exists []. rewrite app_nil_r. auto. Qed.

Lemma log_grows_one (kind : prompt -> bool) (w w' : world) (p : prompt) :
  provider_log w' = provider_log w ++ [p] -> kind p = true -> log_grows_by kind w w'.
Proof. intros H Hp. exists [p]. simpl. rewrite Hp. auto. Qed.

Lemma log_grows_trans (kind : prompt -> bool) (w1 w2 w3 : world) :
  log_grows_by kind w1 w2 -> log_grows_by kind w2 w3 -> log_grows_by kind w1 w3.
Proof.
  intros (e1 & H1 & F1) (e2 & H2 & F2). exists (e1 ++ e2).
  rewrite H2, H1, app_assoc, forallb_app, F1, F2. auto.
Qed.

(** Calls of another kind are not affected. *)
Lemma calls_of_other (kind other : prompt -> bool) (w w' : world) :
  (forall p, kind p = true -> other p = false) ->
  log_grows_by kind w w' -> calls_of other w' = calls_of other w.
Proof.
  intros Hk (extra & Hlog & Hall). unfold calls_of. rewrite Hlog, List.filter_app.
  assert (Hnil : List.filter other extra = []).
  { clear Hlog. induction extra as [|p extra IH]; [reflexivity|]. simpl in *.
    apply andb_true_iff in Hall. destruct Hall as [Hp Hall].
    rewrite (Hk p Hp). now apply IH. }
  rewrite Hnil. apply app_nil_r.
Qed.

Lemma _get_cached_result_log (key : string) (ttl : Z) (w : world) :
  provider_log (snd (_get_cached_result key ttl w)) = provider_log w.
Proof.
  unfold _get_cached_result.
  destruct (_cache w !! key); [|reflexivity].
  destruct (_cache_timestamps w !! key); [|reflexivity].
  destruct (Qgt_bool _ _); reflexivity.
Qed.

Lemma suspicion_score_log rt text cfg video_id seg_index llm (w : world) :
  log_grows_by is_suspicion_prompt w
    (snd (suspicion_score rt text cfg video_id seg_index llm w)).
Proof.
  unfold suspicion_score.
  destruct (text_too_short text cfg); [now apply log_grows_refl|].
  unfold bind at 1.
  pose proof (_get_cached_result_log
                (cache_key video_id seg_index (text_hash rt text) "suspicion")
                (suspicion_llm_cache_ttl_sec cfg) w) as Hl.
  destruct (_get_cached_result _ _ w) as [[[c|]|e] w1]; simpl in Hl;
    try (now apply log_grows_refl).
  unfold try_except, bind.
  pose proof (provided_llm_state rt cfg llm w1) as Hst.
  destruct (provided_llm rt cfg llm w1) as [[[l|]|e] w2]; simpl in Hst; subst w2;
    try (now apply log_grows_refl).
  unfold time_time, invoke.
  destruct (l (length (provider_log w1)) (SuspicionPrompt (strip text))) as [reply elapsed].
  assert (Hone : forall w', provider_log w' = provider_log w1 ++ [SuspicionPrompt (strip text)] ->
                            log_grows_by is_suspicion_prompt w w').
  { intros w' H. apply (log_grows_one _ _ _ (SuspicionPrompt (strip text)));
      [now rewrite H, Hl | reflexivity]. }
  destruct reply as [v|e]; [|now apply Hone].
  destruct (is_success v); [|now apply Hone].
  unfold lift. destruct (py_float rt _); now apply Hone.
Qed.

Lemma score_suspicion_log rt segment_text mode planner_cfg video_id seg_index llm
    (w : world) :
  log_grows_by is_suspicion_prompt w
    (snd (score_suspicion rt segment_text mode planner_cfg video_id seg_index llm w)).
Proof.
  unfold score_suspicion.
  destruct (String.eqb mode "off"); [now apply log_grows_refl|].
  destruct (String.eqb mode "keywords"); [now apply log_grows_refl|].
  destruct (String.eqb mode "llm"); [|now apply log_grows_refl].
  destruct planner_cfg as [cfg|]; [|now apply log_grows_refl].
  unfold try_except, bind.
  pose proof (suspicion_score_log rt segment_text cfg video_id seg_index llm w) as H.
  destruct (suspicion_score rt segment_text cfg video_id seg_index llm w) as [[d|e] w1];
    simpl in H; [|exact H].
  destruct (truthy _); [exact H|].
  unfold item. destruct (dict_get "confidence" _); [|exact H].
  unfold ret, lift. simpl. destruct (py_ge _ _) as [above|e]; [|exact H].
  destruct (dict_get "suspicious" _); exact H.
Qed.

Lemma propose_points_log rt segment_text seg_start seg_end cfg video_id seg_index llm
    (w : world) :
  log_grows_by is_planning_prompt w
    (snd (propose_points rt segment_text seg_start seg_end cfg video_id seg_index llm w)).
Proof.
  unfold propose_points.
  destruct (text_too_short segment_text cfg); [now apply log_grows_refl|].
  destruct (Qlt_bool _ _); [now apply log_grows_refl|].
  unfold bind at 1.
  pose proof (_get_cached_result_log
                (cache_key video_id seg_index (text_hash rt segment_text) "points")
                (suspicion_llm_cache_ttl_sec cfg) w) as Hl.
  destruct (_get_cached_result _ _ w) as [[[c|]|e] w1]; simpl in Hl;
    try (now apply log_grows_refl).
  unfold max_points_for_segment.
  destruct (Qeq_bool _ _); [now apply log_grows_refl|].
  unfold bind at 1. unfold lift at 1. unfold try_except, bind.
  pose proof (provided_llm_state rt cfg llm w1) as Hst.
  destruct (provided_llm rt cfg llm w1) as [[[l|]|e] w2]; simpl in Hst; subst w2;
    try (now apply log_grows_refl).
  unfold time_time, invoke.
  destruct (l (length (provider_log w1)) _) as [reply elapsed] eqn:El.
  match type of El with
  | l _ ?p = _ =>
      assert (Hone : forall w', provider_log w' = provider_log w1 ++ [p] ->
                                log_grows_by is_planning_prompt w w')
  end.
  { intros w' H. eapply log_grows_one; [now rewrite H, Hl | reflexivity]. }
  destruct reply as [v|e]; [|now apply Hone].
  destruct (is_success v); [|now apply Hone].
  unfold lift. destruct (absolute_points rt _ _ _); now apply Hone.
Qed.

Lemma llm_decide_log rt audio_text ocr_text captions_text llm (w : world) :
  log_grows_by is_decision_prompt w
    (snd (llm_decide rt audio_text ocr_text captions_text llm w)).
Proof.
  destruct (llm_decide_cases rt audio_text ocr_text captions_text llm w)
    as (d & w' & Hrun & (_ & _ & Hlog & _) & _).
  rewrite Hrun. simpl. eapply log_grows_one; [exact Hlog | reflexivity].
Qed.

(** ** The budget counters *)

Lemma length_substring_le (m : nat) (s : string) :
  (String.length (String.substring 0 m s) <= m)%nat.
Proof.
  revert s. induction m as [|m IH]; intros s.
  - destruct s; simpl; lia.
  - destruct s as [|c s]; simpl; [lia|]. specialize (IH s). lia.
Qed.

(** A prefix [v[:n]] with [n >= 0] has at most [n] elements. *)
Lemma py_prefix_len (n : Z) (v p : pyval) (k : Z) :
  (0 <= n)%Z -> py_prefix n v = Returned p -> py_len p = Returned k ->
  (0 <= k <= n)%Z.
Proof.
  intros Hn Hp Hk. destruct v as [|b|z|x|s|l|d]; try discriminate; simpl in Hp.
  - inversion Hp; subst p. simpl in Hk. inversion Hk; subst k.
    unfold str_slice, slice_index, len.
    pose proof (length_substring_le
                  (Z.to_nat
                     ((if (n <? 0)%Z then Z.max 0 (Z.of_nat (String.length s) + n)
                       else Z.min n (Z.of_nat (String.length s)))
                      - (if (0 <? 0)%Z then Z.max 0 (Z.of_nat (String.length s) + 0)
                         else Z.min 0 (Z.of_nat (String.length s)))))
                  s) as H.
    assert (En : (n <? 0)%Z = false) by lia. rewrite En in *.
    change (0 <? 0)%Z with false in *. cbv iota in *.
    replace (Z.to_nat (Z.min 0 (Z.of_nat (String.length s)))) with 0%nat by lia.
    lia.
  - inversion Hp; subst p. simpl in Hk. inversion Hk; subst k.
    unfold list_prefix, slice_index.
    assert (En : (n <? 0)%Z = false) by lia. rewrite En.
    rewrite length_take. lia.
Qed.

Section Budget.
Variable rt : runtime.
Variable planner_cfg : LLMPlannerConfig.

Let inv := budget_respected planner_cfg.

Lemma budget_respected_counters (r : run) :
  inv r -> within_budget planner_cfg (suspicion_llm_calls r, planned_points_total r).
Proof.
  intros (_ & _ & Hall & Hlast). rewrite Forall_forall in Hall. apply Hall.
  now apply last_Some_elem_of.
Qed.

Lemma budget_respected_step (r r' : run) (p : Z * Z) :
  inv r ->
  budget_trace r' = budget_trace r ++ [p] ->
  p = (suspicion_llm_calls r', planned_points_total r') ->
  not_decreasing (suspicion_llm_calls r, planned_points_total r) p ->
  within_budget planner_cfg p ->
  inv r'.
Proof.
  intros (Hhead & Hadj & Hall & Hlast) Htrace Hp Hup Hin.
  unfold inv, budget_respected. rewrite Htrace. split; [|split; [|split]].
  - destruct (budget_trace r); [discriminate | exact Hhead].
  - apply adjacent_snoc; [exact Hadj|]. intros a Ha. rewrite Hlast in Ha.
    inversion Ha; subst a. exact Hup.
  - apply Forall_app. split; [exact Hall | constructor; [exact Hin | constructor]].
  - rewrite last_snoc. now subst p.
Qed.

Lemma count_suspicion_call_budget (r : run) :
  inv r -> (suspicion_llm_calls r < suspicion_llm_max_segments planner_cfg)%Z ->
  inv (count_suspicion_call r).
Proof.
  intros Hr Hlt. pose proof (budget_respected_counters r Hr) as [Hc Hp].
  simpl in Hc, Hp.
  eapply (budget_respected_step r); [exact Hr | reflexivity | reflexivity | |].
  - split; simpl; lia.
  - split; simpl; lia.
Qed.

Lemma count_planned_points_budget (n : Z) (r : run) :
  inv r -> (0 <= n)%Z ->
  (planned_points_total r + n <= planner_llm_max_points planner_cfg)%Z ->
  inv (count_planned_points n r).
Proof.
  intros Hr Hn Hle. pose proof (budget_respected_counters r Hr) as [Hc Hp].
  simpl in Hc, Hp.
  eapply (budget_respected_step r); [exact Hr | reflexivity | reflexivity | |].
  - split; simpl; lia.
  - split; simpl; lia.
Qed.

(** The mode handed to the scorer is "llm" only below the ceiling. *)
Lemma current_suspicion_mode_llm (r : run) :
  current_suspicion_mode planner_cfg r = "llm" ->
  String.eqb (suspicion_mode (run_cfg r)) "llm" = true /\
  (suspicion_llm_calls r < suspicion_llm_max_segments planner_cfg)%Z.
Proof.
  unfold current_suspicion_mode.
  destruct (String.eqb (suspicion_mode (run_cfg r)) "llm") eqn:E; simpl.
  - destruct (_ <=? _)%Z eqn:E2; [discriminate|]. intros _. split; [reflexivity | lia].
  - intros H. rewrite H in E. discriminate.
Qed.

Lemma suspicion_step_budget video_id i llm segment_text :
  preserves inv (suspicion_step rt planner_cfg video_id i llm segment_text).
Proof.
  intros r Hr.
  destruct (score_suspicion_returns rt segment_text (current_suspicion_mode planner_cfg r)
              (Some planner_cfg) video_id i (Some llm) (run_world r)) as (d & w' & Hd).
  rewrite (suspicion_step_run rt planner_cfg video_id i llm segment_text r d w' Hd).
  split; [exact I|]. cbv zeta.
  assert (H1 : inv (set_run_world w' r)) by exact Hr.
  destruct (_ && _ && _) eqn:Ecount.
  - assert (Hlt : (suspicion_llm_calls r < suspicion_llm_max_segments planner_cfg)%Z).
    { destruct (String.eqb (current_suspicion_mode planner_cfg r) "llm") eqn:Em.
      - apply String.eqb_eq in Em. now apply current_suspicion_mode_llm.
      - destruct (score_suspicion_not_llm rt segment_text _ (Some planner_cfg) video_id i
                    (Some llm) (run_world r) Em) as (d' & Hd' & Hno).
        rewrite Hd in Hd'. inversion Hd'; subst d'.
        rewrite Hno, andb_false_r in Ecount. discriminate. }
    assert (H2 : inv (count_suspicion_call (set_run_world w' r)))
      by (apply count_suspicion_call_budget; assumption).
    match goal with |- context [if ?b then _ else _] => destruct b end; exact H2.
  - match goal with |- context [if ?b then _ else _] => destruct b end; exact H1.
Qed.

Lemma planning_step_budget planning_mode video_id i llm segment_text start end_
    is_suspicious :
  preserves inv
    (planning_step rt planner_cfg planning_mode video_id i llm segment_text
       start end_ is_suspicious).
Proof.
  intros r Hr. unfold planning_step, bind, get.
  destruct (planning_allowed planner_cfg planning_mode is_suspicious r) eqn:G;
    [|split; [exact I | exact Hr]].
  assert (Hlt : (planned_points_total r < planner_llm_max_points planner_cfg)%Z).
  { unfold planning_allowed in G. apply andb_true_iff in G. destruct G as [_ G]. lia. }
  unfold try_except, in_world.
  destruct (propose_points _ _ _ _ _ _ _ _ (run_world r)) as [[v|e] w'];
    [|split; [exact I | exact Hr]].
  unfold lift. simpl.
  destruct (py_prefix _ v) as [p|e] eqn:Ep; [|split; [exact I | exact Hr]].
  destruct (py_len p) as [k|e] eqn:Ek; [|split; [exact I | exact Hr]].
  simpl. split; [exact I|].
  assert (Hk : (0 <= k <= planner_llm_max_points planner_cfg - planned_points_total r)%Z)
    by (eapply py_prefix_len; [|exact Ep | exact Ek]; lia).
  apply (count_planned_points_budget k (set_run_world w' r)); [exact Hr | lia |].
  simpl. lia.
Qed.

Lemma analyze_segment_budget video_id video_path llm full_text word_timestamps
    planning_mode i seg :
  preserves inv
    (analyze_segment rt planner_cfg video_id video_path llm full_text
       word_timestamps planning_mode i seg).
Proof.
  unfold analyze_segment. cbv zeta.
  apply preserves_bind; [apply suspicion_step_budget|]. intros suspicion_result.
  apply preserves_bind; [apply preserves_item|]. intros is_suspicious.
  apply preserves_bind; [apply planning_step_budget|]. intros planned_timestamps.
  apply preserves_bind; [apply preserves_get|]. intros r.
  apply preserves_bind; [apply final_timestamps_of_state|]. intros final_timestamps.
  destruct (sample_frames _ _ _ _ _ _ _) as [|frame frames]; [apply preserves_ret|].
  apply preserves_bind; [apply preserves_lift|]. intros evidence.
  apply preserves_bind; [apply preserves_in_world; intros; assumption|].
  intros decision.
  apply preserves_bind; [apply preserves_item|]. intros is_harmful.
  apply preserves_bind; [|intros _; apply aggregate_tokens_state; intros; assumption].
  destruct (truthy is_harmful); [|apply preserves_ret].
  apply preserves_bind; [apply harmful_event_of_state|]. intros harmful_event.
  apply preserves_modify. intros; assumption.
Qed.

Lemma analyze_loop_budget video_id video_path llm full_text word_timestamps
    planning_mode segments i :
  preserves inv
    (analyze_loop rt planner_cfg video_id video_path llm full_text
       word_timestamps planning_mode i segments).
Proof.
  revert i. induction segments as [|seg segments IH]; intros i; simpl.
  - apply preserves_ret.
  - apply preserves_bind; [|intros _; apply IH].
    apply preserves_try_except; [apply analyze_segment_budget|].
    intros e. apply preserves_ret.
Qed.
End Budget.

(** ** After a ceiling has been reached *)

Lemma score_suspicion_not_llm_method rt segment_text mode planner_cfg video_id
    seg_index llm (w : world) :
  String.eqb mode "llm" = false ->
  exists d,
    score_suspicion rt segment_text mode planner_cfg video_id seg_index llm w
      = (Returned d, w) /\
    (dict_get "method" d = Some (VStr "keywords") \/
     dict_get "method" d = Some (VStr "off")).
Proof.
  intros Hmode. unfold score_suspicion. rewrite Hmode.
  destruct (score_keywords_method segment_text) as (Hm & _ & _).
  destruct (String.eqb mode "off"); [eexists; split; [reflexivity | now right]|].
  destruct (String.eqb mode "keywords"); eexists; (split; [reflexivity | now left]).
Qed.

Lemma harmful_event_of_paths rt planning_mode start end_ segment_text captions ocr
    num_frames decision suspicion_result planned_timestamps (I : run -> Prop) :
  triple I
    (harmful_event_of rt planning_mode start end_ segment_text captions ocr
       num_frames decision suspicion_result planned_timestamps)
    (fun harmful_event =>
       analysis_data_get "suspicion_method" harmful_event
         = Some (dict_get_default "method" (VStr "unknown") suspicion_result) /\
       (truthy planned_timestamps = false ->
        analysis_data_get "planned_points" harmful_event = Some (VInt 0))).
Proof.
  intros r Hr. unfold harmful_event_of, item, bind.
  destruct (dict_get "confidence" decision) as [c|]; simpl; [|exact Hr].
  unfold lift. destruct (int_times_100 c); simpl; [|exact Hr].
  destruct (dict_get "explanation" decision); simpl; [|exact Hr].
  destruct (dict_get "categories" decision); simpl; [|exact Hr].
  destruct (truthy planned_timestamps) eqn:Et; simpl.
  - destruct (py_len planned_timestamps); simpl; [|exact Hr].
    split; [|exact Hr]. split; [reflexivity | discriminate].
  - split; [|exact Hr]. split; reflexivity.
Qed.

Section Ceilings.
Variable rt : runtime.
Variable planner_cfg : LLMPlannerConfig.
Variables (video_id video_path : string) (llm : provider).
Variables (full_text : option string) (word_timestamps : option (list (string * Q))).
Variable planning_mode : string.
Variable r1 : run.

(** *** The suspicion ceiling *)

Lemma after_suspicion_ceiling_world (r : run) (w' : world) :
  after_suspicion_ceiling planner_cfg r1 r ->
  calls_of is_suspicion_prompt w' = calls_of is_suspicion_prompt (run_world r) ->
  after_suspicion_ceiling planner_cfg r1 (set_run_world w' r).
Proof.
  intros (Hmax & Hc & Hlog & Hev) Hw. split; [exact Hmax|].
  split; [exact Hc|]. split; [simpl; now rewrite Hw | exact Hev].
Qed.

Lemma suspicion_step_after_ceiling i segment_text :
  triple (after_suspicion_ceiling planner_cfg r1)
    (suspicion_step rt planner_cfg video_id i llm segment_text)
    (fun d => dict_get "method" d = Some (VStr "keywords") \/
              dict_get "method" d = Some (VStr "off")).
Proof.
  intros r Hr. pose proof Hr as (Hmax & Hc & Hlog & Hev).
  assert (Hmode : String.eqb (current_suspicion_mode planner_cfg r) "llm" = false).
  { unfold current_suspicion_mode.
    destruct (String.eqb (suspicion_mode (run_cfg r)) "llm") eqn:E; simpl; [|exact E].
    assert (Hle : (suspicion_llm_max_segments planner_cfg <=? suspicion_llm_calls r)%Z = true)
      by lia.
    now rewrite Hle. }
  destruct (score_suspicion_not_llm_method rt segment_text _ (Some planner_cfg) video_id i
              (Some llm) (run_world r) Hmode) as (d & Hd & Hmethod).
  rewrite (suspicion_step_run rt planner_cfg video_id i llm segment_text r d _ Hd).
  split; [exact Hmethod|]. cbv zeta.
  assert (Hno : py_eq_str (dict_get_default "method" VNone d) "llm" = false).
  { unfold dict_get_default. destruct Hmethod as [-> | ->]; reflexivity. }
  rewrite Hno, andb_false_r. simpl.
  assert (H0 : after_suspicion_ceiling planner_cfg r1 (set_run_world (run_world r) r)).
  { apply after_suspicion_ceiling_world; [exact Hr | reflexivity]. }
  match goal with |- context [if ?b then _ else _] => destruct b end; exact H0.
Qed.

Lemma planning_step_after_suspicion_ceiling i segment_text start end_ is_suspicious :
  preserves (after_suspicion_ceiling planner_cfg r1)
    (planning_step rt planner_cfg planning_mode video_id i llm segment_text
       start end_ is_suspicious).
Proof.
  intros r Hr. unfold planning_step, bind, get.
  destruct (planning_allowed planner_cfg planning_mode is_suspicious r);
    [|split; [exact I | exact Hr]].
  unfold try_except, in_world.
  pose proof (propose_points_log rt segment_text start end_ planner_cfg video_id i
                (Some llm) (run_world r)) as Hlog.
  destruct (propose_points _ _ _ _ _ _ _ _ (run_world r)) as [[v|e] w']; simpl in Hlog.
  2:{ split; [exact I|]. apply after_suspicion_ceiling_world; [exact Hr|].
      now apply (calls_of_other is_planning_prompt); [intros []|]. }
  assert (H0 : after_suspicion_ceiling planner_cfg r1 (set_run_world w' r)).
  { apply after_suspicion_ceiling_world; [exact Hr|].
    now apply (calls_of_other is_planning_prompt); [intros []|]. }
  unfold lift. simpl.
  destruct (py_prefix _ v) as [p|e]; [|split; [exact I | exact H0]].
  destruct (py_len p) as [k|e]; [|split; [exact I | exact H0]].
  simpl. split; [exact I | exact H0].
Qed.

Lemma analyze_segment_after_suspicion_ceiling i seg :
  preserves (after_suspicion_ceiling planner_cfg r1)
    (analyze_segment rt planner_cfg video_id video_path llm full_text
       word_timestamps planning_mode i seg).
Proof.
  unfold analyze_segment. cbv zeta.
  eapply triple_bind; [apply suspicion_step_after_ceiling|].
  intros suspicion_result Hmethod.
  apply preserves_bind; [apply preserves_item|]. intros is_suspicious.
  apply preserves_bind; [apply planning_step_after_suspicion_ceiling|].
  intros planned_timestamps.
  apply preserves_bind; [apply preserves_get|]. intros r.
  apply preserves_bind; [apply final_timestamps_of_state|]. intros final_timestamps.
  destruct (sample_frames _ _ _ _ _ _ _) as [|frame frames]; [apply preserves_ret|].
  apply preserves_bind; [apply preserves_lift|]. intros evidence.
  apply preserves_bind.
  { apply triple_in_world. intros r2 Hr2.
    pose proof (llm_decide_log rt
                  (segment_text_of rt video_path full_text word_timestamps
                     (seg_start seg) (seg_end seg))
                  (snd evidence) (fst evidence) llm (run_world r2)) as Hlog.
    assert (H0 : after_suspicion_ceiling planner_cfg r1
                   (set_run_world (snd (llm_decide rt
                      (segment_text_of rt video_path full_text word_timestamps
                         (seg_start seg) (seg_end seg))
                      (snd evidence) (fst evidence) llm (run_world r2))) r2)).
    { apply after_suspicion_ceiling_world; [exact Hr2|].
      now apply (calls_of_other is_decision_prompt); [intros []|]. }
    destruct (llm_decide _ _ _ _ _ _) as [[d|e] w']; simpl in H0; auto. }
  intros decision.
  apply preserves_bind; [apply preserves_item|]. intros is_harmful.
  apply preserves_bind.
  2:{ intros _. apply aggregate_tokens_state. intros r2 t H. exact H. }
  destruct (truthy is_harmful); [|apply preserves_ret].
  eapply triple_bind; [apply harmful_event_of_paths|].
  intros harmful_event [Hm _].
  apply preserves_modify. intros r2 (Hmax & Hc & Hlog & new & Hev & Hnew).
  split; [exact Hmax|]. split; [exact Hc|]. split; [exact Hlog|].
  exists (new ++ [harmful_event]). simpl. rewrite Hev, app_assoc.
  split; [reflexivity|]. apply Forall_app. split; [exact Hnew|].
  constructor; [|constructor]. unfold scored_without_llm. rewrite Hm.
  unfold dict_get_default. destruct Hmethod as [-> | ->]; auto.
Qed.

Lemma analyze_loop_after_suspicion_ceiling segments i :
  preserves (after_suspicion_ceiling planner_cfg r1)
    (analyze_loop rt planner_cfg video_id video_path llm full_text
       word_timestamps planning_mode i segments).
Proof.
  revert i. induction segments as [|seg segments IH]; intros i; simpl.
  - apply preserves_ret.
  - apply preserves_bind; [|intros _; apply IH].
    apply preserves_try_except; [apply analyze_segment_after_suspicion_ceiling|].
    intros e. apply preserves_ret.
Qed.
End Ceilings.

Section PointsCeiling.
Variable rt : runtime.
Variable planner_cfg : LLMPlannerConfig.
Variables (video_id video_path : string) (llm : provider).
Variables (full_text : option string) (word_timestamps : option (list (string * Q))).
Variable planning_mode : string.
Variable r1 : run.

(** *** The ceiling of the planned points *)

Lemma after_points_ceiling_world (r : run) (w' : world) :
  after_points_ceiling planner_cfg r1 r ->
  calls_of is_planning_prompt w' = calls_of is_planning_prompt (run_world r) ->
  after_points_ceiling planner_cfg r1 (set_run_world w' r).
Proof.
  intros (Hmax & Hc & Hlog & Hev) Hw. split; [exact Hmax|].
  split; [exact Hc|]. split; [simpl; now rewrite Hw | exact Hev].
Qed.

Lemma suspicion_step_after_points_ceiling i segment_text :
  preserves (after_points_ceiling planner_cfg r1)
    (suspicion_step rt planner_cfg video_id i llm segment_text).
Proof.
  intros r Hr.
  pose proof (score_suspicion_log rt segment_text (current_suspicion_mode planner_cfg r)
                (Some planner_cfg) video_id i (Some llm) (run_world r)) as Hlog.
  destruct (score_suspicion_returns rt segment_text (current_suspicion_mode planner_cfg r)
              (Some planner_cfg) video_id i (Some llm) (run_world r)) as (d & w' & Hd).
  rewrite Hd in Hlog. simpl in Hlog.
  rewrite (suspicion_step_run rt planner_cfg video_id i llm segment_text r d w' Hd).
  split; [exact I|]. cbv zeta.
  assert (H0 : after_points_ceiling planner_cfg r1 (set_run_world w' r)).
  { apply after_points_ceiling_world; [exact Hr|].
    now apply (calls_of_other is_suspicion_prompt); [intros []|]. }
  assert (H1 : after_points_ceiling planner_cfg r1 (count_suspicion_call (set_run_world w' r)))
    by exact H0.
  destruct (_ && _ && _);
    match goal with |- context [if ?b then _ else _] => destruct b end;
    assumption.
Qed.

Lemma planning_step_after_points_ceiling i segment_text start end_ is_suspicious :
  triple (after_points_ceiling planner_cfg r1)
    (planning_step rt planner_cfg planning_mode video_id i llm segment_text
       start end_ is_suspicious)
    (fun planned_timestamps => planned_timestamps = VList []).
Proof.
  intros r Hr. pose proof Hr as (Hmax & Hc & _).
  unfold planning_step, bind, get.
  assert (G : planning_allowed planner_cfg planning_mode is_suspicious r = false).
  { unfold planning_allowed.
    assert (Hlt : (planned_points_total r <? planner_llm_max_points planner_cfg)%Z = false)
      by lia.
    rewrite Hlt. apply andb_false_r. }
  rewrite G. split; [reflexivity | exact Hr].
Qed.

Lemma analyze_segment_after_points_ceiling i seg :
  preserves (after_points_ceiling planner_cfg r1)
    (analyze_segment rt planner_cfg video_id video_path llm full_text
       word_timestamps planning_mode i seg).
Proof.
  unfold analyze_segment. cbv zeta.
  apply preserves_bind; [apply suspicion_step_after_points_ceiling|].
  intros suspicion_result.
  apply preserves_bind; [apply preserves_item|]. intros is_suspicious.
  eapply triple_bind; [apply planning_step_after_points_ceiling|].
  intros planned_timestamps ->.
  apply preserves_bind; [apply preserves_get|]. intros r.
  apply preserves_bind; [apply final_timestamps_of_state|]. intros final_timestamps.
  destruct (sample_frames _ _ _ _ _ _ _) as [|frame frames]; [apply preserves_ret|].
  apply preserves_bind; [apply preserves_lift|]. intros evidence.
  apply preserves_bind.
  { apply triple_in_world. intros r2 Hr2.
    pose proof (llm_decide_log rt
                  (segment_text_of rt video_path full_text word_timestamps
                     (seg_start seg) (seg_end seg))
                  (snd evidence) (fst evidence) llm (run_world r2)) as Hlog.
    assert (H0 : after_points_ceiling planner_cfg r1
                   (set_run_world (snd (llm_decide rt
                      (segment_text_of rt video_path full_text word_timestamps
                         (seg_start seg) (seg_end seg))
                      (snd evidence) (fst evidence) llm (run_world r2))) r2)).
    { apply after_points_ceiling_world; [exact Hr2|].
      now apply (calls_of_other is_decision_prompt); [intros []|]. }
    destruct (llm_decide _ _ _ _ _ _) as [[d|e] w']; simpl in H0; auto. }
  intros decision.
  apply preserves_bind; [apply preserves_item|]. intros is_harmful.
  apply preserves_bind.
  2:{ intros _. apply aggregate_tokens_state. intros r2 t H. exact H. }
  destruct (truthy is_harmful); [|apply preserves_ret].
  eapply triple_bind; [apply harmful_event_of_paths|].
  intros harmful_event [_ Hp].
  apply preserves_modify. intros r2 (Hmax & Hc & Hlog & new & Hev & Hnew).
  split; [exact Hmax|]. split; [exact Hc|]. split; [exact Hlog|].
  exists (new ++ [harmful_event]). simpl. rewrite Hev, app_assoc.
  split; [reflexivity|]. apply Forall_app. split; [exact Hnew|].
  constructor; [|constructor]. apply Hp. reflexivity.
Qed.

Lemma analyze_loop_after_points_ceiling segments i :
  preserves (after_points_ceiling planner_cfg r1)
    (analyze_loop rt planner_cfg video_id video_path llm full_text
       word_timestamps planning_mode i segments).
Proof.
  revert i. induction segments as [|seg segments IH]; intros i; simpl.
  - apply preserves_ret.
  - apply preserves_bind; [|intros _; apply IH].
    apply preserves_try_except; [apply analyze_segment_after_points_ceiling|].
    intros e. apply preserves_ret.
Qed.

(** *** The loop, piece by piece *)

Lemma analyze_loop_returns segments i (r : run) :
  fst (analyze_loop rt planner_cfg video_id video_path llm full_text
         word_timestamps planning_mode i segments r) = Returned tt.
Proof.
  revert i r. induction segments as [|seg segments IH]; intros i r; simpl; [reflexivity|].
  unfold bind, try_except.
  destruct (analyze_segment _ _ _ _ _ _ _ _ _ _ r) as [[[]|e] r']; simpl; apply IH.
Qed.

Lemma analyze_loop_app pre post i (r : run) :
  snd (analyze_loop rt planner_cfg video_id video_path llm full_text
         word_timestamps planning_mode i (pre ++ post) r)
  = snd (analyze_loop rt planner_cfg video_id video_path llm full_text
           word_timestamps planning_mode (i + Z.of_nat (length pre))%Z post
           (snd (analyze_loop rt planner_cfg video_id video_path llm full_text
                   word_timestamps planning_mode i pre r))).
Proof.
  revert i r. induction pre as [|seg pre IH]; intros i r.
  - simpl. now rewrite Z.add_0_r.
  - simpl app. cbn [analyze_loop]. unfold bind, try_except.
    destruct (analyze_segment _ _ _ _ _ _ _ _ _ _ r) as [[[]|e] r']; simpl fst; simpl snd;
      cbv iota beta; rewrite IH;
      replace (i + 1 + Z.of_nat (length pre))%Z with (i + Z.of_nat (S (length pre)))%Z
        by lia; reflexivity.
Qed.
End PointsCeiling.

(** ** The points of a call that is not served from the cache *)

(** Sorting, the greedy filter and a prefix keep a property of the
    elements. *)
Lemma insert_sorted_Forall {A} (leb : A -> A -> bool) (P : A -> Prop) (x : A) (l : list A) :
  P x -> Forall P l -> Forall P (insert_sorted leb x l).
Proof.
  intros Hx Hl. induction Hl as [|y l Hy Hl IH]; simpl.
  - constructor; [exact Hx | constructor].
  - destruct (leb x y); constructor; auto.
Qed.

Lemma py_sorted_Forall {A} (leb : A -> A -> bool) (P : A -> Prop) (l : list A) :
  Forall P l -> Forall P (py_sorted leb l).
Proof.
  induction 1 as [|x l Hx Hl IH]; simpl; [constructor|].
  now apply insert_sorted_Forall.
Qed.







(** ** [merge_timestamps_with_planning] *)

Lemma insert_sorted_filter_length {A} (leb : A -> A -> bool) (f : A -> bool)
    (x : A) (l : list A) :
  length (List.filter f (insert_sorted leb x l)) = length (List.filter f (x :: l)).
Proof.
  induction l as [|y l IH]; [reflexivity|].
  simpl insert_sorted. destruct (leb x y); [reflexivity|].
  simpl in *. destruct (f y), (f x); simpl in *; lia.
Qed.

Lemma py_sorted_filter_length {A} (leb : A -> A -> bool) (f : A -> bool) (l : list A) :
  length (List.filter f (py_sorted leb l)) = length (List.filter f l).
Proof.
  induction l as [|x l IH]; [reflexivity|].
  simpl py_sorted. rewrite insert_sorted_filter_length. simpl.
  destruct (f x); simpl; lia.
Qed.

Lemma insert_sorted_In {A} (leb : A -> A -> bool) (x y : A) (l : list A) :
  In y (insert_sorted leb x l) <-> y = x \/ In y l.
Proof.
  induction l as [|z l IH]; simpl; [intuition congruence|].
  destruct (leb x z); simpl; [intuition congruence|].
  rewrite IH. intuition congruence.
Qed.

Lemma py_sorted_In {A} (leb : A -> A -> bool) (y : A) (l : list A) :
  In y (py_sorted leb l) <-> In y l.
Proof.
  induction l as [|x l IH]; [reflexivity|].
  simpl py_sorted. rewrite insert_sorted_In, IH. simpl. intuition congruence.
Qed.

(** The loop of the merge: the counter is the number of extra timestamps
    appended, it never passes a non-negative [max_extra], and a timestamp
    that is not extra is always appended. *)
Lemma merge_fold (periodic planned : list Q) (max_extra : bound)
    (timestamps : list Q) (st : list Q * Z) :
  let st' := fold_left (merge_step periodic planned max_extra) timestamps st in
  (snd st = extra_count periodic planned (fst st) ->
   snd st' = extra_count periodic planned (fst st')) /\
  (forall m, max_extra = Finite m -> (snd st <= Z.max 0 m)%Z ->
     (snd st' <= Z.max 0 m)%Z) /\
  (forall ts, In ts (fst st) \/ (In ts timestamps /\ is_extra periodic planned ts = false) ->
     In ts (fst st')) /\
  (forall ts, In ts (fst st') -> In ts (fst st) \/ In ts timestamps).
Proof.
  revert st. induction timestamps as [|t timestamps IH]; intros st; cbv zeta.
  - simpl. repeat split; auto. intros ts [H|[[] _]]. exact H.
  - simpl fold_left. specialize (IH (merge_step periodic planned max_extra st t)).
    cbv zeta in IH. destruct IH as (Hcount & Hmax & Hkeep & Hfrom).
    assert (Hstep : let s1 := merge_step periodic planned max_extra st t in
              (snd st = extra_count periodic planned (fst st) ->
               snd s1 = extra_count periodic planned (fst s1)) /\
              (forall m, max_extra = Finite m -> (snd st <= Z.max 0 m)%Z ->
                 (snd s1 <= Z.max 0 m)%Z) /\
              (forall ts, In ts (fst st) -> In ts (fst s1)) /\
              (is_extra periodic planned t = false -> In t (fst s1)) /\
              (forall ts, In ts (fst s1) -> In ts (fst st) \/ ts = t)).
    { destruct st as [final extra_added]. unfold merge_step.
      fold (is_extra periodic planned t).
      destruct (is_extra periodic planned t) eqn:Hextra.
      - destruct (below extra_added max_extra) eqn:Hbelow; simpl.
        + split.
          { intros ->. unfold extra_count. rewrite List.filter_app, length_app. simpl.
            rewrite Hextra. simpl. lia. }
          split.
          { intros m -> _. simpl in Hbelow. apply Z.ltb_lt in Hbelow. lia. }
          split; [intros ts H; apply in_or_app; now left|].
          split; [discriminate|].
          intros ts H. apply in_app_or in H. destruct H as [H|[H|[]]]; auto.
        + repeat split; auto. discriminate.
      - simpl. split.
        { intros ->. unfold extra_count. rewrite List.filter_app, length_app. simpl.
          rewrite Hextra. simpl. lia. }
        split; [auto|].
        split; [intros ts H; apply in_or_app; now left|].
        split; [intros _; apply in_or_app; right; now left|].
        intros ts H. apply in_app_or in H. destruct H as [H|[H|[]]]; auto. }
    cbv zeta in Hstep. destruct Hstep as (Hc1 & Hm1 & Hk1 & Ht1 & Hf1).
    split; [auto|]. split; [intros m Hm Hle; eauto|]. split.
    + intros ts [H|[[H|H] Hx]]; apply Hkeep.
      * left. auto.
      * left. subst ts. auto.
      * right. auto.
    + intros ts H. apply Hfrom in H. destruct H as [H|H]; [|right; now right].
      apply Hf1 in H. destruct H as [H|H]; [now left | right; left; auto].
Qed.

(** X10.  What the merge does keep: every timestamp of the output has passed the
    minimum-gap filter; a timestamp that has passed it and is periodic (or
    not planned) is in the output; and the number of planned timestamps
    that are not periodic is bounded by each of the three limits, where
    given and not negative. *)
Lemma merge_timestamps_kept (periodic planned : list Q) (cfg : LLMPlannerConfig)
    (max_frames_per_segment remaining_points_budget : option Z) :
  let merged :=
    merge_timestamps_with_planning periodic planned cfg max_frames_per_segment
      remaining_points_budget in
  let survivors := gap_survivors periodic planned cfg in
  (forall ts, In ts merged -> In ts survivors) /\
  (forall ts, In ts survivors -> is_extra periodic planned ts = false -> In ts merged) /\
  (extra_count periodic planned merged <= Z.max 0 (planner_max_extra_frames cfg))%Z /\
  (forall b, remaining_points_budget = Some b ->
     (extra_count periodic planned merged <= Z.max 0 b)%Z) /\
  (forall m, max_frames_per_segment = Some m -> m <> 0%Z ->
     (extra_count periodic planned merged
        <= Z.max 0 (m - Z.of_nat (length periodic)))%Z).
Proof.
  cbv zeta. unfold merge_timestamps_with_planning. fold (gap_survivors periodic planned cfg).
  set (max_extra_by_segment :=
         match max_frames_per_segment with
         | Some m => if truthy (VInt m) then Finite (m - Z.of_nat (length periodic))
                     else Infinite
         | None => Infinite
         end).
  set (max_extra_by_points :=
         match remaining_points_budget with Some b => Finite b | None => Infinite end).
  set (max_extra :=
         bound_min (bound_min max_extra_by_segment max_extra_by_points)
           (Finite (planner_max_extra_frames cfg))).
  pose proof (merge_fold periodic planned max_extra (gap_survivors periodic planned cfg)
                ([], 0%Z)) as H.
  cbv zeta in H.
  destruct (fold_left (merge_step periodic planned max_extra)
              (gap_survivors periodic planned cfg) ([], 0%Z)) as [final extra_added].
  simpl in H. destruct H as (Hcount & Hmax & Hkeep & Hfrom).
  specialize (Hcount eq_refl).
  assert (Hlen : extra_count periodic planned (py_sorted Qle_bool final) = extra_added).
  { rewrite Hcount. unfold extra_count. now rewrite py_sorted_filter_length. }
  rewrite Hlen.
  assert (Hle : forall m, max_extra = Finite m -> (extra_added <= Z.max 0 m)%Z).
  { intros m Hm. apply Hmax; [exact Hm | lia]. }
  split; [|split; [|split; [|split]]].
  - intros ts Hts. apply py_sorted_In in Hts. apply Hfrom in Hts.
    destruct Hts as [[]|Hts]. exact Hts.
  - intros ts Hts Hx. apply py_sorted_In. apply Hkeep. right. now split.
  - subst max_extra.
    destruct (bound_min max_extra_by_segment max_extra_by_points) as [n|];
      simpl in Hle; specialize (Hle _ eq_refl); lia.
  - intros b Hb. subst max_extra max_extra_by_points. rewrite Hb in Hle.
    destruct max_extra_by_segment as [n|]; simpl in Hle; specialize (Hle _ eq_refl); lia.
  - intros m Hm Hm0. subst max_extra max_extra_by_segment. rewrite Hm in Hle.
    assert (Ht : truthy (VInt m) = true).
    { simpl. destruct m; [contradiction | reflexivity | reflexivity]. }
    rewrite Ht in Hle.
    destruct max_extra_by_points as [n|]; simpl in Hle; specialize (Hle _ eq_refl); lia.
Qed.

(** ** The emitted events *)

(** The decision depends on the process state through the number of the
    call only. *)
Lemma llm_decide_same_call (rt : runtime) (audio_text ocr_text captions_text : string)
    (llm : provider) (w1 w2 : world) :
  length (provider_log w1) = length (provider_log w2) ->
  fst (llm_decide rt audio_text ocr_text captions_text llm w1)
  = fst (llm_decide rt audio_text ocr_text captions_text llm w2).
Proof.
  intros Hlen. unfold llm_decide, bind, try_except, invoke, ret, lift.
  rewrite Hlen.
  destruct (llm (length (provider_log w2)) _) as [[v|e] elapsed]; [|reflexivity].
  destruct v as [| | | | | |result]; try reflexivity.
  destruct (dict_has "error" result); [reflexivity|].
  destruct (py_float rt _); reflexivity.
Qed.

(** An event keeps its call when the log grows. *)
Lemma event_of_call_grows (rt : runtime) (llm : provider) (log extra : list prompt)
    (harmful_event : pydict) (n : nat) :
  event_of_call rt llm log harmful_event n ->
  event_of_call rt llm (log ++ extra) harmful_event n.
Proof.
  intros (t & o & c & d & v & q & Hlog & H). exists t, o, c, d, v, q.
  split; [|exact H]. now apply lookup_app_l_Some.
Qed.

Lemma events_from_calls_grows (rt : runtime) (llm : provider) (first : nat)
    (r r' : run) (extra : list prompt) :
  harmful_events r' = harmful_events r ->
  provider_log (run_world r') = provider_log (run_world r) ++ extra ->
  events_from_calls rt llm first r -> events_from_calls rt llm first r'.
Proof.
  intros He Hl (Hfirst & calls & Hev & Hsorted & Hin).
  split; [rewrite Hl, length_app; lia|]. exists calls.
  rewrite He, Hl. split; [|split; [exact Hsorted|]].
  - eapply Forall2_impl; [exact Hev|]. intros ev n. apply event_of_call_grows.
  - eapply List.Forall_impl; [|exact Hin]. intros n Hn. simpl in Hn.
    rewrite length_app. lia.
Qed.

Section Events.
Variable rt : runtime.
Variable llm : provider.
Variable first : nat.

Let J := events_from_calls rt llm first.

(** A planner call inside the run. *)
Lemma in_world_events {A} (m : M A) (kind : prompt -> bool) :
  (forall w, log_grows_by kind w (snd (m w))) ->
  preserves J (in_world m).
Proof.
  intros Hlog. apply triple_in_world. intros r Hr.
  destruct (Hlog (run_world r)) as (extra & Hextra & _).
  destruct (m (run_world r)) as [[a|e] w']; simpl in Hextra;
    [split; [exact I|]|];
    apply (events_from_calls_grows rt llm first r _ extra); auto.
Qed.

Lemma suspicion_step_calls planner_cfg video_id i segment_text :
  preserves J (suspicion_step rt planner_cfg video_id i llm segment_text).
Proof.
  unfold suspicion_step. preserves_auto;
    try (eapply in_world_events; intros w; apply score_suspicion_log);
    apply preserves_modify; intros s Hs; exact Hs.
Qed.

Lemma planning_step_calls planner_cfg planning_mode video_id i segment_text
    start end_ is_suspicious :
  preserves J
    (planning_step rt planner_cfg planning_mode video_id i llm segment_text
       start end_ is_suspicious).
Proof.
  unfold planning_step. preserves_auto;
    try (eapply in_world_events; intros w; apply propose_points_log);
    apply preserves_modify; intros s Hs; exact Hs.
Qed.

(** The fields of the event dictionary that the claim is about. *)
Lemma harmful_event_of_fields planning_mode start end_ segment_text captions ocr
    num_frames decision suspicion_result planned_timestamps (q : Q) (I : run -> Prop) :
  dict_get "confidence" decision = Some (VFloat (PFin q)) -> 0 <= q <= 1 ->
  triple I
    (harmful_event_of rt planning_mode start end_ segment_text captions ocr
       num_frames decision suspicion_result planned_timestamps)
    (fun harmful_event =>
       dict_get "audio_evidence" harmful_event = Some (VStr segment_text) /\
       analysis_data_get "confidence" harmful_event
         = Some (VInt (Qtrunc (float_mul q 100))) /\
       analysis_data_get "categories" harmful_event = dict_get "categories" decision).
Proof.
  intros Hq Hrange r Hr. unfold harmful_event_of, item, bind. rewrite Hq. simpl.
  destruct (float_mul_percent q Hrange) as [_ Hfinite]. rewrite Hfinite. simpl.
  destruct (dict_get "explanation" decision); simpl; [|exact Hr].
  destruct (dict_get "categories" decision); simpl; [|exact Hr].
  destruct (truthy planned_timestamps); simpl.
  - destruct (py_len planned_timestamps); simpl; [|exact Hr]. auto.
  - auto.
Qed.

Lemma snd_bind {S A B} (m : ST S A) (f : A -> ST S B) (s : S) :
  snd (bind m f s)
  = match m s with
    | (Returned a, s') => snd (f a s')
    | (Raised _, s') => s'
    end.
Proof. unfold bind. destruct (m s) as [[a|e] s']; reflexivity. Qed.

Lemma preserves_of_final {S A} (I : S -> Prop) (m : ST S A) :
  (forall s, I s -> I (snd (m s))) -> preserves I m.
Proof.
  intros H s Hs. specialize (H s Hs). destruct (m s) as [[a|e] s']; simpl in H; auto.
Qed.

Ltac step_bind := cbv beta iota; rewrite snd_bind.

(** One segment: an event is appended only after a decision whose verdict
    is true, and it is built from that decision. *)
Lemma analyze_segment_calls planner_cfg video_id video_path full_text
    word_timestamps planning_mode i seg :
  preserves J
    (analyze_segment rt planner_cfg video_id video_path llm full_text
       word_timestamps planning_mode i seg).
Proof.
  unfold analyze_segment. cbv zeta.
  set (segment_text := segment_text_of rt video_path full_text word_timestamps
                         (seg_start seg) (seg_end seg)).
  apply preserves_bind; [apply suspicion_step_calls|]. intros suspicion_result.
  apply preserves_bind; [apply preserves_item|]. intros is_suspicious.
  apply preserves_bind; [apply planning_step_calls|]. intros planned_timestamps.
  apply preserves_bind; [apply preserves_get|]. intros r.
  apply preserves_bind; [apply final_timestamps_of_state|]. intros final_timestamps.
  destruct (sample_frames _ _ _ _ _ _ _) as [|frame frames]; [apply preserves_ret|].
  apply preserves_bind; [apply preserves_lift|]. intros evidence.
  apply preserves_of_final. intros r1 Hr1. cbv beta.
  step_bind. unfold in_world at 1.
  destruct (llm_decide_cases rt segment_text (snd evidence) (fst evidence) llm
              (run_world r1)) as (d & w' & Hrun & (_ & _ & Hlog & _) & _).
  destruct (llm_decide_shape rt segment_text (snd evidence) (fst evidence) llm
              (run_world r1)) as (d2 & w2 & b & q & Hrun2 & Hb & Hq & Hrange).
  rewrite Hrun in Hrun2. inversion Hrun2; subst d2 w2; clear Hrun2.
  rewrite Hrun.
  set (s1 := set_run_world w' r1).
  assert (Hs1 : J s1).
  { apply (events_from_calls_grows rt llm first r1 s1 _ eq_refl Hlog Hr1). }
  assert (Htokens : forall s, J s -> J (snd (aggregate_tokens d s))).
  { intros s Hs. apply preserves_final; [|exact Hs].
    apply aggregate_tokens_state. intros r2 t H. exact H. }
  step_bind. unfold item at 1. rewrite Hb. unfold ret at 1.
  step_bind. destruct b; cbn [truthy]; [|apply Htokens; exact Hs1].
  unfold bind at 1.
  pose proof (harmful_event_of_fields planning_mode (seg_start seg) (seg_end seg)
                segment_text (fst evidence) (snd evidence) (length (frame :: frames))
                d suspicion_result planned_timestamps q (eq s1) Hq Hrange s1 eq_refl)
    as Hevent.
  destruct (harmful_event_of _ _ _ _ _ _ _ _ _ _ _ s1) as [[harmful_event|e] s2];
    [|subst s2; exact Hs1].
  destruct Hevent as [(Haudio & Hconf & Hcat) <-].
  apply Htokens. unfold modify. cbn [snd].
  destruct Hr1 as (Hfirst & calls & Hev & Hsorted & Hin).
  set (n := length (provider_log (run_world r1))) in *.
  split; [cbn; rewrite Hlog, length_app; lia|].
  exists (calls ++ [n]). cbn [append_event harmful_events run_world s1 set_run_world].
  rewrite Hlog. split; [|split].
  - apply Forall2_app.
    + eapply Forall2_impl; [exact Hev|]. intros ev m. apply event_of_call_grows.
    + constructor; [|constructor].
      exists segment_text, (snd evidence), (fst evidence), d, (VBool true), q.
      split; [apply list_lookup_middle; reflexivity|].
      split.
      { intros w Hw.
        rewrite (llm_decide_same_call rt segment_text (snd evidence) (fst evidence) llm
                   w (run_world r1) Hw).
        now rewrite Hrun. }
      destruct (float_mul_percent q Hrange) as [Hpercent _].
      repeat split; try assumption; try reflexivity; try tauto;
        apply Qtrunc_percent; exact Hpercent.
  - apply StronglySorted_snoc; [exact Hsorted|].
    eapply List.Forall_impl; [|exact Hin]. intros m Hm. simpl in Hm. lia.
  - apply Forall_app. split.
    + eapply List.Forall_impl; [|exact Hin]. intros m Hm. simpl in Hm.
      rewrite length_app. lia.
    + constructor; [|constructor]. rewrite length_app. simpl. lia.
Qed.

Lemma analyze_loop_calls planner_cfg video_id video_path full_text
    word_timestamps planning_mode segments i :
  preserves J
    (analyze_loop rt planner_cfg video_id video_path llm full_text
       word_timestamps planning_mode i segments).
Proof.
  revert i. induction segments as [|seg segments IH]; intros i; simpl.
  - apply preserves_ret.
  - apply preserves_bind; [|intros _; apply IH].
    apply preserves_try_except; [apply analyze_segment_calls|].
    intros e. apply preserves_ret.
Qed.
End Events.

(** ** Claims on the normalised segment list *)


(** C4.  Every segment in the output of [normalize_non_overlap] has
    [end > start] strictly, for every input list, boundary list and
    configuration. *)
Theorem normalize_non_overlap_positive
    (segments : list segment) (transcript_bounds : list Q) (cfg : SegmentationConfig) :
  Forall (fun seg => seg_start seg < seg_end seg)
         (normalize_non_overlap segments transcript_bounds cfg).
Proof.
  unfold normalize_non_overlap. destruct segments as [|seg0 segments]; [constructor|].
  apply (sweep_fold_positive (non_overlap_tolerance_sec cfg)). constructor.
Qed.

(** ** Claims on keyword scoring *)


(** ** Claims on the harm decision *)


(** C7.  For every run of [analyze_segments], the emitted events come, one
    each and in order, from provider calls that the run itself has made:
    call number [n] of the process was the decision call of [llm_decide]
    for the event's audio text, the decision that [llm_decide] returns for
    the provider's reply to that call has a true [is_harmful], its
    confidence [q] lies in [[0,1]], and the event's confidence is the
    integer [int(q * 100)] of the float product, which lies in
    [[0,100]]. *)
Theorem harmful_events_confidence (rt : runtime) (video_id video_path : string)
    (segments : list segment) (cfg : SegmentationConfig) (llm : provider)
    (full_text : option string) (word_timestamps : option (list (string * Q)))
    (planning_mode : string) (w : world) :
  let r := snd (analyze_segments rt video_id video_path segments cfg llm
                  full_text word_timestamps planning_mode w) in
  exists calls : list nat,
    Forall2 (event_of_call rt llm (provider_log (run_world r))) (harmful_events r) calls /\
    StronglySorted lt calls /\
    Forall (fun n => (length (provider_log w) <= n
                      < length (provider_log (run_world r)))%nat) calls.
Proof.
  intros r.
  assert (H : events_from_calls rt llm (length (provider_log w)) r);
    [|destruct H as [_ H]; exact H].
  assert (H0 : events_from_calls rt llm (length (provider_log w)) (start_of_run cfg w)).
  { split; [reflexivity|]. exists []. repeat constructor. }
  subst r. unfold analyze_segments.
  destruct (planner_config_from_env rt) as [planner_cfg|e]; [|exact H0].
  destruct (LLMPlannerConfig_validate planner_cfg); [|exact H0].
  pose proof (preserves_final _ _ (start_of_run cfg w)
                (analyze_loop_calls rt llm (length (provider_log w)) planner_cfg video_id
                   video_path full_text word_timestamps planning_mode segments 0%Z) H0)
    as H.
  destruct (analyze_loop _ _ _ _ _ _ _ _ _ _ _) as [[u|e] r]; exact H.
Qed.

(** ** Claims on the cache *)

(** C9.  Let a call of [suspicion_score] return a freshly computed result
    (the one it has just stored: [_cache_hit] is [False]).  A second call
    with the same video id, segment index, text and configuration, made at
    any time [t] that is not more than the TTL after the store, returns the
    same dictionary with [_cache_hit] set to [True] and every other field as
    it was, and leaves the process state as it is: no provider call is
    logged.  Step 2 of the loop of [analyze_segments], run on that state,
    does not increment [suspicion_llm_calls] and logs no provider call
    either. *)
Theorem suspicion_cache_round_trip (rt : runtime) (text : string)
    (cfg : LLMPlannerConfig) (video_id : string) (seg_index : Z)
    (llm llm' : option provider) (w w1 : world) (result : pydict) (t : Q) :
  suspicion_score rt text cfg video_id seg_index llm w = (Returned result, w1) ->
  dict_get "_cache_hit" result = Some (VBool false) ->
  t - clock w1 <= inject_Z (suspicion_llm_cache_ttl_sec cfg) ->
  let w2 := set_clock t w1 in
  let again := dict_set "_cache_hit" (VBool true) result in
  suspicion_score rt text cfg video_id seg_index llm' w2 = (Returned again, w2) /\
  dict_get "_cache_hit" again = Some (VBool true) /\
  (forall k, k <> "_cache_hit" -> dict_get k again = dict_get k result) /\
  (forall (r : run) (llm2 : provider),
     let r' := snd (suspicion_step rt cfg video_id seg_index llm2 text
                      (set_run_world w2 r)) in
     suspicion_llm_calls r' = suspicion_llm_calls r /\
     provider_log (run_world r') = provider_log w1).
Proof.
  intros Hrun Hflag Httl w2 again.
  destruct (suspicion_score_fresh rt text cfg video_id seg_index llm w result w1 Hrun Hflag)
    as (Hshort & Hc & Ht & Hsame).
  set (key := cache_key video_id seg_index (text_hash rt text) "suspicion") in *.
  assert (Hc2 : _cache w2 !! key = Some (dict_pop "_cache_hit" result)) by exact Hc.
  assert (Ht2 : _cache_timestamps w2 !! key = Some (clock w1)) by exact Ht.
  assert (Hle2 : clock w2 - clock w1 <= inject_Z (suspicion_llm_cache_ttl_sec cfg))
    by exact Httl.
  split; [|split; [|split]].
  - unfold again. rewrite <- Hsame.
    exact (suspicion_score_hit rt text cfg video_id seg_index llm' w2 _ _ Hshort Hc2 Ht2 Hle2).
  - apply dict_get_set_eq.
  - intros k Hk. apply dict_get_set_ne. congruence.
  - intros r llm2. simpl.
    set (r2 := set_run_world w2 r).
    destruct (String.eqb (current_suspicion_mode cfg r2) "llm") eqn:Emode.
    + apply String.eqb_eq in Emode.
      destruct (score_suspicion_hit rt text cfg video_id seg_index (Some llm2) w2 _ _
                  Hshort Hc2 Ht2 Hle2) as (d & Hd & Hno).
      rewrite (suspicion_step_run rt cfg video_id seg_index llm2 text r2 d w2)
        by (rewrite Emode; exact Hd).
      assert (Hcount : String.eqb (suspicion_mode (run_cfg r2)) "llm"
                       && py_eq_str (dict_get_default "method" VNone d) "llm"
                       && negb (truthy (dict_get_default "_cache_hit" (VBool false) d))
                       = false).
      { destruct Hno as [-> | ->]; [rewrite andb_false_r | rewrite andb_false_r];
          reflexivity. }
      cbv zeta. rewrite Hcount. clear Hcount. simpl.
      match goal with |- context [if ?b then _ else _] => destruct b end;
        split; reflexivity.
    + destruct (score_suspicion_not_llm rt text (current_suspicion_mode cfg r2)
                  (Some cfg) video_id seg_index (Some llm2) w2 Emode) as (d & Hd & Hno).
      rewrite (suspicion_step_run rt cfg video_id seg_index llm2 text r2 d w2 Hd).
      cbv zeta. rewrite Hno, andb_false_r. simpl.
      match goal with |- context [if ?b then _ else _] => destruct b end;
        split; reflexivity.
Qed.

(** C10.  Take a call of [suspicion_score] or of [propose_points] that gets
    past its input checks and whose cache look-up misses.
    - The call stores an entry under its key exactly in the case described
      by [suspicion_call_stores] and [points_call_stores]: the provider
      returned a dictionary without "error" and its values were converted
      without an exception.  When the provider raises, returns an error
      object or a non-dictionary, when the conversion raises, and when no
      provider can be built, the call writes nothing and no entry exists
      under the key afterwards.
    - Whenever no entry exists under the key, a call with that key asks the
      provider (again): the prompt is appended to the provider log. *)
Theorem failed_calls_store_nothing (rt : runtime) (cfg : LLMPlannerConfig)
    (video_id : string) (seg_index : Z) (llm : option provider)
    (text : string) (seg_start seg_end : Q) (w : world) :
  let suspicion_key := cache_key video_id seg_index (text_hash rt text) "suspicion" in
  let points_key := cache_key video_id seg_index (text_hash rt text) "points" in
  let ttl := suspicion_llm_cache_ttl_sec cfg in
  let segment_duration := seg_end - seg_start in
  let min_gap := planner_min_gap_sec cfg in
  text_too_short text cfg = false ->
  (fst (_get_cached_result suspicion_key ttl w) = Returned None ->
   suspicion_call_stores rt cfg video_id seg_index llm text w) /\
  (Qlt_bool segment_duration min_gap = false -> Qeq_bool min_gap 0 = false ->
   fst (_get_cached_result points_key ttl w) = Returned None ->
   points_call_stores rt cfg video_id seg_index llm text seg_start seg_end w) /\
  (forall l, _cache w !! suspicion_key = None ->
     provider_log (snd (suspicion_score rt text cfg video_id seg_index (Some l) w))
       = provider_log w ++ [SuspicionPrompt (strip text)]) /\
  (forall l, Qlt_bool segment_duration min_gap = false -> Qeq_bool min_gap 0 = false ->
     _cache w !! points_key = None ->
     provider_log
       (snd (propose_points rt text seg_start seg_end cfg video_id seg_index (Some l) w))
       = provider_log w ++
         [PlanningPrompt seg_start seg_end segment_duration (strip text)
            (Z.min 3 (Z.max 1 (Qtrunc (segment_duration / min_gap)))) min_gap]).
Proof.
  intros suspicion_key points_key ttl segment_duration min_gap Hshort.
  split; [|split; [|split]].
  - intros Hmiss. now apply suspicion_score_stores.
  - intros Hdur Hgap Hmiss. now apply propose_points_stores.
  - intros l Hnone. now apply suspicion_score_asks.
  - intros l Hdur Hgap Hnone. now apply propose_points_asks.
Qed.

(** ** Claims on the budgets *)

Lemma LLMPlannerConfig_validate_nonneg (planner_cfg : LLMPlannerConfig) :
  LLMPlannerConfig_validate planner_cfg = true ->
  (0 <= suspicion_llm_max_segments planner_cfg)%Z /\
  (0 <= planner_llm_max_points planner_cfg)%Z.
Proof.
  unfold LLMPlannerConfig_validate. intros H.
  repeat (apply andb_true_iff in H; destruct H as [H ?]).
  repeat match goal with
         | H : negb _ = true |- _ => apply negb_true_iff in H
         end.
  split; lia.
Qed.

(** C2.  In a run of [analyze_segments] whose planner configuration is read
    and validated, the two counters start at zero, are only ever incremented,
    and satisfy [suspicion_llm_calls <= suspicion_llm_max_segments] and
    [planned_points_total <= planner_llm_max_points] after every assignment
    to them ([budget_respected], for the whole run and for the run up to any
    segment).  If a ceiling is found reached after the segments [pre], then
    on all the segments [post] that follow the run takes the cheaper path:
    the counter stays as it is, no further suspicion (planning) prompt is
    sent to the provider, and every event emitted for those segments reports
    keyword or disabled scoring (no planned point). *)
Theorem budget_counters_capped (rt : runtime) (video_id video_path : string)
    (segments : list segment) (cfg : SegmentationConfig) (llm : provider)
    (full_text : option string) (word_timestamps : option (list (string * Q)))
    (planning_mode : string) (w : world) (planner_cfg : LLMPlannerConfig) :
  planner_config_from_env rt = Returned planner_cfg ->
  LLMPlannerConfig_validate planner_cfg = true ->
  let run_on segs :=
    snd (analyze_loop rt planner_cfg video_id video_path llm full_text
           word_timestamps planning_mode 0%Z segs (start_of_run cfg w)) in
  let r := snd (analyze_segments rt video_id video_path segments cfg llm
                  full_text word_timestamps planning_mode w) in
  budget_respected planner_cfg r /\
  forall pre post, segments = pre ++ post ->
    budget_respected planner_cfg (run_on pre) /\
    ((suspicion_llm_max_segments planner_cfg <= suspicion_llm_calls (run_on pre))%Z ->
     suspicion_budget_spent planner_cfg (run_on pre) r) /\
    ((planner_llm_max_points planner_cfg <= planned_points_total (run_on pre))%Z ->
     points_budget_spent planner_cfg (run_on pre) r).
Proof.
  intros Henv Hvalid run_on r.
  destruct (LLMPlannerConfig_validate_nonneg planner_cfg Hvalid) as [Hs Hp].
  assert (Hstart : budget_respected planner_cfg (start_of_run cfg w)).
  { unfold budget_respected. simpl. split; [reflexivity|]. split; [exact I|].
    split; [|reflexivity]. constructor; [|constructor]. split; simpl; lia. }
  assert (Hprefix : forall segs, budget_respected planner_cfg (run_on segs)).
  { intros segs. apply preserves_final; [apply analyze_loop_budget | exact Hstart]. }
  assert (Hr : r = run_on segments).
  { subst r run_on. unfold analyze_segments. rewrite Henv, Hvalid.
    destruct (analyze_loop _ _ _ _ _ _ _ _ _ _ _) as [[u|e] r']; reflexivity. }
  split; [rewrite Hr; apply Hprefix|].
  intros pre post ->. split; [apply Hprefix|].
  assert (Hsplit : r = snd (analyze_loop rt planner_cfg video_id video_path llm full_text
                              word_timestamps planning_mode
                              (0 + Z.of_nat (length pre))%Z post (run_on pre))).
  { rewrite Hr. apply analyze_loop_app. }
  split.
  - intros Hmax. rewrite Hsplit.
    apply (preserves_final _ _ (run_on pre)
             (analyze_loop_after_suspicion_ceiling rt planner_cfg video_id video_path llm
                full_text word_timestamps planning_mode (run_on pre) post _)).
    split; [exact Hmax|]. split; [reflexivity|]. split; [reflexivity|].
    exists []. rewrite app_nil_r. split; [reflexivity | constructor].
  - intros Hmax. rewrite Hsplit.
    apply (preserves_final _ _ (run_on pre)
             (analyze_loop_after_points_ceiling rt planner_cfg video_id video_path llm
                full_text word_timestamps planning_mode (run_on pre) post _)).
    split; [exact Hmax|]. split; [reflexivity|]. split; [reflexivity|].
    exists []. rewrite app_nil_r. split; [reflexivity | constructor].
Qed.

(** ** Claims on the planner *)

(** C1.  [merge_timestamps_with_planning] does not retain every periodic
    timestamp.  The minimum-gap filter runs over the sorted union of the two
    lists before the loop that tells periodic from planned timestamps, so a
    periodic timestamp closer than [planner_min_gap_sec] to the last kept
    one never reaches the branch that always includes periodic timestamps.
    With the default gap of 8 seconds, the periodic timestamps 0, 5, 10, 15
    of a suspicious segment and the planned point 8 are merged into 0 and 8:
    the periodic timestamps 5, 10 and 15 are lost, with or without the
    planned point. *)
Theorem merge_drops_periodic_timestamps :
  let periodic := [0; 5; 10; 15] in
  let merged :=
    merge_timestamps_with_planning periodic [8] DEFAULT_PLANNER_CONFIG
      (Some 10%Z) (Some 4%Z) in
  merged = [0; 8] /\
  ~ In 5 merged /\ ~ In 10 merged /\ ~ In 15 merged /\
  merge_timestamps_with_planning periodic [] DEFAULT_PLANNER_CONFIG
    (Some 10%Z) (Some 4%Z) = [0; 10].
Proof.
  cbv zeta.
  assert (H : merge_timestamps_with_planning [0; 5; 10; 15] [8] DEFAULT_PLANNER_CONFIG
                (Some 10%Z) (Some 4%Z) = [0; 8]) by (vm_compute; reflexivity).
  rewrite H. split; [reflexivity|].
  repeat split; try (vm_compute; reflexivity);
    intros [E|[E|[]]]; discriminate E.
Qed.

(** C6.  A result of [propose_points] that comes from the cache is returned
    as it was stored, for the bounds and the gap of the call that stored it.
    The key holds the video, the index of the segment and the hash of its
    text, not the bounds.  After a call for the segment from 0 to 30 seconds
    has stored the points 2, 12 and 22.5, a call for the segment from 0 to 10
    seconds of the same video, with the same index and text, returns the
    same three points without asking the provider: 12 and 22.5 lie beyond
    the end of the segment, and three points are returned where
    [min(3, max(1, int(10 / 8)))] is 1.  On an empty cache the same call
    returns the point 2 alone. *)
Theorem propose_points_stale_cache_hit :
  let text := "they sold heroin there" in
  let cfg := llm_planner_config in
  let first :=
    propose_points example_runtime text 0 30 cfg "video" 0%Z
      (Some helpful_provider) empty_world in
  let second :=
    propose_points example_runtime text 0 10 cfg "video" 0%Z
      (Some helpful_provider) (snd first) in
  let fresh :=
    propose_points example_runtime text 0 10 cfg "video" 0%Z
      (Some helpful_provider) empty_world in
  text_too_short text cfg = false /\
  Qlt_bool (10 - 0) (planner_min_gap_sec cfg) = false /\
  fst first = Returned (float_list [2; 12; 22.5]) /\
  fst second = Returned (float_list [2; 12; 22.5]) /\
  provider_log (snd second) = provider_log (snd first) /\
  max_points_for_segment (10 - 0) (planner_min_gap_sec cfg) = Returned 1%Z /\
  fst fresh = Returned (float_list [2]).
Proof. vm_compute. repeat split. Qed.

(** * Closed instances *)



(** Each of the three conditions on the tolerance is needed, with a
    configuration that passes [validate] in every case.  With the tolerance
    -1 the segments [0,10] and [10.5,20] are normalised to
    [0,10], [10,20], whose gap test fails.  With the tolerance 0.2 above
    [min_len_sec * drop_tiny_after_trim_factor = 0.15] the segments
    [0,18.3], [10,18.48] and [18.29,25] are normalised to
    [0,18.3], [18.3,18.48], [18.29,25].  With the
    tolerance 20 above [max_len_sec * max_len_soft_factor = 18.4] the
    segments [0,30], [5,100] and [29,60] are normalised to
    [0,30], [30,48.4], [29,47.4]. *)
Lemma normalize_non_overlap_conditions :
  (let cfg := negative_tolerance_config in
   let tol := non_overlap_tolerance_sec cfg in
   SegmentationConfig_validate cfg = true /\
   tol < 0 /\
   tol < min_len_sec cfg * drop_tiny_after_trim_factor cfg /\
   tol < max_len_sec cfg * max_len_soft_factor cfg /\
   normalize_non_overlap [mk_segment 0 10; mk_segment 10.5 20] [] cfg
     = [mk_segment 0 10; mk_segment 10 20] /\
   ~ 10 - tol <= 10) /\
  (let cfg := short_min_config in
   let tol := non_overlap_tolerance_sec cfg in
   SegmentationConfig_validate cfg = true /\
   0 <= tol /\
   min_len_sec cfg * drop_tiny_after_trim_factor cfg < tol /\
   tol < max_len_sec cfg * max_len_soft_factor cfg /\
   normalize_non_overlap
     [mk_segment 0 18.3; mk_segment 10 18.48; mk_segment 18.29 25] [] cfg
     = [mk_segment 0 18.3; mk_segment 18.3 18.48; mk_segment 18.29 25] /\
   18.29 < 18.3) /\
  (let cfg := wide_tolerance_config in
   let tol := non_overlap_tolerance_sec cfg in
   SegmentationConfig_validate cfg = true /\
   0 <= tol /\
   tol < min_len_sec cfg * drop_tiny_after_trim_factor cfg /\
   max_len_sec cfg * max_len_soft_factor cfg < tol /\
   normalize_non_overlap [mk_segment 0 30; mk_segment 5 100; mk_segment 29 60] [] cfg
     = [mk_segment 0 30; mk_segment 30 ((30 + 16 * 1.15)%Q); mk_segment 29 ((29 + 16 * 1.15)%Q)] /\
   29 < 30).
Proof.
  repeat split; try reflexivity; try (apply Qle_bool_iff; reflexivity).
  intros H. apply Qle_bool_iff in H. discriminate.
Qed.

(** Two segments that overlap by the tolerance exactly are both kept: the
    second start 0.69 is not below [0.89 - 0.2]. *)
Example normalize_non_overlap_touching :
  normalize_non_overlap [mk_segment 0.2 0.89; mk_segment 0.69 5.56] [] DEFAULT_CONFIG
    = [mk_segment 0.2 0.89; mk_segment 0.69 5.56] /\
  0.89 - non_overlap_tolerance_sec DEFAULT_CONFIG <= 0.69.
Proof. split; [reflexivity | apply Qle_bool_iff; reflexivity]. Qed.



(** A run that emits an event: one 20 s segment, keyword suspicion, and a
    provider that reports harm with confidence 0.87.  The event carries the
    integer 87. *)
Example harmful_event_emitted :
  let r := snd (analyze_segments example_runtime "video" "video.mp4"
                  [mk_segment 0 20] DEFAULT_CONFIG harmful_provider
                  (Some "nothing notable happens") (Some [("nothing", 1); ("notable", 2)])
                  "segmentation" empty_world) in
  exists harmful_event,
    harmful_events r = [harmful_event] /\
    analysis_data_get "confidence" harmful_event = Some (VInt 87) /\
    analysis_data_get "categories" harmful_event = Some (VList []) /\
    dict_get "num_frames" harmful_event = Some (VInt 7).
Proof. vm_compute. eexists. repeat split. Qed.

(** With a provider that only returns error objects no event is emitted. *)
Example no_event_on_provider_error :
  harmful_events
    (snd (analyze_segments example_runtime "video" "video.mp4"
            [mk_segment 0 20; mk_segment 20 31] DEFAULT_CONFIG failing_provider
            (Some "nothing notable happens") (Some [("nothing", 1); ("notable", 2)])
            "segmentation" empty_world)) = [].
Proof. vm_compute. reflexivity. Qed.

(** The scaling follows the float product: the float 0.29 times 100 is
    the float just below 29, so the integer is 28, and likewise 56 for
    0.57, as [int(0.29 * 100)] and [int(0.57 * 100)] in Python; 0.87 gives
    87.  The float 0.29 itself is 5224175567749775 / 2^54. *)
Example int_times_100_rounds :
  int_times_100 (VFloat (PFin 0.29)) = Returned 28%Z /\
  int_times_100 (VFloat (PFin 0.57)) = Returned 56%Z /\
  int_times_100 (VFloat (PFin 0.87)) = Returned 87%Z /\
  int_times_100 (VFloat (PFin 1)) = Returned 100%Z /\
  int_times_100 (VFloat (PFin (10 ^ 308)))
    = Raised (Exn OverflowError "cannot convert float infinity to integer") /\
  float_round 0.29 == 5224175567749775 # 18014398509481984.
Proof. vm_compute. repeat split. Qed.

(** A run whose provider reports harm with confidence [0.29]: the one event
    carries the integer 28 and the categories of the decision, and it comes
    from the first provider call of the process. *)
Example harmful_event_rounded :
  let r := snd (analyze_segments example_runtime "video" "video.mp4"
                  [mk_segment 0 20] DEFAULT_CONFIG doubtful_provider
                  (Some "nothing notable happens") (Some [("nothing", 1); ("notable", 2)])
                  "segmentation" empty_world) in
  exists harmful_event,
    harmful_events r = [harmful_event] /\
    analysis_data_get "confidence" harmful_event = Some (VInt 28) /\
    analysis_data_get "categories" harmful_event = Some (VList [VStr "drugs"]) /\
    length (provider_log (run_world r)) = 1%nat.
Proof. vm_compute. eexists. repeat split. Qed.

(** A round trip through the cache: the provider scores the excerpt once,
    and the look-up an hour later is a hit. *)
Lemma suspicion_cache_round_trip_witness :
  let text := "they were selling heroin behind the school" in
  let first := suspicion_score example_runtime text llm_planner_config "video" 3
                 (Some scoring_provider) empty_world in
  let result := [("suspicious", VBool true); ("confidence", VFloat (PFin 0.9));
                 ("category", VStr "drugs"); ("reason", VStr "mentions a sale");
                 ("_latency_ms", VInt 250); ("_cache_hit", VBool false)] in
  let w2 := set_clock 3600 (snd first) in
  fst first = Returned result /\
  dict_get "_cache_hit" result = Some (VBool false) /\
  3600 - clock (snd first) <= inject_Z (suspicion_llm_cache_ttl_sec llm_planner_config) /\
  suspicion_score example_runtime text llm_planner_config "video" 3 None w2
    = (Returned (dict_set "_cache_hit" (VBool true) result), w2) /\
  provider_log w2 = [SuspicionPrompt text].
Proof.
  intros text first result w2.
  assert (H1 : fst first = Returned result) by (vm_compute; reflexivity).
  assert (H2 : dict_get "_cache_hit" result = Some (VBool false)) by reflexivity.
  assert (H3 : 3600 - clock (snd first)
               <= inject_Z (suspicion_llm_cache_ttl_sec llm_planner_config))
    by (apply Qle_bool_iff; vm_compute; reflexivity).
  assert (Hfirst : first = (Returned result, snd first))
    by (rewrite <- H1; apply surjective_pairing).
  split; [exact H1|]. split; [exact H2|]. split; [exact H3|].
  split; [|vm_compute; reflexivity].
  exact (proj1 (suspicion_cache_round_trip example_runtime text llm_planner_config
                  "video" 3 (Some scoring_provider) None empty_world (snd first)
                  result 3600 Hfirst H2 H3)).
Defined.

(** A provider that only returns error objects: both calls come back with
    their fallback, nothing is stored, and the next call asks again. *)
Lemma failed_calls_store_nothing_witness :
  let text := "they were selling heroin behind the school" in
  let cfg := llm_planner_config in
  let llm := Some failing_provider in
  let score := suspicion_score example_runtime text cfg "video" 3 llm empty_world in
  let plan := propose_points example_runtime text 0 30 cfg "video" 3 llm empty_world in
  text_too_short text cfg = false /\
  (exists result,
     fst score = Returned result /\
     dict_get "_error" result = Some (VBool true) /\
     _cache (snd score) !! cache_key "video" 3 (text_hash example_runtime text) "suspicion"
       = None) /\
  (fst plan = Returned (VList []) /\
   _cache (snd plan) !! cache_key "video" 3 (text_hash example_runtime text) "points"
     = None) /\
  provider_log
    (snd (suspicion_score example_runtime text cfg "video" 3 (Some scoring_provider)
            (snd score)))
    = provider_log (snd score) ++ [SuspicionPrompt (strip text)].
Proof.
  intros text cfg llm score plan.
  assert (Hshort : text_too_short text cfg = false) by reflexivity.
  split; [exact Hshort|].
  destruct (failed_calls_store_nothing example_runtime cfg "video" 3 llm text 0 30
              empty_world Hshort) as (Hs & Hp & _).
  split; [exact (Hs eq_refl)|]. split; [exact (Hp eq_refl eq_refl eq_refl)|].
  destruct (failed_calls_store_nothing example_runtime cfg "video" 3 llm text 0 30
              (snd score) Hshort) as (_ & _ & Hr & _).
  apply Hr. vm_compute. reflexivity.
Defined.

(** A run with one LLM suspicion call and two planned points allowed, over
    three segments that are all suspicious: the provider is asked to score
    the first segment only and to plan for the first segment only, and of the
    three points it proposes two are taken. *)
Lemma budget_counters_capped_witness :
  let r := snd (analyze_segments tight_runtime "video" "video.mp4" three_segments
                  llm_config helpful_provider (Some "transcript") (Some drug_transcript)
                  "llm" empty_world) in
  planner_config_from_env tight_runtime = Returned tight_planner_config /\
  LLMPlannerConfig_validate tight_planner_config = true /\
  budget_respected tight_planner_config r /\
  budget_trace r = [(0, 0); (1, 0); (1, 2)]%Z /\
  length (calls_of is_suspicion_prompt (run_world r)) = 1%nat /\
  length (calls_of is_planning_prompt (run_world r)) = 1%nat /\
  length (calls_of is_decision_prompt (run_world r)) = 3%nat /\
  suspicion_mode (run_cfg r) = "keywords".
Proof.
  intros r.
  split; [reflexivity|]. split; [reflexivity|].
  split.
  - exact (proj1 (budget_counters_capped tight_runtime "video" "video.mp4" three_segments
                    llm_config helpful_provider (Some "transcript") (Some drug_transcript)
                    "llm" empty_world tight_planner_config eq_refl eq_refl)).
  - vm_compute. repeat split.
Defined.

(** * Further properties *)

(** ** The cache of llm_planner.py *)

(** X1.  A result stored under a key is returned by a lookup of that key, as it
    was stored, as long as no more than the TTL has passed since the store
    (a TTL of zero included, when no time has passed); the lookup leaves the
    process state as it is. *)
Theorem cache_store_then_lookup (key : string) (result : pydict) (ttl : Z) (elapsed : Q)
    (w : world) :
  elapsed <= inject_Z ttl ->
  let stored := snd (_set_cached_result key result w) in
  let later := set_clock (clock stored + elapsed) stored in
  _get_cached_result key ttl later = (Returned (Some result), later).
Proof.
  intros Hle stored later.
  apply (_get_cached_result_hit key ttl later result (clock w)).
  - subst later stored. simpl. apply lookup_insert_eq.
  - subst later stored. simpl. apply lookup_insert_eq.
  - subst later stored. simpl. lra.
Qed.

Lemma cache_store_then_lookup_witness :
  3600 <= inject_Z 86400 /\
  let stored :=
    snd (_set_cached_result "video:0:da39a3ee5e:points" [("points", VList [])]
           empty_world) in
  let later := set_clock (clock stored + 3600) stored in
  _get_cached_result "video:0:da39a3ee5e:points" 86400 later
    = (Returned (Some [("points", VList [])]), later).
Proof.
  assert (H : 3600 <= inject_Z 86400) by (apply Qle_bool_iff; reflexivity).
  split; [exact H|].
  exact (cache_store_then_lookup "video:0:da39a3ee5e:points" [("points", VList [])]
           86400 3600 empty_world H).
Defined.

(** X2.  Once more than the TTL has passed since the store, the lookup returns
    [None] and removes the key from both dictionaries; the entries under
    other keys are as they were before the store. *)
Theorem cache_entry_expires (key : string) (result : pydict) (ttl : Z) (elapsed : Q)
    (w : world) :
  inject_Z ttl < elapsed ->
  let stored := snd (_set_cached_result key result w) in
  let later := set_clock (clock stored + elapsed) stored in
  let looked := _get_cached_result key ttl later in
  fst looked = Returned None /\
  _cache (snd looked) !! key = None /\
  _cache_timestamps (snd looked) !! key = None /\
  forall k, k <> key ->
    _cache (snd looked) !! k = _cache w !! k /\
    _cache_timestamps (snd looked) !! k = _cache_timestamps w !! k.
Proof.
  intros Hlt stored later looked. subst looked. unfold _get_cached_result.
  assert (Hc : _cache later !! key = Some result) by apply lookup_insert_eq.
  assert (Ht : _cache_timestamps later !! key = Some (clock w)) by apply lookup_insert_eq.
  rewrite Hc, Ht.
  assert (Hgt : Qgt_bool (clock later - clock w) (inject_Z ttl) = true).
  { apply Qlt_bool_iff. subst later stored. simpl. lra. }
  rewrite Hgt. simpl.
  split; [reflexivity|]. split; [apply lookup_delete_eq|].
  split; [apply lookup_delete_eq|].
  intros k Hk. rewrite !lookup_delete_ne by congruence.
  rewrite !lookup_insert_ne by congruence. split; reflexivity.
Qed.

Lemma cache_entry_expires_witness :
  inject_Z 60 < 61 /\
  let stored :=
    snd (_set_cached_result "video:0:da39a3ee5e:points" [("points", VList [])]
           empty_world) in
  let later := set_clock (clock stored + 61) stored in
  let looked := _get_cached_result "video:0:da39a3ee5e:points" 60 later in
  fst looked = Returned None /\
  _cache (snd looked) !! "video:0:da39a3ee5e:points" = None.
Proof.
  assert (H : inject_Z 60 < 61) by (apply Qlt_bool_iff; reflexivity).
  split; [exact H|].
  destruct (cache_entry_expires "video:0:da39a3ee5e:points" [("points", VList [])]
              60 61 empty_world H) as (H1 & H2 & _).
  split; [exact H1 | exact H2].
Defined.

(** Strings: the last character, and cancellation of a common prefix or
    suffix. *)
Lemma last_char_append (a b : string) :
  b <> "" -> last_char (a +:+ b) = last_char b.
Proof.
  intros Hb. induction a as [|c a IH]; [reflexivity|].
  change (String c a +:+ b) with (String c (a +:+ b)).
  destruct (a +:+ b) as [|x r] eqn:E.
  - destruct a as [|y a]; [change (b = "") in E; congruence|].
    change (String y (a +:+ b) = "") in E. discriminate E.
  - change (last_char (String c (String x r))) with (last_char (String x r)).
    exact IH.
Qed.

Lemma length_append (a b : string) :
  String.length (a +:+ b) = (String.length a + String.length b)%nat.
Proof.
  induction a as [|c a IH]; [reflexivity|].
  change (String c a +:+ b) with (String c (a +:+ b)). simpl. now rewrite IH.
Qed.

Lemma append_inv_head (a b c : string) : a +:+ b = a +:+ c -> b = c.
Proof.
  induction a as [|x a IH]; [auto|].
  change (String x a +:+ b) with (String x (a +:+ b)).
  change (String x a +:+ c) with (String x (a +:+ c)).
  intros H; inversion H; auto.
Qed.

Lemma append_inv_tail (a b r : string) : a +:+ r = b +:+ r -> a = b.
Proof.
  revert b. induction a as [|x a IH]; intros [|y b] H.
  - reflexivity.
  - apply (f_equal String.length) in H. rewrite !length_append in H. simpl in H. lia.
  - apply (f_equal String.length) in H. rewrite !length_append in H. simpl in H. lia.
  - change (String x (a +:+ r) = String y (b +:+ r)) in H.
    inversion H. f_equal. auto.
Qed.

(** X3.  A suspicion key is never a points key, whatever the video, the segment
    and the text are: the two kinds of result cannot overwrite or be
    mistaken for one another.  For one video, text hash and kind, the keys
    of two segment indices differ; for one video, index and kind, the keys of
    two text hashes differ. *)
Theorem cache_key_separates :
  (forall video_id video_id' seg_index seg_index' text_hash text_hash',
     cache_key video_id seg_index text_hash "suspicion"
       <> cache_key video_id' seg_index' text_hash' "points") /\
  (forall video_id text_hash kind i j,
     cache_key video_id i text_hash kind = cache_key video_id j text_hash kind -> i = j) /\
  (forall video_id seg_index kind h h',
     cache_key video_id seg_index h kind = cache_key video_id seg_index h' kind -> h = h').
Proof.
  split; [|split].
  - intros v v' i i' h h' H. apply (f_equal last_char) in H. unfold cache_key in H.
    assert (Hs : forall a, last_char (a +:+ ":" +:+ "suspicion") = Some "n"%char).
    { intros a. now rewrite last_char_append. }
    assert (Hp : forall a, last_char (a +:+ ":" +:+ "points") = Some "s"%char).
    { intros a. now rewrite last_char_append. }
    rewrite !last_char_append in H; try (intros E; destruct v, v'; discriminate);
      try (let E := fresh in intros E; apply (f_equal String.length) in E;
           rewrite ?length_append in E; simpl in E; lia).
    discriminate.
  - intros v h kind i j H. unfold cache_key in H.
    apply append_inv_head in H. apply append_inv_head in H.
    apply append_inv_tail in H. now apply (inj pretty).
  - intros v i kind h h' H. unfold cache_key in H.
    do 4 apply append_inv_head in H. now apply append_inv_tail in H.
Qed.

(** ** [suspicion_score] and [score_suspicion] *)

Lemma sanitised_cache_hit (d : pydict) :
  sanitised d -> sanitised (dict_set "_cache_hit" (VBool true) d).
Proof.
  intros (b & c & Hb & Hc & Hr). exists b, c.
  rewrite !dict_get_set_ne by discriminate. auto.
Qed.

Lemma cache_sanitised_caches (w w' : world) :
  _cache w' = _cache w -> cache_sanitised w -> cache_sanitised w'.
Proof. intros E H v i h d. rewrite E. apply H. Qed.

(** X4.  Whatever the provider replies, [suspicion_score] returns (it never
    raises) a result whose "suspicious" is a boolean and whose "confidence"
    is a finite float of [[0,1]]: infinities, NaN and out-of-range values
    are clamped, a reply without the keys counts as not suspicious with
    confidence 0.  A cache all of whose suspicion entries are of this form
    is still so after the call, so a result served from the cache is of
    this form too. *)
Theorem suspicion_score_sanitised (rt : runtime) (text : string) (cfg : LLMPlannerConfig)
    (video_id : string) (seg_index : Z) (llm : option provider) (w : world) :
  cache_sanitised w ->
  let call := suspicion_score rt text cfg video_id seg_index llm w in
  (exists d, fst call = Returned d /\ sanitised d) /\ cache_sanitised (snd call).
Proof.
  intros Hw call. subst call.
  destruct (suspicion_score rt text cfg video_id seg_index llm w) as [o w'] eqn:Hcall.
  simpl fst. simpl snd. unfold suspicion_score in Hcall.
  assert (Hdefault : forall reason rest,
            sanitised (("suspicious", VBool false) :: ("confidence", VFloat (PFin 0))
                       :: ("category", VNone) :: ("reason", VStr reason) :: rest)).
  { intros reason rest. exists false, 0. repeat split; lra. }
  destruct (text_too_short text cfg).
  { inversion Hcall; subst. split; [eexists; split; [reflexivity | apply Hdefault] | exact Hw]. }
  set (key := cache_key video_id seg_index (text_hash rt text) "suspicion") in *.
  unfold bind at 1 in Hcall.
  destruct (_get_cached_result_cases key (suspicion_llm_cache_ttl_sec cfg) w)
    as [[w1 Hm]|[c [Hh Hc]]].
  2:{ rewrite Hh in Hcall. inversion Hcall; subst. split; [|exact Hw].
      eexists. split; [reflexivity|]. apply sanitised_cache_hit. exact (Hw _ _ _ _ Hc). }
  rewrite Hm in Hcall.
  destruct (_get_cached_result_miss key _ w w1 Hm) as (Hnone & Hother & _ & _).
  assert (Hw1 : cache_sanitised w1).
  { intros v i h d Hd.
    destruct (decide (cache_key v i h "suspicion" = key)) as [E|E].
    - rewrite E, Hnone in Hd. discriminate.
    - rewrite (Hother _ E) in Hd. exact (Hw _ _ _ _ Hd). }
  clear Hm Hnone Hother Hw.
  unfold try_except, bind in Hcall.
  pose proof (provided_llm_state rt cfg llm w1) as Hst.
  destruct (provided_llm rt cfg llm w1) as [[[l|]|e] w2]; simpl in Hst; subst w2.
  - unfold time_time, invoke in Hcall.
    destruct (l (length (provider_log w1)) (SuspicionPrompt (strip text)))
      as [reply elapsed].
    destruct reply as [reply|e].
    + destruct (is_success reply) as [d|].
      * unfold lift in Hcall. destruct (py_float rt _) as [x|e].
        -- destruct (clamp01_range x) as (q & Hq & Hr & _).
           rewrite Hq in Hcall.
           unfold _set_cached_result, ret in Hcall. inversion Hcall; subst. simpl. split.
           ++ eexists. split; [reflexivity|]. eexists _, q.
              split; [reflexivity|]. split; [reflexivity | exact Hr].
           ++ intros v i h d' Hd'. cbn [_cache set_caches] in Hd'.
              destruct (decide (cache_key v i h "suspicion" = key)) as [E|E].
              ** rewrite E in Hd'. rewrite lookup_insert_eq in Hd'.
                 inversion Hd'; subst d'. eexists _, q.
                 split; [reflexivity|]. split; [reflexivity | exact Hr].
              ** rewrite lookup_insert_ne in Hd' by congruence. exact (Hw1 _ _ _ _ Hd').
        -- inversion Hcall; subst.
           split; [eexists; split; [reflexivity | apply Hdefault]|].
           eapply cache_sanitised_caches; [|exact Hw1]. reflexivity.
      * inversion Hcall; subst.
        split; [eexists; split; [reflexivity | apply Hdefault]|].
        eapply cache_sanitised_caches; [|exact Hw1]. reflexivity.
    + inversion Hcall; subst.
      split; [eexists; split; [reflexivity | apply Hdefault]|].
      eapply cache_sanitised_caches; [|exact Hw1]. reflexivity.
  - inversion Hcall; subst.
    split; [eexists; split; [reflexivity | apply Hdefault] | exact Hw1].
  - inversion Hcall; subst.
    split; [eexists; split; [reflexivity | apply Hdefault] | exact Hw1].
Qed.

Lemma suspicion_score_sanitised_witness :
  cache_sanitised empty_world /\
  let call :=
    suspicion_score example_runtime "they sold heroin there" llm_planner_config
      "video" 0 (Some overconfident_provider) empty_world in
  (exists d, fst call = Returned d /\ sanitised d) /\ cache_sanitised (snd call).
Proof.
  assert (H : cache_sanitised empty_world).
  { intros v i h d Hd. simpl in Hd. rewrite lookup_empty in Hd. discriminate Hd. }
  split; [exact H|].
  exact (suspicion_score_sanitised example_runtime "they sold heroin there"
           llm_planner_config "video" 0 (Some overconfident_provider) empty_world H).
Defined.

(** X5.  In mode "llm", [score_suspicion] passes on a result of [suspicion_score]
    that is not marked as an error with the method "llm" and the same
    confidence, and reports the segment as suspicious when the provider
    flagged it or when the confidence reaches
    [suspicion_llm_conf_threshold]: the threshold can raise the flag, it
    never lowers it. *)
Theorem score_suspicion_threshold (rt : runtime) (text : string) (cfg : LLMPlannerConfig)
    (video_id : string) (seg_index : Z) (llm : option provider) (w w' : world)
    (d : pydict) (b : bool) (c : Q) :
  suspicion_score rt text cfg video_id seg_index llm w = (Returned d, w') ->
  truthy (dict_get_default "_error" VNone d) = false ->
  dict_get "suspicious" d = Some (VBool b) ->
  dict_get "confidence" d = Some (VFloat (PFin c)) ->
  exists d',
    score_suspicion rt text "llm" (Some cfg) video_id seg_index llm w = (Returned d', w') /\
    dict_get "suspicious" d' =
      Some (VBool (b || Qle_bool (suspicion_llm_conf_threshold cfg) c)) /\
    dict_get "confidence" d' = Some (VFloat (PFin c)) /\
    dict_get "method" d' = Some (VStr "llm").
Proof.
  intros Hcall Herr Hb Hc. unfold score_suspicion.
  change (String.eqb "llm" "off") with false.
  change (String.eqb "llm" "keywords") with false.
  change (String.eqb "llm" "llm") with true. cbv iota.
  unfold try_except, bind at 1. rewrite Hcall.
  set (d1 := dict_set "method" (VStr "llm") d).
  assert (Herr1 : truthy (dict_get_default "_error" VNone d1) = false).
  { unfold dict_get_default, d1. rewrite dict_get_set_ne by discriminate. exact Herr. }
  assert (Hb1 : dict_get "suspicious" d1 = Some (VBool b)).
  { unfold d1. now rewrite dict_get_set_ne by discriminate. }
  assert (Hc1 : dict_get "confidence" d1 = Some (VFloat (PFin c))).
  { unfold d1. now rewrite dict_get_set_ne by discriminate. }
  assert (Hm1 : dict_get "method" d1 = Some (VStr "llm")) by apply dict_get_set_eq.
  rewrite Herr1. unfold bind, item, lift, ret. rewrite Hc1. simpl py_ge. cbv iota beta.
  destruct (Qle_bool (suspicion_llm_conf_threshold cfg) c) eqn:Habove.
  - rewrite dict_get_set_eq. eexists. split; [reflexivity|].
    rewrite dict_get_set_eq, !dict_get_set_ne by discriminate.
    rewrite orb_true_r. auto.
  - rewrite Hb1. eexists. split; [reflexivity|]. rewrite orb_false_r. auto.
Qed.

Lemma score_suspicion_threshold_witness :
  exists d w' d',
    suspicion_score example_runtime "they sold heroin there" llm_planner_config
      "video" 0 (Some hesitant_provider) empty_world = (Returned d, w') /\
    truthy (dict_get_default "_error" VNone d) = false /\
    dict_get "suspicious" d = Some (VBool true) /\
    dict_get "confidence" d = Some (VFloat (PFin 0.3)) /\
    score_suspicion example_runtime "they sold heroin there" "llm"
      (Some llm_planner_config) "video" 0 (Some hesitant_provider) empty_world
      = (Returned d', w') /\
    dict_get "suspicious" d' = Some (VBool true).
Proof.
  eexists _, _.
  assert (Hcall : suspicion_score example_runtime "they sold heroin there"
                    llm_planner_config "video" 0 (Some hesitant_provider) empty_world
                  = (_, _)) by (vm_compute; reflexivity).
  destruct (score_suspicion_threshold example_runtime "they sold heroin there"
              llm_planner_config "video" 0 (Some hesitant_provider) empty_world _ _
              true 0.3 Hcall eq_refl eq_refl eq_refl) as (d' & Hd' & Hs & _).
  exists d'. split; [exact Hcall|]. repeat split; assumption.
Defined.

(** X6.  When the provider's reply to a fresh suspicion call is a failure (an
    exception, a value that is not a dictionary, a dictionary with an
    "error" key), [score_suspicion] in mode "llm" returns what the keyword
    scorer returns for the text; the provider has been asked once and the
    cache is as it was. *)
Theorem score_suspicion_falls_back (rt : runtime) (text : string) (cfg : LLMPlannerConfig)
    (video_id : string) (seg_index : Z) (l : provider) (w : world) :
  text_too_short text cfg = false ->
  _cache w !! cache_key video_id seg_index (text_hash rt text) "suspicion" = None ->
  failed_reply (reply_of l w (SuspicionPrompt (strip text))) = true ->
  let call := score_suspicion rt text "llm" (Some cfg) video_id seg_index (Some l) w in
  fst call = Returned (score_keywords text) /\
  _cache (snd call) = _cache w /\
  provider_log (snd call) = provider_log w ++ [SuspicionPrompt (strip text)].
Proof.
  intros Hshort Hnone Hfail call. subst call. unfold score_suspicion.
  change (String.eqb "llm" "off") with false.
  change (String.eqb "llm" "keywords") with false.
  change (String.eqb "llm" "llm") with true. cbv iota.
  unfold suspicion_score. rewrite Hshort.
  unfold try_except, bind, _get_cached_result. rewrite Hnone.
  rewrite provided_llm_given. unfold time_time, invoke.
  unfold failed_reply, reply_of in Hfail.
  destruct (l (length (provider_log w)) (SuspicionPrompt (strip text)))
    as [reply elapsed].
  simpl in Hfail.
  destruct reply as [[|b|n|x|s|lst|d]|e]; try (simpl; auto; fail).
  unfold is_success. rewrite Hfail. simpl. auto.
Qed.

Lemma score_suspicion_falls_back_witness :
  let call :=
    score_suspicion example_runtime "they sold heroin there" "llm"
      (Some llm_planner_config) "video" 0 (Some failing_provider) empty_world in
  fst call = Returned (score_keywords "they sold heroin there") /\
  _cache (snd call) = _cache empty_world /\
  provider_log (snd call)
    = provider_log empty_world ++ [SuspicionPrompt (strip "they sold heroin there")].
Proof.
  exact (score_suspicion_falls_back example_runtime "they sold heroin there"
           llm_planner_config "video" 0 failing_provider empty_world
           eq_refl eq_refl eq_refl).
Defined.

(** ** [propose_points] and [merge_timestamps_with_planning] *)


Lemma adjacent_StronglySorted {A} (R : A -> A -> Prop) (l : list A) :
  (forall x y z, R x y -> R y z -> R x z) ->
  adjacent R l -> StronglySorted R l.
Proof.
  intros Htrans. induction l as [|a l IH]; intros H; [constructor|].
  destruct l as [|b l]; [constructor; constructor|].
  apply adjacent_cons in H. destruct H as [Hab Hl].
  specialize (IH Hl). constructor; [exact IH|].
  apply StronglySorted_inv in IH. destruct IH as [_ Hb].
  constructor; [exact Hab|].
  eapply List.Forall_impl; [|exact Hb]. intros c Hc. now apply (Htrans a b c).
Qed.

Lemma py_sorted_id {A} (leb : A -> A -> bool) (l : list A) :
  StronglySorted (fun a b => leb a b = true) l -> py_sorted leb l = l.
Proof.
  induction 1 as [|x l Hl IH Hx]; [reflexivity|].
  simpl. rewrite IH. destruct l as [|y l]; [reflexivity|].
  simpl. inversion Hx; subst. now rewrite H1.
Qed.





(** X9.  With [planner_min_gap_sec = 0], which [validate] accepts, a call of
    [propose_points] for a long enough text and a segment that does not end
    before it starts, not served from the cache, raises [ZeroDivisionError]:
    the division for the number of points stands before the [try].  The
    provider is not asked and nothing is stored. *)
Theorem propose_points_zero_gap_raises (rt : runtime) (segment_text : string)
    (seg_start seg_end : Q) (cfg : LLMPlannerConfig) (video_id : string) (seg_index : Z)
    (llm : option provider) (w : world) :
  text_too_short segment_text cfg = false ->
  seg_start <= seg_end ->
  planner_min_gap_sec cfg == 0 ->
  _cache w !! cache_key video_id seg_index (text_hash rt segment_text) "points" = None ->
  propose_points rt segment_text seg_start seg_end cfg video_id seg_index llm w
    = (Raised (Exn ZeroDivisionError "float division by zero"), w).
Proof.
  intros Hshort Hle Hgap Hnone. unfold propose_points. rewrite Hshort.
  assert (Hdur : Qlt_bool (seg_end - seg_start) (planner_min_gap_sec cfg) = false).
  { apply Qlt_bool_false. rewrite Hgap. lra. }
  rewrite Hdur. unfold bind, _get_cached_result. rewrite Hnone.
  unfold lift, max_points_for_segment.
  assert (Hz : Qeq_bool (planner_min_gap_sec cfg) 0 = true) by now apply Qeq_bool_iff.
  now rewrite Hz.
Qed.

Lemma propose_points_zero_gap_raises_witness :
  LLMPlannerConfig_validate zero_gap_config = true /\
  propose_points example_runtime "they sold heroin there" 0 30 zero_gap_config
    "video" 0 (Some helpful_provider) empty_world
    = (Raised (Exn ZeroDivisionError "float division by zero"), empty_world).
Proof.
  split; [reflexivity|].
  apply (propose_points_zero_gap_raises example_runtime "they sold heroin there" 0 30
           zero_gap_config "video" 0 (Some helpful_provider) empty_world).
  - reflexivity.
  - apply Qle_bool_iff. reflexivity.
  - reflexivity.
  - reflexivity.
Defined.

(** ** segment_analyzer.py: texts and frames *)

Lemma length_substring_bound (n m : nat) (s : string) :
  (String.length (String.substring n m s) <= m)%nat /\
  (String.length (String.substring n m s) <= String.length s)%nat.
Proof.
  revert n m. induction s as [|c s IH]; intros n m.
  - destruct n, m; simpl; lia.
  - destruct n as [|n].
    + destruct m as [|m]; simpl; [lia|]. destruct (IH 0%nat m). lia.
    + simpl. destruct (IH n m). lia.
Qed.

Lemma length_substring_exact (m : nat) (s : string) :
  (m <= String.length s)%nat -> String.length (String.substring 0 m s) = m.
Proof.
  revert s. induction m as [|m IH]; intros s H.
  - destruct s; reflexivity.
  - destruct s as [|c s]; simpl in *; [lia|]. rewrite IH; lia.
Qed.

Lemma len_str_slice (s : string) (b : Z) :
  (0 <= b)%Z -> (len (str_slice s 0 b) <= b)%Z /\ (len (str_slice s 0 b) <= len s)%Z.
Proof.
  intros Hb. unfold str_slice, len.
  destruct (length_substring_bound
              (Z.to_nat (slice_index 0 (Z.of_nat (String.length s))))
              (Z.to_nat (slice_index b (Z.of_nat (String.length s))
                         - slice_index 0 (Z.of_nat (String.length s))))
              s) as [H1 H2].
  split; [|lia].
  unfold slice_index in *.
  destruct (0 <? 0)%Z eqn:E0; [discriminate|].
  destruct (b <? 0)%Z eqn:Eb; [apply Z.ltb_lt in Eb; lia|]. lia.
Qed.

(** X12.  The text that [segment_transcript] returns for a segment is never longer
    than 1003 characters: a text of more than 1000 characters is cut to its
    first 1000 characters followed by "...", whether it comes from the word
    timestamps or from the proportional slice of the full text. *)
Theorem segment_transcript_capped (full_text : string)
    (word_timestamps : list (string * Q)) (start end_ : Q) :
  let text := segment_transcript full_text word_timestamps start end_ in
  (len text <= 1003)%Z /\
  ((1000 < len text)%Z ->
   len text = 1003%Z /\ String.substring 1000 3 text = "...").
Proof.
  cbv zeta. unfold segment_transcript.
  match goal with |- context [(1000 <? len ?t)%Z] => set (segment_text := t) end.
  destruct (1000 <? len segment_text)%Z eqn:E.
  - apply Z.ltb_lt in E.
    assert (Hlen : String.length (str_take 1000 segment_text) = 1000%nat).
    { apply length_substring_exact. unfold len in E. lia. }
    assert (Htotal : len (str_take 1000 segment_text +:+ "...") = 1003%Z).
    { unfold len. rewrite length_append, Hlen. reflexivity. }
    split; [lia|]. intros _. split; [exact Htotal|].
    generalize dependent (str_take 1000 segment_text). intros t Ht _.
    replace 1000%nat with (String.length t + 0)%nat by lia. clear Ht.
    induction t as [|c t IH]; [reflexivity|].
    change (String c t +:+ "...") with (String c (t +:+ "...")). exact IH.
  - apply Z.ltb_ge in E. split; [lia|]. intros H. lia.
Qed.

(** [dedupe_parts]: the parts kept are a subsequence of the parts given, no
    two neighbours among them have the same content, and the content of
    every part given is the content of a part kept. *)
Lemma dedupe_parts_kept (prev_content : option string) (text_parts : list string) :
  let kept := dedupe_parts prev_content text_parts in
  sublist kept text_parts /\
  adjacent (fun a b => part_content a <> part_content b) kept /\
  (forall k, head kept = Some k -> prev_content <> Some (part_content k)) /\
  (forall p, In p text_parts ->
     prev_content = Some (part_content p) \/
     exists k, In k kept /\ part_content k = part_content p).
Proof.
  revert prev_content. induction text_parts as [|part rest IH]; intros prev; cbv zeta.
  - simpl. split; [constructor|]. split; [exact I|].
    split; [discriminate | intros p []].
  - simpl dedupe_parts.
    set (differs := match prev with
                    | Some p => negb (String.eqb (part_content part) p)
                    | None => true
                    end).
    destruct differs eqn:Hd.
    + destruct (IH (Some (part_content part))) as (Hsub & Hadj & Hhead & Hall).
      split; [now constructor|]. split; [|split].
      * destruct (dedupe_parts (Some (part_content part)) rest) as [|k kept] eqn:Ek;
          [exact I|].
        apply adjacent_cons. split; [|exact Hadj].
        intros E. apply (Hhead k eq_refl). now rewrite E.
      * intros k Hk. inversion Hk; subst k. subst differs.
        destruct prev as [p|]; [|discriminate].
        apply negb_true_iff, String.eqb_neq in Hd. congruence.
      * intros p [->|Hp].
        -- right. exists p. split; [now left | reflexivity].
        -- destruct (Hall p Hp) as [E|(k & Hk & E)].
           ++ right. exists part. split; [now left | congruence].
           ++ right. exists k. split; [now right | exact E].
    + destruct (IH prev) as (Hsub & Hadj & Hhead & Hall).
      assert (Hprev : prev = Some (part_content part)).
      { subst differs. destruct prev as [p|]; [|discriminate].
        apply negb_false_iff, String.eqb_eq in Hd. now rewrite Hd. }
      split; [now constructor|]. split; [exact Hadj|]. split; [exact Hhead|].
      intros p [->|Hp]; [now left | now apply Hall].
Qed.

(** X14.  The text [_apply_text_hygiene] returns is never longer than
    [max_chars + 3] characters, for a non-negative [max_chars]; when the
    joined text fits into [max_chars] it is returned whole: the parts kept,
    joined by "; ", where the parts kept are a subsequence of the parts
    given in which no two neighbours have the same content after the
    timestamp, and every content given is still present. *)
Theorem apply_text_hygiene_capped (text_parts : list string) (max_chars : Z) :
  (0 <= max_chars)%Z ->
  let text := _apply_text_hygiene text_parts max_chars in
  (len text <= max_chars + 3)%Z /\
  exists kept,
    sublist kept text_parts /\
    adjacent (fun a b => part_content a <> part_content b) kept /\
    (forall p, In p text_parts ->
       exists k, In k kept /\ part_content k = part_content p) /\
    ((len (String.concat "; " kept) <= max_chars)%Z -> text = String.concat "; " kept).
Proof.
  intros Hmax text. subst text.
  destruct (dedupe_parts_kept None text_parts) as (Hsub & Hadj & _ & Hall).
  cbv zeta in *. split.
  - unfold _apply_text_hygiene. destruct text_parts as [|part rest]; [unfold len; simpl; lia|].
    set (full_text := String.concat "; " (dedupe_parts None (part :: rest))).
    destruct (max_chars <? len full_text)%Z eqn:E.
    + destruct (len_str_slice full_text max_chars Hmax) as [Ht _].
      set (truncated := str_slice full_text 0 max_chars) in *.
      set (cut_point := Z.max (rfind "." truncated) (rfind ";" truncated)).
      destruct (Qgt_bool _ _) eqn:Ecut.
      * assert (Hcut : (0 <= cut_point + 1)%Z).
        { apply Qlt_bool_iff in Ecut.
          assert (0 <= inject_Z max_chars * 0.8).
          { apply Qmult_le_0_compat; [|lra]. change 0 with (inject_Z 0).
            now rewrite <- Zle_Qle. }
          assert (Hc : inject_Z 0 < inject_Z cut_point)
            by (change (inject_Z 0) with 0; lra).
          rewrite <- Zlt_Qlt in Hc. clear -Hc. lia. }
        destruct (len_str_slice truncated (cut_point + 1) Hcut) as [_ Hs].
        unfold len in *. rewrite length_append. simpl String.length. lia.
      * unfold len in *. rewrite length_append. simpl String.length. lia.
    + apply Z.ltb_ge in E. lia.
  - exists (dedupe_parts None text_parts). split; [exact Hsub|]. split; [exact Hadj|].
    split.
    + intros p Hp. destruct (Hall p Hp) as [E|H]; [discriminate | exact H].
    + intros Hfit. unfold _apply_text_hygiene.
      destruct text_parts as [|part rest]; [reflexivity|].
      destruct (max_chars <? _)%Z eqn:E; [apply Z.ltb_lt in E; lia | reflexivity].
Qed.

Lemma apply_text_hygiene_capped_witness :
  (0 <= 20)%Z /\
  (len (_apply_text_hygiene
          ["[1.0s] a red car"; "[4.0s] a red car"; "[7.0s] a crowd. people shout"] 20)
   <= 20 + 3)%Z.
Proof.
  assert (H : (0 <= 20)%Z) by lia.
  split; [exact H|].
  exact (proj1 (apply_text_hygiene_capped
                  ["[1.0s] a red car"; "[4.0s] a red car"; "[7.0s] a crowd. people shout"]
                  20 H)).
Defined.

Lemma periodic_from_within (rounds : nat) (start current end_ interval : Q) :
  0 <= interval -> start <= current ->
  Forall (fun ts => start <= ts /\ ts < end_) (periodic_from rounds current end_ interval) /\
  (length (periodic_from rounds current end_ interval) <= rounds)%nat.
Proof.
  intros Hi. revert current. induction rounds as [|rounds IH]; intros current Hc.
  - split; [constructor | simpl; lia].
  - simpl. destruct (Qlt_bool current end_) eqn:E; [|split; [constructor | simpl; lia]].
    apply Qlt_bool_iff in E. destruct (IH (current + interval)) as [H1 H2]; [lra|].
    split; [constructor; [split; lra | exact H1] | simpl; lia].
Qed.

Lemma zip_fst_Forall {A B} (P : A -> Prop) (l : list A) (k : list B) :
  Forall P l -> Forall (fun p => P (fst p)) (zip l k) /\ (length (zip l k) <= length l)%nat.
Proof.
  intros H. revert k. induction H as [|a l Ha Hl IH]; intros k.
  - split; [constructor | simpl; lia].
  - destruct k as [|b k]; [split; [constructor | simpl; lia]|].
    destruct (IH k) as [H1 H2]. split; [constructor; auto | simpl; lia].
Qed.

(** X13.  [sample_frames] returns at most [cap] frames, for a non-negative [cap],
    and the timestamp of every frame lies in the segment: given timestamps
    are filtered to [[start, end]], periodic ones (for a non-negative
    interval) run from [start] and stay below [end].  When the extraction
    raises, no frame is returned. *)
Theorem sample_frames_within (rt : runtime) (video_path : string)
    (start end_ interval_sec : Q) (cap : Z) (timestamps : option (list Q)) :
  (0 <= cap)%Z ->
  (timestamps = None -> 0 <= interval_sec) ->
  let frames := sample_frames rt video_path start end_ interval_sec cap timestamps in
  (Z.of_nat (length frames) <= cap)%Z /\
  Forall (fun frame => start <= fst frame /\ fst frame <= end_) frames /\
  (timestamps = None -> Forall (fun frame => fst frame < end_) frames).
Proof.
  intros Hcap Hint frames. subst frames. unfold sample_frames.
  set (segment_timestamps :=
         match timestamps with
         | Some timestamps =>
             list_prefix cap
               (filter (fun ts => Is_true (Qle_bool start ts && Qle_bool ts end_))
                  timestamps)
         | None => periodic_timestamps start end_ interval_sec cap
         end).
  assert (Hts : Forall (fun ts => start <= ts /\ ts <= end_) segment_timestamps /\
                (Z.of_nat (length segment_timestamps) <= cap)%Z /\
                (timestamps = None -> Forall (fun ts => ts < end_) segment_timestamps)).
  { subst segment_timestamps. destruct timestamps as [timestamps|].
    - split; [|split; [|discriminate]].
      + unfold list_prefix. apply Forall_take. apply Forall_forall.
        intros ts Hin. apply list_elem_of_filter in Hin.
        destruct Hin as [Hin _]. apply Is_true_true, andb_true_iff in Hin.
        destruct Hin as [H1 H2]. apply Qle_bool_iff in H1, H2. auto.
      + unfold list_prefix, slice_index. rewrite length_take.
        destruct (cap <? 0)%Z eqn:E; [apply Z.ltb_lt in E; lia | lia].
    - unfold periodic_timestamps.
      destruct (periodic_from_within (Z.to_nat cap) start start end_ interval_sec
                  (Hint eq_refl) (Qle_refl _)) as [H1 H2].
      split; [|split; [lia|]].
      + eapply List.Forall_impl; [|exact H1]. intros ts [Ha Hb]. split; lra.
      + intros _. eapply List.Forall_impl; [|exact H1]. intros ts [Ha Hb]. exact Hb. }
  destruct Hts as (Hin & Hlen & Hlt).
  destruct (extract_frames rt video_path segment_timestamps) as [frame_paths|e].
  - destruct (zip_fst_Forall _ segment_timestamps frame_paths Hin) as [H1 H2].
    split; [lia|]. split; [exact H1|].
    intros Hnone. exact (proj1 (zip_fst_Forall _ _ frame_paths (Hlt Hnone))).
  - split; [simpl; lia|]. split; [constructor | intros _; constructor].
Qed.

Lemma sample_frames_within_witness :
  (0 <= 10)%Z /\
  let frames := sample_frames example_runtime "video.mp4" 30 45 5 10 None in
  (Z.of_nat (length frames) <= 10)%Z /\
  Forall (fun frame => 30 <= fst frame /\ fst frame <= 45) frames /\
  map fst frames = [30; 30 + 5; 30 + 5 + 5].
Proof.
  assert (Hcap : (0 <= 10)%Z) by lia.
  assert (Hint : @None (list Q) = None -> 0 <= 5)
    by (intros _; apply Qle_bool_iff; reflexivity).
  split; [exact Hcap|].
  destruct (sample_frames_within example_runtime "video.mp4" 30 45 5 10 None Hcap Hint)
    as (H1 & H2 & _).
  split; [exact H1|]. split; [exact H2 | reflexivity].
Defined.

(** ** segment_analyzer.py: [format_timestamp] *)

Lemma Qfloor_unique (x : Q) (n : Z) :
  inject_Z n <= x -> x < inject_Z (n + 1) -> Qfloor x = n.
Proof.
  intros Hle Hlt.
  assert (H1 : (n <= Qfloor x)%Z).
  { rewrite <- (Qfloor_Z n). now apply Qfloor_resp_le. }
  assert (H2 : (Qfloor x < n + 1)%Z).
  { rewrite Zlt_Qlt. eapply Qle_lt_trans; [apply Qfloor_le | exact Hlt]. }
  lia.
Qed.

(** X15.  The three fields of a formatted timestamp, for a number of seconds
    from 0 up to [2^53] (the range in which Python's float [//] and [%]
    return the exact quotient and remainder): the hours are not negative,
    the minutes lie between 0 and 59 and the seconds in [[0, 60)], and the
    fields add up to the argument:
    [3600 * hours + 60 * minutes + secs = seconds]. *)
Theorem format_timestamp_fields (rt : runtime) (seconds : Q) :
  0 <= seconds -> seconds < 9007199254740992 ->
  exists (hours minutes : Z) (secs : Q),
    format_timestamp rt seconds
      = format_02d hours +:+ ":" +:+ format_02d minutes +:+ ":" +:+ format_secs rt secs /\
    (0 <= hours)%Z /\ (0 <= minutes <= 59)%Z /\ 0 <= secs /\ secs < 60 /\
    3600 * inject_Z hours + 60 * inject_Z minutes + secs == seconds.
Proof.
  intros Hnonneg _. unfold format_timestamp.
  set (hours := Qfloor (seconds / 3600)).
  set (rem := seconds - 3600 * inject_Z hours).
  set (minutes := Qfloor (rem / 60)).
  set (secs := seconds - 60 * inject_Z (Qfloor (seconds / 60))).
  exists hours, minutes, secs. split; [reflexivity|].
  assert (Hh1 : inject_Z hours <= seconds / 3600) by apply Qfloor_le.
  assert (Hh2 : seconds / 3600 < inject_Z (hours + 1)) by apply Qlt_floor.
  rewrite inject_Z_plus in Hh2. change (inject_Z 1) with 1 in Hh2.
  assert (Hs : seconds == seconds / 3600 * 3600) by (field; lra).
  assert (Hrem : 0 <= rem /\ rem < 3600).
  { unfold rem.
    assert (inject_Z hours * 3600 <= seconds / 3600 * 3600)
      by (apply Qmult_le_compat_r; lra).
    assert (seconds / 3600 * 3600 < (inject_Z hours + 1) * 3600)
      by (apply Qmult_lt_compat_r; lra).
    split; lra. }
  assert (Hm1 : inject_Z minutes <= rem / 60) by apply Qfloor_le.
  assert (Hm2 : rem / 60 < inject_Z (minutes + 1)) by apply Qlt_floor.
  rewrite inject_Z_plus in Hm2. change (inject_Z 1) with 1 in Hm2.
  assert (Hr : rem == rem / 60 * 60) by (field; lra).
  assert (Hr1 : inject_Z minutes * 60 <= rem / 60 * 60)
    by (apply Qmult_le_compat_r; lra).
  assert (Hr2 : rem / 60 * 60 < (inject_Z minutes + 1) * 60)
    by (apply Qmult_lt_compat_r; lra).
  assert (Hmin : (0 <= minutes <= 59)%Z).
  { assert (Ha : inject_Z (-1) < inject_Z minutes).
    { change (inject_Z (-1)) with (-1). lra. }
    assert (Hb : inject_Z minutes < inject_Z 60).
    { change (inject_Z 60) with 60. lra. }
    rewrite <- Zlt_Qlt in Ha, Hb. lia. }
  assert (Hfloor : Qfloor (seconds / 60) = (60 * hours + minutes)%Z).
  { assert (Hs60 : seconds == seconds / 60 * 60) by (field; lra).
    apply Qfloor_unique.
    - rewrite inject_Z_plus, inject_Z_mult. change (inject_Z 60) with 60.
      apply Qmult_le_r with (z := 60); [lra|]. unfold rem in *. lra.
    - rewrite !inject_Z_plus, inject_Z_mult. change (inject_Z 60) with 60.
      change (inject_Z 1) with 1.
      apply Qmult_lt_r with (z := 60); [lra|]. unfold rem in *. lra. }
  assert (Hhours : (0 <= hours)%Z).
  { assert (Ha : inject_Z (-1) < inject_Z hours).
    { change (inject_Z (-1)) with (-1).
      assert (0 <= seconds / 3600 * 3600) by lra.
      assert (seconds / 3600 * 3600 < (inject_Z hours + 1) * 3600)
        by (apply Qmult_lt_compat_r; lra).
      lra. }
    rewrite <- Zlt_Qlt in Ha. lia. }
  split; [exact Hhours|]. split; [exact Hmin|].
  unfold secs. rewrite Hfloor, inject_Z_plus, inject_Z_mult.
  change (inject_Z 60) with 60. unfold rem in *. repeat split; lra.
Qed.

(** 3725.5 s is one hour, two minutes and 5.5 s. *)
Lemma format_timestamp_fields_witness :
  0 <= 3725.5 /\ 3725.5 < 9007199254740992 /\
  exists (hours minutes : Z) (secs : Q),
    format_timestamp example_runtime 3725.5
      = format_02d hours +:+ ":" +:+ format_02d minutes +:+ ":"
        +:+ format_secs example_runtime secs /\
    (0 <= hours)%Z /\ (0 <= minutes <= 59)%Z /\ 0 <= secs /\ secs < 60 /\
    3600 * inject_Z hours + 60 * inject_Z minutes + secs == 3725.5.
Proof.
  assert (H0 : 0 <= 3725.5) by (apply Qle_bool_iff; reflexivity).
  assert (H1 : 3725.5 < 9007199254740992) by reflexivity.
  split; [exact H0|]. split; [exact H1|].
  exact (format_timestamp_fields example_runtime 3725.5 H0 H1).
Defined.

(** ** segmentation.py: splitting a long segment *)

Lemma validate_lengths (cfg : SegmentationConfig) :
  SegmentationConfig_validate cfg = true ->
  0 < min_len_sec cfg /\ min_len_sec cfg < max_len_sec cfg.
Proof.
  unfold SegmentationConfig_validate. intros H.
  repeat (apply andb_true_iff in H; destruct H as [H ?]).
  repeat match goal with
         | H : negb _ = true |- _ => apply negb_true_iff in H
         end.
  split; now apply Qle_bool_false.
Qed.

Lemma py_div_nonzero (x y : Q) : ~ y == 0 -> py_div x y = Returned (x / y).
Proof.
  intros H. unfold py_div. destruct (Qeq_bool y 0) eqn:E; [|reflexivity].
  apply Qeq_bool_iff in E. contradiction.
Qed.

(** The loop of [force_split_smart] when [rounds] pieces of duration
    [segment_duration], not shorter than [min_len], are left to the end. *)
Lemma force_split_loop_tiles (rounds : nat) (i num_segments : Z)
    (segment_duration end_ min_len current_start : Q) :
  (i + Z.of_nat (S rounds) = num_segments)%Z ->
  end_ - current_start == inject_Z (Z.of_nat (S rounds)) * segment_duration ->
  0 <= min_len -> min_len <= segment_duration ->
  let pieces :=
    force_split_loop (S rounds) i num_segments segment_duration end_ min_len
      current_start in
  tiles current_start end_ pieces /\
  length pieces = S rounds /\
  Forall (fun piece => span_duration piece == segment_duration) pieces.
Proof.
  revert i current_start. induction rounds as [|rounds IH]; intros i cs Hi Hend Hpos Hmin.
  - cbv zeta. simpl force_split_loop.
    assert (E1 : (i =? num_segments - 1)%Z = true) by (apply Z.eqb_eq; lia).
    assert (E2 : (i =? num_segments - 2)%Z = false) by (apply Z.eqb_neq; lia).
    rewrite E1, E2. simpl. split; [auto|]. split; [reflexivity|].
    constructor; [|constructor]. unfold span_duration. simpl.
    rewrite Hend. change (inject_Z (Z.of_nat 1)) with 1. ring.
  - cbv zeta.
    change (force_split_loop (S (S rounds)) i num_segments segment_duration end_ min_len cs)
      with (let segment_end :=
              if (i =? num_segments - 1)%Z then end_ else cs + segment_duration in
            if (i =? num_segments - 2)%Z && Qlt_bool (end_ - segment_end) min_len then
              [mk_span cs end_
                 (Some ("Force split segment " +:+ pretty (i + 1)%Z +:+ "-"
                        +:+ pretty num_segments))]
            else
              mk_span cs segment_end (Some ("Force split segment " +:+ pretty (i + 1)%Z))
              :: force_split_loop (S rounds) (i + 1)%Z num_segments segment_duration
                   end_ min_len segment_end).
    cbv zeta.
    assert (E1 : (i =? num_segments - 1)%Z = false) by (apply Z.eqb_neq; lia).
    rewrite E1.
    assert (Hrest : end_ - (cs + segment_duration)
                    == inject_Z (Z.of_nat (S rounds)) * segment_duration).
    { rewrite (Nat2Z.inj_succ (S rounds)) in Hend. unfold Z.succ in Hend.
      rewrite inject_Z_plus in Hend. change (inject_Z 1) with 1 in Hend.
      set (k := inject_Z (Z.of_nat (S rounds))) in *. nra. }
    assert (E2 : Qlt_bool (end_ - (cs + segment_duration)) min_len = false).
    { apply Qlt_bool_false. rewrite Hrest.
      assert (1 <= inject_Z (Z.of_nat (S rounds))).
      { change 1 with (inject_Z 1). rewrite <- Zle_Qle. lia. }
      set (k := inject_Z (Z.of_nat (S rounds))) in *.
      assert (0 <= (k - 1) * segment_duration) by (apply Qmult_le_0_compat; lra).
      lra. }
    rewrite E2, andb_false_r.
    destruct (IH (i + 1)%Z (cs + segment_duration)) as (Ht & Hl & Hd);
      [lia | exact Hrest | exact Hpos | exact Hmin |].
    cbv zeta in Ht, Hl, Hd.
    destruct (force_split_loop (S rounds) (i + 1) num_segments segment_duration end_
                min_len (cs + segment_duration)) as [|p rest] eqn:Eloop;
      [discriminate Hl|].
    split; [split; [reflexivity | exact Ht]|].
    split; [simpl; simpl in Hl; lia|].
    constructor; [|exact Hd]. unfold span_duration. simpl. ring.
Qed.

(** The number of pieces and their duration: with [0 < min_len_sec <
    max_len_sec < duration] there is at least one piece, the pieces add up to
    the duration, and no piece is shorter than [min_len_sec]; no piece is
    longer than [max_len_sec] when the even split into
    [ceil(duration / max_len_sec)] pieces is kept, which is the case whenever
    [2 * min_len_sec <= max_len_sec]. *)
Lemma force_split_plan_spec (duration : Q) (cfg : SegmentationConfig) :
  0 < min_len_sec cfg -> min_len_sec cfg < max_len_sec cfg ->
  max_len_sec cfg < duration ->
  exists num_segments segment_duration,
    force_split_plan duration cfg = Returned (num_segments, segment_duration) /\
    (1 <= num_segments)%Z /\
    inject_Z num_segments * segment_duration == duration /\
    min_len_sec cfg <= segment_duration /\
    (2 * min_len_sec cfg <= max_len_sec cfg -> segment_duration <= max_len_sec cfg).
Proof.
  intros Hmin Hlt Hd. unfold force_split_plan.
  set (min_len := min_len_sec cfg) in *. set (max_len := max_len_sec cfg) in *.
  rewrite (py_div_nonzero duration max_len) by lra.
  set (n1 := Qceiling (duration / max_len)).
  assert (Hx : duration == duration / max_len * max_len) by (field; lra).
  assert (Hup : duration / max_len <= inject_Z n1) by apply Qle_ceiling.
  assert (Hlow : inject_Z n1 - 1 < duration / max_len).
  { pose proof (Qceiling_lt (duration / max_len)) as H. fold n1 in H.
    unfold Z.sub in H. rewrite inject_Z_plus in H. exact H. }
  assert (H1 : 1 < duration / max_len).
  { apply Qlt_shift_div_l; lra. }
  assert (Hn1 : (2 <= n1)%Z).
  { assert (H : inject_Z 1 < inject_Z n1) by (change (inject_Z 1) with 1; lra).
    rewrite <- Zlt_Qlt in H. lia. }
  assert (Hn1q : 2 <= inject_Z n1).
  { change 2 with (inject_Z 2). now rewrite <- Zle_Qle. }
  rewrite (py_div_nonzero duration (inject_Z n1)) by lra.
  assert (Hsd1 : inject_Z n1 * (duration / inject_Z n1) == duration)
    by (apply Qmult_div_r; lra).
  assert (Hmax1 : duration / inject_Z n1 <= max_len).
  { apply Qle_shift_div_r; [lra|].
    assert (duration / max_len * max_len <= inject_Z n1 * max_len)
      by (apply Qmult_le_compat_r; lra).
    lra. }
  destruct (Qlt_bool (duration / inject_Z n1) min_len) eqn:E1.
  - apply Qlt_bool_iff in E1.
    rewrite (py_div_nonzero duration min_len) by lra.
    set (n2 := Z.max 1 (Qfloor (duration / min_len))).
    assert (Hfl : inject_Z (Qfloor (duration / min_len)) <= duration / min_len)
      by apply Qfloor_le.
    assert (H2 : 1 <= duration / min_len) by (apply Qle_shift_div_l; lra).
    assert (Hn2 : inject_Z n2 <= duration / min_len).
    { unfold n2. destruct (Z.max_spec 1 (Qfloor (duration / min_len))) as [[_ ->]|[_ ->]];
        [exact Hfl | exact H2]. }
    assert (Hn2pos : (1 <= n2)%Z) by (unfold n2; lia).
    assert (Hn2q : 1 <= inject_Z n2).
    { change 1 with (inject_Z 1). now rewrite <- Zle_Qle. }
    rewrite (py_div_nonzero duration (inject_Z n2)) by lra.
    exists n2, (duration / inject_Z n2). split; [reflexivity|]. split; [exact Hn2pos|].
    split; [apply Qmult_div_r; lra|]. split.
    + apply Qle_shift_div_l; [lra|].
      assert (Hy : duration == duration / min_len * min_len) by (field; lra).
      assert (inject_Z n2 * min_len <= duration / min_len * min_len)
        by (apply Qmult_le_compat_r; lra).
      lra.
    + intros Htwo. exfalso.
      assert (Hge : min_len * inject_Z n1 <= duration); [|].
      { assert (Ha : max_len * (inject_Z n1 - 1) <= duration).
        { assert ((inject_Z n1 - 1) * max_len <= duration / max_len * max_len)
            by (apply Qmult_le_compat_r; lra).
          lra. }
        assert (Hb : 2 * min_len * (inject_Z n1 - 1) <= max_len * (inject_Z n1 - 1))
          by (apply Qmult_le_compat_r; lra).
        assert (Hc : 0 <= min_len * (inject_Z n1 - 2))
          by (apply Qmult_le_0_compat; lra).
        lra. }
      assert (Hsd : min_len <= duration / inject_Z n1)
        by (apply Qle_shift_div_l; lra).
      lra.
  - apply Qlt_bool_false in E1.
    exists n1, (duration / inject_Z n1). split; [reflexivity|]. split; [lia|].
    split; [exact Hsd1|]. split; [exact E1 | intros _; exact Hmax1].
Qed.

(** [force_split_smart] on a segment longer than [max_len_sec]. *)
Lemma force_split_smart_spec (seg : span) (cfg : SegmentationConfig) :
  0 < min_len_sec cfg -> min_len_sec cfg < max_len_sec cfg ->
  max_len_sec cfg < span_duration seg ->
  exists pieces segment_duration,
    force_split_smart seg cfg = Returned pieces /\
    tiles (span_start seg) (span_end seg) pieces /\
    inject_Z (Z.of_nat (length pieces)) * segment_duration == span_duration seg /\
    Forall (fun piece => span_duration piece == segment_duration) pieces /\
    min_len_sec cfg <= segment_duration /\
    (2 * min_len_sec cfg <= max_len_sec cfg -> segment_duration <= max_len_sec cfg).
Proof.
  intros Hmin Hlt Hd. unfold force_split_smart. unfold span_duration in Hd.
  assert (E : Qle_bool (span_end seg - span_start seg) (max_len_sec cfg) = false)
    by now apply Qle_bool_false.
  rewrite E.
  destruct (force_split_plan_spec _ cfg Hmin Hlt Hd)
    as (n & sd & Hplan & Hn & Hsum & Hsd & Hmax).
  rewrite Hplan.
  destruct (Z.to_nat n) as [|rounds] eqn:En; [lia|].
  assert (Hn' : Z.of_nat (S rounds) = n) by lia.
  destruct (force_split_loop_tiles rounds 0 n sd (span_end seg) (min_len_sec cfg)
              (span_start seg)) as (Ht & Hl & Hdur).
  - lia.
  - rewrite Hn'. now rewrite Hsum.
  - lra.
  - exact Hsd.
  - cbv zeta in Ht, Hl, Hdur. eexists _, sd. split; [reflexivity|].
    split; [exact Ht|]. split; [|auto].
    rewrite Hl, Hn'. exact Hsum.
Qed.

(** The pieces between split points that are at least [min_len] apart. *)
Lemma split_pieces_tiles (min_len : Q) (valid_splits : list Q) (i : Z) (a b l : Q)
    (rest : list Q) :
  valid_splits = a :: b :: rest ->
  last valid_splits = Some l ->
  adjacent (apart min_len) valid_splits ->
  tiles a l (split_pieces min_len i valid_splits) /\
  Forall (fun piece => min_len <= span_duration piece)
    (split_pieces min_len i valid_splits).
Proof.
  revert valid_splits i a b. induction rest as [|c rest IH]; intros vs i a b -> Hlast Hadj.
  - simpl in Hlast. inversion Hlast; subst l. destruct Hadj as [Hab _].
    unfold apart in Hab. simpl.
    assert (E : Qge_bool (b - a) min_len = true) by now apply Qle_bool_iff.
    rewrite E. simpl. split; [auto|]. constructor; [exact Hab | constructor].
  - apply adjacent_cons in Hadj. destruct Hadj as [Hab Hadj].
    destruct (IH (b :: c :: rest) (i + 1)%Z b c eq_refl Hlast Hadj) as [Ht Hall].
    change (split_pieces min_len i (a :: b :: c :: rest))
      with ((if Qge_bool (b - a) min_len
             then [mk_span a b (Some ("Split segment " +:+ pretty (i + 1)%Z))]
             else [])
            ++ split_pieces min_len (i + 1)%Z (b :: c :: rest)).
    assert (E : Qge_bool (b - a) min_len = true) by now apply Qle_bool_iff.
    rewrite E.
    destruct (split_pieces min_len (i + 1) (b :: c :: rest)) as [|p ps] eqn:Ep;
      [destruct Ht|].
    split; [split; [reflexivity | exact Ht]|].
    constructor; [exact Hab | exact Hall].
Qed.

(** A last split point closer than [min_len] to the end gives no piece. *)
Lemma split_pieces_short_tail (min_len : Q) (valid_splits : list Q) (i : Z) (l end_ : Q) :
  last valid_splits = Some l ->
  Qge_bool (end_ - l) min_len = false ->
  split_pieces min_len i (valid_splits ++ [end_]) = split_pieces min_len i valid_splits.
Proof.
  revert i. induction valid_splits as [|a vs IH]; intros i Hlast Hshort; [discriminate|].
  destruct vs as [|b vs].
  - simpl in Hlast. inversion Hlast; subst a. simpl. now rewrite Hshort.
  - change (last (a :: b :: vs)) with (last (b :: vs)) in Hlast.
    change (split_pieces min_len i ((a :: b :: vs) ++ [end_]))
      with ((if Qge_bool (b - a) min_len
             then [mk_span a b (Some ("Split segment " +:+ pretty (i + 1)%Z))]
             else [])
            ++ split_pieces min_len (i + 1)%Z ((b :: vs) ++ [end_])).
    rewrite (IH (i + 1)%Z Hlast Hshort). reflexivity.
Qed.

Lemma split_step_ok (min_len start end_ : Q) (valid_splits : list Q) (candidate : Q) :
  candidate < end_ ->
  splits_ok min_len start end_ valid_splits ->
  splits_ok min_len start end_ (split_step min_len end_ valid_splits candidate).
Proof.
  intros Hc (Hhead & Hadj & l & Hlast & Hl). unfold split_step. rewrite Hlast.
  destruct (Qle_bool candidate l) eqn:E1; [repeat split; eauto|].
  apply Qle_bool_false in E1.
  destruct (Qge_bool (candidate - l) min_len) eqn:E2; [|repeat split; eauto].
  apply Qle_bool_iff in E2.
  destruct (Qge_bool (end_ - candidate) min_len) eqn:E3.
  - split; [|split].
    + destruct valid_splits; [discriminate | exact Hhead].
    + apply adjacent_snoc; [exact Hadj|]. intros a Ha. rewrite Hlast in Ha.
      inversion Ha; subst a. exact E2.
    + exists candidate. split; [apply last_snoc | exact Hc].
  - destruct (Qlt_bool (end_ - candidate) min_len && (1 <? Z.of_nat (length valid_splits))%Z)
      eqn:E4; [|repeat split; eauto].
    apply andb_true_iff in E4. destruct E4 as [_ Hlen]. apply Z.ltb_lt in Hlen.
    apply last_Some in Hlast. destruct Hlast as [body ->].
    rewrite removelast_last. rewrite length_app in Hlen. simpl in Hlen.
    pose proof (adjacent_snoc_inv _ _ _ Hadj) as Hbody.
    split; [|split].
    + destruct body; [simpl in Hlen; lia | exact Hhead].
    + apply adjacent_snoc; [exact Hbody|]. intros a Ha.
      pose proof (adjacent_last _ _ _ _ Hadj Ha) as Hrel. unfold apart in *. lra.
    + exists candidate. split; [apply last_snoc | exact Hc].
Qed.

Lemma split_fold_ok (min_len start end_ : Q) (candidates valid_splits : list Q) :
  Forall (fun c => c < end_) candidates ->
  splits_ok min_len start end_ valid_splits ->
  splits_ok min_len start end_ (fold_left (split_step min_len end_) candidates valid_splits).
Proof.
  intros H. revert valid_splits. induction H as [|c cs Hc Hcs IH]; intros vs Hvs; [exact Hvs|].
  simpl. apply IH. now apply split_step_ok.
Qed.

Lemma py_set_Forall (P : Q -> Prop) (l : list Q) : Forall P l -> Forall P (py_set l).
Proof.
  induction 1 as [|x l Hx Hl IH]; simpl; [constructor|].
  destruct (mem x l); [exact IH | now constructor].
Qed.

(** [split_long_segment] on a segment longer than [max_len_sec]: the pieces
    tile the segment from its start up to a point [stop] that is the end of
    the segment or closer to it than [min_len_sec], and no piece is shorter
    than [min_len_sec]. *)
Lemma split_long_segment_spec (detect : Q -> Q -> list Q) (seg : span)
    (transcript : list span) (cfg : SegmentationConfig) :
  0 < min_len_sec cfg -> min_len_sec cfg < max_len_sec cfg ->
  max_len_sec cfg < span_duration seg ->
  exists pieces stop,
    split_long_segment detect seg transcript cfg = Returned pieces /\
    tiles (span_start seg) stop pieces /\
    Forall (fun piece => min_len_sec cfg <= span_duration piece) pieces /\
    stop <= span_end seg /\ span_end seg - stop < min_len_sec cfg.
Proof.
  intros Hmin Hlt Hd.
  assert (Hforce : exists pieces stop,
            force_split_smart seg cfg = Returned pieces /\
            tiles (span_start seg) stop pieces /\
            Forall (fun piece => min_len_sec cfg <= span_duration piece) pieces /\
            stop <= span_end seg /\ span_end seg - stop < min_len_sec cfg).
  { destruct (force_split_smart_spec seg cfg Hmin Hlt Hd)
      as (pieces & sd & Hrun & Ht & _ & Hdur & Hsd & _).
    exists pieces, (span_end seg). split; [exact Hrun|]. split; [exact Ht|].
    split; [|split; lra].
    eapply List.Forall_impl; [|exact Hdur]. intros p Hp. simpl in Hp. lra. }
  unfold split_long_segment. unfold span_duration in Hd.
  set (start := span_start seg) in *. set (end_ := span_end seg) in *.
  set (min_len := min_len_sec cfg) in *.
  assert (E : Qle_bool (end_ - start) (max_len_sec cfg) = false) by now apply Qle_bool_false.
  rewrite E.
  set (raw := find_visual_boundaries detect start end_ ++ _).
  assert (Hraw : Forall (fun c => c < end_) raw).
  { subst raw. apply Forall_app. split.
    - unfold find_visual_boundaries. apply py_sorted_Forall. apply Forall_forall.
      intros c Hin. apply list_elem_of_filter in Hin. destruct Hin as [Hin _].
      apply Is_true_true, andb_true_iff in Hin. destruct Hin as [_ H2].
      now apply Qlt_bool_iff in H2.
    - apply Forall_forall. intros c Hin. apply list_elem_of_fmap in Hin.
      destruct Hin as (t & -> & Hin). apply list_elem_of_filter in Hin.
      destruct Hin as [Hin _]. apply Is_true_true, andb_true_iff in Hin.
      destruct Hin as [_ H2]. now apply Qlt_bool_iff in H2. }
  destruct raw as [|c0 raw]; [exact Hforce|].
  set (candidates := py_sorted Qle_bool (py_set (c0 :: raw))).
  assert (Hcand : Forall (fun c => c < end_) candidates).
  { subst candidates. apply py_sorted_Forall. now apply py_set_Forall. }
  assert (Hok : splits_ok min_len start end_
                  (fold_left (split_step min_len end_) candidates [start])).
  { apply split_fold_ok; [exact Hcand|]. split; [reflexivity|]. split; [exact I|].
    exists start. split; [reflexivity | lra]. }
  set (valid_splits := fold_left (split_step min_len end_) candidates [start]) in *.
  destruct Hok as (Hhead & Hadj & l & Hlast & Hl).
  destruct valid_splits as [|a tl] eqn:Evs; [discriminate|].
  simpl in Hhead. inversion Hhead; subst a.
  assert (Hpieces : exists stop,
            tiles start stop (split_pieces min_len 0 ((start :: tl) ++ [end_])) /\
            Forall (fun piece => min_len <= span_duration piece)
              (split_pieces min_len 0 ((start :: tl) ++ [end_])) /\
            stop <= end_ /\ end_ - stop < min_len).
  { destruct (Qge_bool (end_ - l) min_len) eqn:Etail.
    - exists end_. apply Qle_bool_iff in Etail.
      assert (Hadj' : adjacent (apart min_len) ((start :: tl) ++ [end_])).
      { apply adjacent_snoc; [exact Hadj|]. intros a Ha. rewrite Hlast in Ha.
        inversion Ha; subst a. exact Etail. }
      assert (Hlast' : last ((start :: tl) ++ [end_]) = Some end_) by apply last_snoc.
      destruct (tl ++ [end_]) as [|b rest] eqn:Etl; [destruct tl; discriminate|].
      change ((start :: tl) ++ [end_]) with (start :: (tl ++ [end_])) in *.
      rewrite Etl in *.
      destruct (split_pieces_tiles min_len _ 0 start b end_ rest eq_refl Hlast' Hadj')
        as [Ht Hall].
      split; [exact Ht|]. split; [exact Hall|]. split; lra.
    - exists l. rewrite (split_pieces_short_tail min_len _ 0 l end_ Hlast Etail).
      apply Qle_bool_false in Etail.
      destruct tl as [|b rest].
      + simpl in Hlast. inversion Hlast; subst l. lra.
      + destruct (split_pieces_tiles min_len _ 0 start b l rest eq_refl Hlast Hadj)
          as [Ht Hall].
        split; [exact Ht|]. split; [exact Hall|]. split; lra. }
  destruct Hpieces as (stop & Ht & Hall & Hstop).
  destruct (split_pieces min_len 0 ((start :: tl) ++ [end_])) as [|p ps] eqn:Ep;
    [destruct Ht|].
  exists (p :: ps), stop. split; [reflexivity|]. split; [exact Ht|].
  split; [exact Hall | exact Hstop].
Qed.

(** ** segmentation.py: [process_segments] *)

Section Returns.
Variable detect : Q -> Q -> list Q.
Variable transcript : list span.
Variable cfg : SegmentationConfig.
Hypothesis min_positive : 0 < min_len_sec cfg.
Hypothesis min_below_max : min_len_sec cfg < max_len_sec cfg.







End Returns.






(** X18.  With a configuration that [validate] accepts, [force_split_smart]
    returns, for a segment longer than [max_len_sec], a list of pieces that
    tile it from its start to its end: the first piece starts where the
    segment starts, each of the others starts where the one before it ends,
    the last ends where the segment ends, and every piece ends after it
    starts.  (In exact arithmetic the pieces have one duration between the
    two limits; the code computes the duration and the split points in
    floating point, where a piece can miss a limit by one rounding, so the
    durations are not part of the statement.) *)
Theorem force_split_smart_tiles (seg : span) (cfg : SegmentationConfig) :
  SegmentationConfig_validate cfg = true ->
  max_len_sec cfg < span_duration seg ->
  exists pieces,
    force_split_smart seg cfg = Returned pieces /\
    tiles (span_start seg) (span_end seg) pieces /\
    Forall (fun piece => span_start piece < span_end piece) pieces.
Proof.
  intros Hvalid Hd. destruct (validate_lengths cfg Hvalid) as [Hmin Hlt].
  destruct (force_split_smart_spec seg cfg Hmin Hlt Hd)
    as (pieces & sd & Hrun & Ht & _ & Hdur & Hsd & _).
  exists pieces. split; [exact Hrun|]. split; [exact Ht|].
  eapply List.Forall_impl; [|exact Hdur].
  intros piece Hp. unfold span_duration in Hp. simpl in Hp. lra.
Qed.

Lemma force_split_smart_tiles_witness :
  SegmentationConfig_validate DEFAULT_CONFIG = true /\
  max_len_sec DEFAULT_CONFIG < span_duration long_span /\
  exists pieces,
    force_split_smart long_span DEFAULT_CONFIG = Returned pieces /\
    tiles 0 40 pieces /\
    Forall (fun piece => span_start piece < span_end piece) pieces.
Proof.
  assert (Hd : max_len_sec DEFAULT_CONFIG < span_duration long_span)
    by (apply Qlt_bool_iff; reflexivity).
  split; [reflexivity|]. split; [exact Hd|].
  exact (force_split_smart_tiles long_span DEFAULT_CONFIG eq_refl Hd).
Defined.

(** X19.  With a configuration that [validate] accepts, [split_long_segment]
    returns, for a segment longer than [max_len_sec], a list of pieces that
    tile it from its start up to a point [stop], every piece ending after it
    starts.  [stop] is the end of the segment, or a split point for which
    the code's test [end - stop >= min_len_sec] fails: then the stretch from
    [stop] to the end is in no piece. *)
Theorem split_long_segment_tiles (detect : Q -> Q -> list Q) (seg : span)
    (transcript : list span) (cfg : SegmentationConfig) :
  SegmentationConfig_validate cfg = true ->
  max_len_sec cfg < span_duration seg ->
  exists pieces stop,
    split_long_segment detect seg transcript cfg = Returned pieces /\
    tiles (span_start seg) stop pieces /\
    Forall (fun piece => span_start piece < span_end piece) pieces /\
    stop <= span_end seg /\ span_end seg - stop < min_len_sec cfg.
Proof.
  intros Hvalid Hd. destruct (validate_lengths cfg Hvalid) as [Hmin Hlt].
  destruct (split_long_segment_spec detect seg transcript cfg Hmin Hlt Hd)
    as (pieces & stop & Hrun & Ht & Hall & Hstop).
  exists pieces, stop. split; [exact Hrun|]. split; [exact Ht|]. split; [|exact Hstop].
  eapply List.Forall_impl; [|exact Hall].
  intros piece Hp. unfold span_duration in Hp. simpl in Hp. lra.
Qed.

Lemma split_long_segment_tiles_witness :
  SegmentationConfig_validate DEFAULT_CONFIG = true /\
  max_len_sec DEFAULT_CONFIG < span_duration long_span /\
  split_long_segment no_detection long_span late_boundary DEFAULT_CONFIG
    = Returned [mk_span 0 38 (Some "Split segment 1")] /\
  exists pieces stop,
    split_long_segment no_detection long_span late_boundary DEFAULT_CONFIG
      = Returned pieces /\
    tiles 0 stop pieces /\ stop <= 40 /\ 40 - stop < 5.
Proof.
  assert (Hd : max_len_sec DEFAULT_CONFIG < span_duration long_span)
    by (apply Qlt_bool_iff; reflexivity).
  split; [reflexivity|]. split; [exact Hd|]. split; [vm_compute; reflexivity|].
  destruct (split_long_segment_tiles no_detection long_span late_boundary DEFAULT_CONFIG
              eq_refl Hd) as (pieces & stop & H1 & H2 & _ & H3 & H4).
  exists pieces, stop. auto.
Defined.



(** ** segmentation.py: more on [normalize_non_overlap] *)

Lemma adjacent_impl {A} (R R' : A -> A -> Prop) (l : list A) :
  (forall a b, R a b -> R' a b) -> adjacent R l -> adjacent R' l.
Proof.
  intros H. induction l as [|a l IH]; [auto|].
  destruct l as [|b l]; [auto|]. intros Hl. apply adjacent_cons in Hl.
  destruct Hl as [Hab Hl]. apply adjacent_cons. split; auto.
Qed.

Lemma adjacent_app_inv_l {A} (R : A -> A -> Prop) (l1 l2 : list A) :
  adjacent R (l1 ++ l2) -> adjacent R l1.
Proof.
  induction l2 as [|x l2 IH] using rev_ind; [now rewrite app_nil_r|].
  rewrite app_assoc. intros H. apply adjacent_snoc_inv in H. auto.
Qed.

Lemma adjacent_middle {A} (R : A -> A -> Prop) (pre : list A) (x a : A) (rest : list A) :
  adjacent R (pre ++ x :: rest) -> last pre = Some a -> R a x.
Proof.
  intros H Ha. change (pre ++ x :: rest) with (pre ++ [x] ++ rest) in H.
  rewrite app_assoc in H. apply adjacent_app_inv_l in H.
  exact (adjacent_last _ _ _ _ H Ha).
Qed.

Lemma StronglySorted_impl {A} (R R' : A -> A -> Prop) (l : list A) :
  (forall a b, R a b -> R' a b) -> StronglySorted R l -> StronglySorted R' l.
Proof.
  intros H. induction 1 as [|x l Hl IH Hx]; constructor; [exact IH|].
  eapply List.Forall_impl; [|exact Hx]. intros b. apply H.
Qed.

Lemma segment_eta (seg : segment) : mk_segment (seg_start seg) (seg_end seg) = seg.
Proof. now destruct seg. Qed.

Section Fixed.
Variable cfg : SegmentationConfig.
Variable transcript_bounds : list Q.
Let tol := non_overlap_tolerance_sec cfg.
Let soft_max := max_len_sec cfg * max_len_soft_factor cfg.

(** The first loop appends every segment as it is. *)
Lemma overlap_fold_fixed (l pre : list segment) :
  adjacent (follows tol) (pre ++ l) ->
  Forall (well_sized soft_max) l ->
  fold_left (overlap_step cfg transcript_bounds) l (pre, seg_end <$> last pre)
    = (pre ++ l, seg_end <$> last (pre ++ l)).
Proof.
  revert pre. induction l as [|x l IH]; intros pre Hadj Hall.
  - now rewrite app_nil_r.
  - inversion Hall as [|? ? [Hpos Hcap] Hall']; subst.
    assert (Hstep : overlap_step cfg transcript_bounds (pre, seg_end <$> last pre) x
                    = (pre ++ [x], seg_end <$> last (pre ++ [x]))).
    { rewrite last_snoc. unfold overlap_step. fold tol. fold soft_max.
      destruct (last pre) as [a|] eqn:Ea; simpl.
      - destruct (adjacent_middle _ _ _ _ _ Hadj Ea) as [_ Hgap].
        assert (E : Qlt_bool (seg_start x) (seg_end a - tol) = false)
          by now apply Qlt_bool_false.
        rewrite E. unfold append_clamped.
        assert (E2 : Qgt_bool (seg_end x - seg_start x) soft_max = false)
          by now apply Qlt_bool_false.
        rewrite E2. now rewrite segment_eta.
      - now rewrite segment_eta. }
    change (fold_left (overlap_step cfg transcript_bounds) (x :: l)
              (pre, seg_end <$> last pre))
      with (fold_left (overlap_step cfg transcript_bounds) l
              (overlap_step cfg transcript_bounds (pre, seg_end <$> last pre) x)).
    rewrite Hstep.
    change (pre ++ x :: l) with (pre ++ [x] ++ l). rewrite app_assoc.
    apply IH; [|exact Hall'].
    rewrite <- app_assoc. exact Hadj.
Qed.

(** So does the final sweep. *)
Lemma sweep_fold_fixed (l pre : list segment) :
  adjacent (follows tol) (pre ++ l) ->
  Forall (well_sized soft_max) l ->
  fold_left (sweep_step tol) l (pre, seg_end <$> last pre)
    = (pre ++ l, seg_end <$> last (pre ++ l)).
Proof.
  revert pre. induction l as [|x l IH]; intros pre Hadj Hall.
  - now rewrite app_nil_r.
  - inversion Hall as [|? ? [Hpos Hcap] Hall']; subst.
    assert (Hstep : sweep_step tol (pre, seg_end <$> last pre) x
                    = (pre ++ [x], seg_end <$> last (pre ++ [x]))).
    { rewrite last_snoc. unfold sweep_step.
      assert (E2 : Qle_bool (seg_end x) (seg_start x) = false) by now apply Qle_bool_false.
      destruct (last pre) as [a|] eqn:Ea; simpl.
      - destruct (adjacent_middle _ _ _ _ _ Hadj Ea) as [_ Hgap].
        assert (E : Qlt_bool (seg_start x) (seg_end a - tol) = false)
          by now apply Qlt_bool_false.
        rewrite E, E2. now rewrite segment_eta.
      - rewrite E2. now rewrite segment_eta. }
    change (fold_left (sweep_step tol) (x :: l) (pre, seg_end <$> last pre))
      with (fold_left (sweep_step tol) l
              (sweep_step tol (pre, seg_end <$> last pre) x)).
    rewrite Hstep.
    change (pre ++ x :: l) with (pre ++ [x] ++ l). rewrite app_assoc.
    apply IH; [|exact Hall'].
    rewrite <- app_assoc. exact Hadj.
Qed.
End Fixed.

(** X22.  A list that is already normal is returned as it is: when the starts
    increase strictly, every segment has a positive duration of at most
    [max_len_sec * max_len_soft_factor], and each segment starts no more
    than the tolerance before the one in front of it ends, the output of
    [normalize_non_overlap] is its input, whatever the transcript
    boundaries are. *)
Theorem normalize_non_overlap_fixed (segments : list segment) (transcript_bounds : list Q)
    (cfg : SegmentationConfig) :
  Forall (well_sized (max_len_sec cfg * max_len_soft_factor cfg)) segments ->
  adjacent (follows (non_overlap_tolerance_sec cfg)) segments ->
  normalize_non_overlap segments transcript_bounds cfg = segments.
Proof.
  intros Hall Hadj. unfold normalize_non_overlap.
  destruct segments as [|seg0 segments]; [reflexivity|].
  set (l := seg0 :: segments) in *.
  assert (Hsorted : py_sorted segment_key_leb l = l).
  { apply py_sorted_id.
    apply (StronglySorted_impl (fun a b => seg_start a < seg_start b)).
    - intros a b H. unfold segment_key_leb. apply orb_true_iff. left.
      now apply Qlt_bool_iff.
    - apply adjacent_StronglySorted; [intros x y z; apply Qlt_trans|].
      eapply adjacent_impl; [|exact Hadj]. intros a b [H _]. exact H. }
  rewrite Hsorted.
  pose proof (overlap_fold_fixed cfg transcript_bounds l [] Hadj Hall) as H1.
  pose proof (sweep_fold_fixed cfg l [] Hadj Hall) as H2.
  change (@nil segment ++ l) with l in H1, H2.
  change (seg_end <$> last (@nil segment)) with (@None Q) in H1, H2.
  rewrite H1. cbn [fst]. rewrite H2. reflexivity.
Qed.

Lemma normalize_non_overlap_fixed_witness :
  let segments := [mk_segment 0 10; mk_segment 10 20; mk_segment 19.9 30] in
  Forall (well_sized (max_len_sec DEFAULT_CONFIG * max_len_soft_factor DEFAULT_CONFIG))
    segments /\
  adjacent (follows (non_overlap_tolerance_sec DEFAULT_CONFIG)) segments /\
  normalize_non_overlap segments [10; 19.95] DEFAULT_CONFIG = segments.
Proof.
  intros segments.
  assert (Hall : Forall (well_sized (max_len_sec DEFAULT_CONFIG
                                     * max_len_soft_factor DEFAULT_CONFIG)) segments).
  { repeat constructor; try (apply Qlt_bool_iff; reflexivity);
      apply Qle_bool_iff; reflexivity. }
  assert (Hadj : adjacent (follows (non_overlap_tolerance_sec DEFAULT_CONFIG)) segments).
  { repeat split; try (apply Qlt_bool_iff; reflexivity); apply Qle_bool_iff; reflexivity. }
  split; [exact Hall|]. split; [exact Hadj|].
  exact (normalize_non_overlap_fixed segments [10; 19.95] DEFAULT_CONFIG Hall Hadj).
Defined.





(** ** segmentation.py: a transcript that needs no merging or splitting *)

Section WellSized.
Variable detect : Q -> Q -> list Q.
Variable transcript : list span.
Variable cfg : SegmentationConfig.

Lemma merge_short_id (segments : list span) :
  Forall (within_limits cfg) segments -> merge_short cfg segments = segments.
Proof.
  induction 1 as [|current rest [Hmin _] Hrest IH]; [reflexivity|].
  destruct rest as [|next_seg rest']; [reflexivity|].
  change (merge_short cfg (current :: next_seg :: rest'))
    with (if Qlt_bool (span_duration current) (min_len_sec cfg) then
            if Qle_bool (span_end next_seg - span_start current)
                 (max_len_sec cfg * merge_threshold_factor cfg)
            then mk_span (span_start current) (span_end next_seg)
                   (Some (merged_text current next_seg))
                 :: merge_short cfg rest'
            else current :: merge_short cfg (next_seg :: rest')
          else current :: merge_short cfg (next_seg :: rest')).
  assert (E : Qlt_bool (span_duration current) (min_len_sec cfg) = false)
    by now apply Qlt_bool_false.
  rewrite E, IH. reflexivity.
Qed.

Lemma split_all_id (segments : list span) :
  Forall (within_limits cfg) segments ->
  split_all detect transcript cfg segments = Returned segments.
Proof.
  induction 1 as [|seg rest [_ Hmax] Hrest IH]; [reflexivity|].
  simpl. rewrite IH.
  assert (E : Qgt_bool (span_duration seg) (max_len_sec cfg) = false)
    by now apply Qlt_bool_false.
  now rewrite E.
Qed.

Lemma merge_tiny_loop_id (segments : list span) :
  Forall (within_limits cfg) segments ->
  merge_tiny_loop detect transcript cfg segments = Returned segments.
Proof.
  induction 1 as [|seg rest [Hmin _] Hrest IH]; [reflexivity|].
  simpl. rewrite IH.
  assert (E : Qge_bool (span_duration seg) (min_len_sec cfg) = true)
    by now apply Qle_bool_iff.
  now rewrite E.
Qed.
End WellSized.

Lemma filter_all {A} (P : A -> Prop) `{forall x, Decision (P x)} (l : list A) :
  Forall P l -> filter P l = l.
Proof.
  induction 1 as [|x l Hx Hl IH]; [reflexivity|].
  rewrite filter_cons. destruct (decide (P x)); [now rewrite IH | contradiction].
Qed.

Lemma StronglySorted_map {A B} (R : A -> A -> Prop) (R' : B -> B -> Prop) (f : A -> B)
    (l : list A) :
  (forall a b, R a b -> R' (f a) (f b)) ->
  StronglySorted R l -> StronglySorted R' (map f l).
Proof.
  intros H. induction 1 as [|x l Hl IH Hx]; simpl; constructor; [exact IH|].
  apply List.Forall_map. eapply List.Forall_impl; [|exact Hx]. intros b. apply H.
Qed.

Lemma sort_by_start_sorted (segments : list span) :
  StronglySorted (fun a b => Qle_bool (span_start a) (span_start b) = true)
    (sort_by_start segments).
Proof.
  unfold sort_by_start. apply py_sorted_sorted.
  - auto.
  - intros x y H. apply Qle_bool_iff. apply Qle_bool_false in H. lra.
  - intros x y z H1 H2. apply Qle_bool_iff. apply Qle_bool_iff in H1, H2. lra.
Qed.

(** X21.  When every transcript segment is between [min_len_sec] and
    [max_len_sec] long, [process_segments] merges and splits nothing: with a
    configuration that [validate] accepts it returns the normalisation of
    the transcript segments, sorted by start, whether or not the ViT model is
    available. *)
Theorem process_segments_well_sized (vit : bool) (detect : Q -> Q -> list Q)
    (transcript_segments : list span) (cfg : SegmentationConfig) :
  SegmentationConfig_validate cfg = true ->
  Forall (within_limits cfg) transcript_segments ->
  process_segments vit detect transcript_segments cfg
    = Returned (normalize_non_overlap
                  (map bounds_of (sort_by_start transcript_segments))
                  (transcript_bounds_of transcript_segments) cfg).
Proof.
  intros Hvalid Hall. destruct (validate_lengths cfg Hvalid) as [Hmin Hlt].
  assert (Hrounds : exists rounds, Z.to_nat (max_iterations cfg) = S rounds).
  { unfold SegmentationConfig_validate in Hvalid.
    repeat (apply andb_true_iff in Hvalid; destruct Hvalid as [Hvalid ?]).
    match goal with
    | H : negb (max_iterations cfg <=? 0)%Z = true |- _ =>
        apply negb_true_iff, Z.leb_gt in H
    end.
    exists (Nat.pred (Z.to_nat (max_iterations cfg))). lia. }
  destruct Hrounds as [rounds Hrounds].
  unfold process_segments. rewrite Hvalid. cbv [negb].
  destruct transcript_segments as [|t0 transcript]; [reflexivity|].
  set (ts := t0 :: transcript) in *.
  set (sorted := sort_by_start ts).
  assert (Hsorted : Forall (within_limits cfg) sorted)
    by (apply py_sorted_Forall; exact Hall).
  assert (Hagain : sort_by_start sorted = sorted).
  { apply py_sorted_id. apply sort_by_start_sorted. }
  assert (Hiter : iterate_segments (Z.to_nat (max_iterations cfg)) vit detect ts cfg sorted
                  = Returned sorted).
  { rewrite Hrounds. simpl. rewrite (merge_short_id cfg sorted Hsorted).
    destruct vit; [rewrite (split_all_id detect ts cfg sorted Hsorted)|];
      rewrite Hagain, Nat.eqb_refl; reflexivity. }
  rewrite Hiter.
  assert (Htidy : (if vit then merge_tiny_segments detect ts cfg sorted
                   else Returned sorted) = Returned sorted).
  { destruct vit; [|reflexivity]. unfold merge_tiny_segments.
    destruct (_ <=? 1)%Z; [reflexivity|]. now apply merge_tiny_loop_id. }
  rewrite Htidy.
  assert (Hclean : final_cleanup cfg sorted = map bounds_of sorted).
  { unfold final_cleanup. rewrite filter_all; [reflexivity|].
    eapply List.Forall_impl; [|exact Hsorted]. intros seg [H1 H2].
    apply Is_true_true, orb_true_iff. left. apply andb_true_iff.
    split; now apply Qle_bool_iff. }
  rewrite Hclean.
  rewrite py_sorted_id; [reflexivity|].
  apply (StronglySorted_map
           (fun a b => Qle_bool (span_start a) (span_start b) = true)); [auto|].
  apply sort_by_start_sorted.
Qed.

Lemma process_segments_well_sized_witness :
  let transcript := [mk_span 12 20 (Some "second"); mk_span 0 12.1 (Some "first")] in
  SegmentationConfig_validate DEFAULT_CONFIG = true /\
  Forall (within_limits DEFAULT_CONFIG) transcript /\
  process_segments true no_detection transcript DEFAULT_CONFIG
    = Returned [mk_segment 0 12.1; mk_segment 12 20].
Proof.
  intros transcript.
  assert (Hall : Forall (within_limits DEFAULT_CONFIG) transcript).
  { repeat constructor; apply Qle_bool_iff; reflexivity. }
  split; [reflexivity|]. split; [exact Hall|].
  rewrite (process_segments_well_sized true no_detection transcript DEFAULT_CONFIG
             eq_refl Hall).
  vm_compute. reflexivity.
Defined.

(** ** segment_analyzer.py: what a run costs *)

Lemma hoare_bind {S A B} (P Q R : S -> Prop) (m : ST S A) (f : A -> ST S B) :
  hoare P m Q -> (forall s, Q s -> R s) -> (forall a, hoare Q (f a) R) ->
  hoare P (bind m f) R.
Proof.
  intros Hm Hweak Hf s Hs. unfold bind. specialize (Hm s Hs).
  destruct (m s) as [[a|e] s']; simpl in *; [exact (Hf a s' Hm) | auto].
Qed.

Lemma hoare_try_except {S A} (P Q R : S -> Prop) (m : ST S A) (h : exn -> ST S A) :
  hoare P m Q -> (forall s, Q s -> R s) -> (forall e, hoare Q (h e) R) ->
  hoare P (try_except m h) R.
Proof.
  intros Hm Hweak Hh s Hs. unfold try_except. specialize (Hm s Hs).
  destruct (m s) as [[a|e] s']; simpl in *; [auto | exact (Hh e s' Hm)].
Qed.

Lemma hoare_preserves {S A} (I : S -> Prop) (m : ST S A) : preserves I m -> hoare I m I.
Proof.
  intros H s Hs. specialize (H s Hs). destruct (m s) as [[a|e] s']; simpl; tauto.
Qed.

Lemma hoare_weaken {S A} (P Q R : S -> Prop) (m : ST S A) :
  hoare P m Q -> (forall s, Q s -> R s) -> hoare P m R.
Proof. intros H Hw s Hs. auto. Qed.

Lemma asks_once_refl (kind : prompt -> bool) (w w' : world) :
  provider_log w' = provider_log w -> asks_once kind w w'.
Proof. intros H. exists []. rewrite app_nil_r. simpl. auto. Qed.

Lemma asks_once_one (kind : prompt -> bool) (w w' : world) (p : prompt) :
  provider_log w' = provider_log w ++ [p] -> kind p = true -> asks_once kind w w'.
Proof. intros H Hp. exists [p]. simpl. rewrite Hp. auto. Qed.

Lemma asks_once_grows (kind : prompt -> bool) (w w' : world) :
  asks_once kind w w' -> log_grows_by kind w w'.
Proof. intros (extra & H1 & H2 & _). now exists extra. Qed.

Lemma asks_once_prompts (kind : prompt -> bool) (w w' : world) :
  asks_once kind w w' -> (prompts kind w' <= prompts kind w + 1)%nat.
Proof.
  intros (extra & Hlog & _ & Hlen). unfold prompts, calls_of.
  rewrite Hlog, List.filter_app, length_app.
  pose proof (List.filter_length_le kind extra). lia.
Qed.

Lemma suspicion_score_asks_once rt text cfg video_id seg_index llm (w : world) :
  asks_once is_suspicion_prompt w
    (snd (suspicion_score rt text cfg video_id seg_index llm w)).
Proof.
  unfold suspicion_score.
  destruct (text_too_short text cfg); [now apply asks_once_refl|].
  unfold bind at 1.
  pose proof (_get_cached_result_log
                (cache_key video_id seg_index (text_hash rt text) "suspicion")
                (suspicion_llm_cache_ttl_sec cfg) w) as Hl.
  destruct (_get_cached_result _ _ w) as [[[c|]|e] w1]; simpl in Hl;
    try (now apply asks_once_refl).
  unfold try_except, bind.
  pose proof (provided_llm_state rt cfg llm w1) as Hst.
  destruct (provided_llm rt cfg llm w1) as [[[l|]|e] w2]; simpl in Hst; subst w2;
    try (now apply asks_once_refl).
  unfold time_time, invoke.
  destruct (l (length (provider_log w1)) (SuspicionPrompt (strip text))) as [reply elapsed].
  assert (Hone : forall w', provider_log w' = provider_log w1 ++ [SuspicionPrompt (strip text)] ->
                            asks_once is_suspicion_prompt w w').
  { intros w' H. apply (asks_once_one _ _ _ (SuspicionPrompt (strip text)));
      [now rewrite H, Hl | reflexivity]. }
  destruct reply as [v|e]; [|now apply Hone].
  destruct (is_success v); [|now apply Hone].
  unfold lift. destruct (py_float rt _); now apply Hone.
Qed.

Lemma score_suspicion_asks_once rt segment_text mode planner_cfg video_id seg_index llm
    (w : world) :
  asks_once is_suspicion_prompt w
    (snd (score_suspicion rt segment_text mode planner_cfg video_id seg_index llm w)).
Proof.
  unfold score_suspicion.
  destruct (String.eqb mode "off"); [now apply asks_once_refl|].
  destruct (String.eqb mode "keywords"); [now apply asks_once_refl|].
  destruct (String.eqb mode "llm"); [|now apply asks_once_refl].
  destruct planner_cfg as [cfg|]; [|now apply asks_once_refl].
  unfold try_except, bind.
  pose proof (suspicion_score_asks_once rt segment_text cfg video_id seg_index llm w) as H.
  destruct (suspicion_score rt segment_text cfg video_id seg_index llm w) as [[d|e] w1];
    simpl in H; [|exact H].
  destruct (truthy _); [exact H|].
  unfold item. destruct (dict_get "confidence" _); [|exact H].
  unfold ret, lift. simpl. destruct (py_ge _ _) as [above|e]; [|exact H].
  destruct (dict_get "suspicious" _); exact H.
Qed.

Lemma propose_points_asks_once rt segment_text seg_start seg_end cfg video_id seg_index llm
    (w : world) :
  asks_once is_planning_prompt w
    (snd (propose_points rt segment_text seg_start seg_end cfg video_id seg_index llm w)).
Proof.
  unfold propose_points.
  destruct (text_too_short segment_text cfg); [now apply asks_once_refl|].
  destruct (Qlt_bool _ _); [now apply asks_once_refl|].
  unfold bind at 1.
  pose proof (_get_cached_result_log
                (cache_key video_id seg_index (text_hash rt segment_text) "points")
                (suspicion_llm_cache_ttl_sec cfg) w) as Hl.
  destruct (_get_cached_result _ _ w) as [[[c|]|e] w1]; simpl in Hl;
    try (now apply asks_once_refl).
  unfold max_points_for_segment.
  destruct (Qeq_bool _ _); [now apply asks_once_refl|].
  unfold bind at 1. unfold lift at 1. unfold try_except, bind.
  pose proof (provided_llm_state rt cfg llm w1) as Hst.
  destruct (provided_llm rt cfg llm w1) as [[[l|]|e] w2]; simpl in Hst; subst w2;
    try (now apply asks_once_refl).
  unfold time_time, invoke.
  destruct (l (length (provider_log w1)) _) as [reply elapsed] eqn:El.
  match type of El with
  | l _ ?p = _ =>
      assert (Hone : forall w', provider_log w' = provider_log w1 ++ [p] ->
                                asks_once is_planning_prompt w w')
  end.
  { intros w' H. eapply asks_once_one; [now rewrite H, Hl | reflexivity]. }
  destruct reply as [v|e]; [|now apply Hone].
  destruct (is_success v); [|now apply Hone].
  unfold lift. destruct (absolute_points rt _ _ _); now apply Hone.
Qed.

Lemma llm_decide_asks_once rt audio_text ocr_text captions_text llm (w : world) :
  asks_once is_decision_prompt w
    (snd (llm_decide rt audio_text ocr_text captions_text llm w)).
Proof.
  destruct (llm_decide_cases rt audio_text ocr_text captions_text llm w)
    as (d & w' & Hrun & (_ & _ & Hlog & _) & _).
  rewrite Hrun. simpl. eapply asks_once_one; [exact Hlog | reflexivity].
Qed.

Lemma spent_refl (r : run) : spent r 0 0 0 0 r.
Proof. unfold spent. repeat split; lia. Qed.

Lemma spent_mono (r0 : run) (a b c e a' b' c' e' : nat) (r : run) :
  (a <= a')%nat -> (b <= b')%nat -> (c <= c')%nat -> (e <= e')%nat ->
  spent r0 a b c e r -> spent r0 a' b' c' e' r.
Proof. unfold spent. intros ? ? ? ? (H1 & H2 & H3 & H4). repeat split; lia. Qed.

Lemma spent_trans (r0 r1 r2 : run) (a b c e a' b' c' e' : nat) :
  spent r0 a b c e r1 -> spent r1 a' b' c' e' r2 ->
  spent r0 (a + a') (b + b') (c + c') (e + e') r2.
Proof.
  unfold spent. intros (H1 & H2 & H3 & H4) (K1 & K2 & K3 & K4). repeat split; lia.
Qed.

Lemma spent_same (r0 : run) (a b c e : nat) (r r' : run) :
  run_world r' = run_world r -> harmful_events r' = harmful_events r ->
  spent r0 a b c e r -> spent r0 a b c e r'.
Proof. unfold spent. intros -> ->. auto. Qed.

Lemma prompts_other (kind other : prompt -> bool) (w w' : world) :
  (forall p, kind p = true -> other p = false) ->
  asks_once kind w w' -> prompts other w' = prompts other w.
Proof.
  intros Hk H. unfold prompts.
  now rewrite (calls_of_other kind other w w' Hk (asks_once_grows _ _ _ H)).
Qed.

Lemma spent_suspicion (r0 : run) (a b c e : nat) (r r' : run) :
  asks_once is_suspicion_prompt (run_world r) (run_world r') ->
  harmful_events r' = harmful_events r ->
  spent r0 a b c e r -> spent r0 (S a) b c e r'.
Proof.
  intros Hw He (H1 & H2 & H3 & H4). unfold spent. rewrite He.
  pose proof (asks_once_prompts _ _ _ Hw).
  rewrite (prompts_other is_suspicion_prompt is_planning_prompt _ _ ltac:(now intros []) Hw).
  rewrite (prompts_other is_suspicion_prompt is_decision_prompt _ _ ltac:(now intros []) Hw).
  repeat split; lia.
Qed.

Lemma spent_planning (r0 : run) (a b c e : nat) (r r' : run) :
  asks_once is_planning_prompt (run_world r) (run_world r') ->
  harmful_events r' = harmful_events r ->
  spent r0 a b c e r -> spent r0 a (S b) c e r'.
Proof.
  intros Hw He (H1 & H2 & H3 & H4). unfold spent. rewrite He.
  pose proof (asks_once_prompts _ _ _ Hw).
  rewrite (prompts_other is_planning_prompt is_suspicion_prompt _ _ ltac:(now intros []) Hw).
  rewrite (prompts_other is_planning_prompt is_decision_prompt _ _ ltac:(now intros []) Hw).
  repeat split; lia.
Qed.

Lemma spent_decision (r0 : run) (a b c e : nat) (r r' : run) :
  asks_once is_decision_prompt (run_world r) (run_world r') ->
  harmful_events r' = harmful_events r ->
  spent r0 a b c e r -> spent r0 a b (S c) e r'.
Proof.
  intros Hw He (H1 & H2 & H3 & H4). unfold spent. rewrite He.
  pose proof (asks_once_prompts _ _ _ Hw).
  rewrite (prompts_other is_decision_prompt is_suspicion_prompt _ _ ltac:(now intros []) Hw).
  rewrite (prompts_other is_decision_prompt is_planning_prompt _ _ ltac:(now intros []) Hw).
  repeat split; lia.
Qed.

Section Cost.
Variable rt : runtime.
Variable planner_cfg : LLMPlannerConfig.
Variables (video_id video_path : string) (llm : provider).
Variables (full_text : option string) (word_timestamps : option (list (string * Q))).
Variable planning_mode : string.
Variable r0 : run.

Lemma suspicion_step_spent (a b c e : nat) i segment_text :
  hoare (spent r0 a b c e)
    (suspicion_step rt planner_cfg video_id i llm segment_text)
    (spent r0 (S a) b c e).
Proof.
  intros r Hr.
  destruct (score_suspicion_returns rt segment_text (current_suspicion_mode planner_cfg r)
              (Some planner_cfg) video_id i (Some llm) (run_world r)) as (d & w' & Hrun).
  pose proof (score_suspicion_asks_once rt segment_text
                (current_suspicion_mode planner_cfg r) (Some planner_cfg) video_id i
                (Some llm) (run_world r)) as Hlog.
  rewrite Hrun in Hlog. simpl in Hlog.
  rewrite (suspicion_step_run _ _ _ _ _ _ _ _ _ Hrun). cbv zeta. simpl snd.
  apply (spent_suspicion r0 a b c e r); [| |exact Hr];
    destruct (_ && _ && _); destruct (_ && _); simpl; auto.
Qed.

Lemma planning_step_spent (a b c e : nat) i segment_text start end_ is_suspicious :
  hoare (spent r0 a b c e)
    (planning_step rt planner_cfg planning_mode video_id i llm segment_text
       start end_ is_suspicious)
    (spent r0 a (S b) c e).
Proof.
  intros r Hr. unfold planning_step, bind, get.
  assert (Hkeep : spent r0 a (S b) c e r) by (eapply spent_mono; [| | | |exact Hr]; lia).
  destruct (planning_allowed planner_cfg planning_mode is_suspicious r); [|exact Hkeep].
  unfold try_except, in_world.
  pose proof (propose_points_asks_once rt segment_text start end_ planner_cfg video_id i
                (Some llm) (run_world r)) as Hlog.
  destruct (propose_points _ _ _ _ _ _ _ _ (run_world r)) as [[v|err] w']; simpl in Hlog.
  2:{ simpl. now apply (spent_planning r0 a b c e r). }
  assert (H0 : spent r0 a (S b) c e (set_run_world w' r))
    by now apply (spent_planning r0 a b c e r).
  unfold lift. simpl.
  destruct (py_prefix _ v) as [p|err]; [|exact H0].
  destruct (py_len p) as [n|err]; [|exact H0].
  simpl. eapply spent_same; [| |exact H0]; reflexivity.
Qed.

Lemma llm_decide_spent (a b c e : nat) audio_text ocr_text captions_text :
  hoare (spent r0 a b c e)
    (in_world (llm_decide rt audio_text ocr_text captions_text llm))
    (spent r0 a b (S c) e).
Proof.
  intros r Hr. unfold in_world.
  pose proof (llm_decide_asks_once rt audio_text ocr_text captions_text llm (run_world r))
    as Hlog.
  destruct (llm_decide _ _ _ _ _ _) as [o w']. simpl in *.
  now apply (spent_decision r0 a b c e r).
Qed.

Lemma spent_preserved_by {A} (m : ST run A) (a b c e : nat) :
  (forall I : run -> Prop, preserves I m) ->
  hoare (spent r0 a b c e) m (spent r0 a b c e).
Proof. intros H. apply hoare_preserves, H. Qed.

(** One segment: at most one prompt of each kind, at most one event. *)
Lemma analyze_segment_spent (i : Z) (seg : segment) :
  hoare (spent r0 0 0 0 0)
    (analyze_segment rt planner_cfg video_id video_path llm full_text
       word_timestamps planning_mode i seg)
    (spent r0 1 1 1 1).
Proof.
  assert (Hup : forall a b c e s, (a <= 1)%nat -> (b <= 1)%nat -> (c <= 1)%nat ->
                  (e <= 1)%nat -> spent r0 a b c e s -> spent r0 1 1 1 1 s).
  { intros a b c e s ? ? ? ?. now apply spent_mono. }
  unfold analyze_segment. cbv zeta.
  eapply hoare_bind; [apply suspicion_step_spent | intros s; apply Hup; lia|].
  intros suspicion_result.
  eapply hoare_bind; [apply hoare_preserves, preserves_item | intros s; apply Hup; lia|].
  intros is_suspicious.
  eapply hoare_bind; [apply planning_step_spent | intros s; apply Hup; lia|].
  intros planned_timestamps.
  eapply hoare_bind; [apply hoare_preserves, preserves_get | intros s; apply Hup; lia|].
  intros r.
  eapply hoare_bind;
    [apply hoare_preserves, final_timestamps_of_state | intros s; apply Hup; lia|].
  intros final_timestamps.
  destruct (sample_frames _ _ _ _ _ _ _) as [|frame frames].
  { eapply hoare_weaken; [apply hoare_preserves, preserves_ret | intros s; apply Hup; lia]. }
  eapply hoare_bind; [apply hoare_preserves, preserves_lift | intros s; apply Hup; lia|].
  intros evidence.
  eapply hoare_bind; [apply llm_decide_spent | intros s; apply Hup; lia|].
  intros decision.
  eapply hoare_bind; [apply hoare_preserves, preserves_item | intros s; apply Hup; lia|].
  intros is_harmful.
  eapply hoare_bind with (Q := spent r0 1 1 1 1).
  - destruct (truthy is_harmful).
    + eapply hoare_bind;
        [apply hoare_preserves, harmful_event_of_state | intros s; apply Hup; lia|].
      intros harmful_event s (H1 & H2 & H3 & H4). unfold modify. simpl.
      unfold spent. simpl. rewrite length_app. simpl. repeat split; lia.
    + eapply hoare_weaken; [apply hoare_preserves, preserves_ret | intros s; apply Hup; lia].
  - auto.
  - intros _. apply hoare_preserves, aggregate_tokens_state.
    intros s t H. exact H.
Qed.

End Cost.

Lemma analyze_loop_spent rt planner_cfg video_id video_path llm full_text word_timestamps
    planning_mode (segments : list segment) (i : Z) (r : run) :
  let n := length segments in
  spent r n n n n
    (snd (analyze_loop rt planner_cfg video_id video_path llm full_text
            word_timestamps planning_mode i segments r)).
Proof.
  revert i r. induction segments as [|seg segments IH]; intros i r; cbv zeta.
  - apply spent_refl.
  - simpl analyze_loop. unfold bind, try_except.
    pose proof (analyze_segment_spent rt planner_cfg video_id video_path llm full_text
                  word_timestamps planning_mode r i seg r (spent_refl r)) as Hseg.
    destruct (analyze_segment rt planner_cfg video_id video_path llm full_text
                word_timestamps planning_mode i seg r) as [[[]|err] r'];
      simpl in Hseg; simpl length;
      apply (spent_trans r r' _ 1 1 1 1 _ _ _ _ Hseg); apply IH.
Qed.

Lemma provider_log_kinds (w : world) :
  length (provider_log w)
    = (prompts is_suspicion_prompt w + prompts is_planning_prompt w
       + prompts is_decision_prompt w)%nat.
Proof.
  unfold prompts, calls_of. induction (provider_log w) as [|p l IH]; [reflexivity|].
  destruct p; simpl; lia.
Qed.

(** X16.  A run of [analyze_segments] over [n] segments sends the provider at most
    [n] suspicion prompts, at most [n] planning prompts and at most [n]
    decision prompts, and emits at most [n] events, whatever the
    configuration, the provider and the runtime do. *)
Theorem analyze_segments_cost (rt : runtime) (video_id video_path : string)
    (segments : list segment) (cfg : SegmentationConfig) (llm : provider)
    (full_text : option string) (word_timestamps : option (list (string * Q)))
    (planning_mode : string) (w : world) :
  let r := snd (analyze_segments rt video_id video_path segments cfg llm
                  full_text word_timestamps planning_mode w) in
  let n := length segments in
  (prompts is_suspicion_prompt (run_world r) <= prompts is_suspicion_prompt w + n)%nat /\
  (prompts is_planning_prompt (run_world r) <= prompts is_planning_prompt w + n)%nat /\
  (prompts is_decision_prompt (run_world r) <= prompts is_decision_prompt w + n)%nat /\
  (length (harmful_events r) <= n)%nat /\
  (length (provider_log (run_world r)) <= length (provider_log w) + 3 * n)%nat.
Proof.
  intros r n.
  assert (H : spent (start_of_run cfg w) n n n n r).
  { subst r. unfold analyze_segments.
    destruct (planner_config_from_env rt) as [planner_cfg|err].
    2:{ simpl. eapply spent_mono; [| | | |apply spent_refl]; lia. }
    destruct (LLMPlannerConfig_validate planner_cfg).
    2:{ simpl. eapply spent_mono; [| | | |apply spent_refl]; lia. }
    pose proof (analyze_loop_spent rt planner_cfg video_id video_path llm full_text
                  word_timestamps planning_mode segments 0 (start_of_run cfg w)) as Hl.
    destruct (analyze_loop _ _ _ _ _ _ _ _ _ _ _) as [[u|err] r']; exact Hl. }
  destruct H as (H1 & H2 & H3 & H4). simpl in H1, H2, H3, H4.
  split; [exact H1|]. split; [exact H2|]. split; [exact H3|]. split; [exact H4|].
  rewrite !provider_log_kinds. lia.
Qed.

(** X17.  Once the planner configuration has been read, no failure inside the
    loop reaches the caller of [analyze_segments]: with a configuration that
    [validate] accepts the call returns the events and the token totals of
    the run, whatever the provider, the frame extraction and the evidence
    collection raise on any segment; with one that [validate] rejects it
    raises [ValueError] before the first segment, and nothing has been
    sent or counted. *)
Theorem analyze_segments_isolates_failures (rt : runtime) (video_id video_path : string)
    (segments : list segment) (cfg : SegmentationConfig) (llm : provider)
    (full_text : option string) (word_timestamps : option (list (string * Q)))
    (planning_mode : string) (w : world) (planner_cfg : LLMPlannerConfig) :
  planner_config_from_env rt = Returned planner_cfg ->
  let result := analyze_segments rt video_id video_path segments cfg llm
                  full_text word_timestamps planning_mode w in
  if LLMPlannerConfig_validate planner_cfg
  then fst result = Returned (harmful_events (snd result), total_tokens (snd result))
  else (exists msg, fst result = Raised (Exn ValueError msg)) /\
       snd result = start_of_run cfg w.
Proof.
  intros Henv result. subst result. unfold analyze_segments. rewrite Henv.
  destruct (LLMPlannerConfig_validate planner_cfg); [|split; [eexists|]; reflexivity].
  pose proof (analyze_loop_returns rt planner_cfg video_id video_path llm full_text
                word_timestamps planning_mode segments 0 (start_of_run cfg w)) as H.
  destruct (analyze_loop _ _ _ _ _ _ _ _ _ _ _) as [[u|err] r]; [reflexivity|].
  discriminate H.
Qed.

Lemma analyze_segments_isolates_failures_witness :
  planner_config_from_env tight_runtime = Returned tight_planner_config /\
  LLMPlannerConfig_validate tight_planner_config = true /\
  let result := analyze_segments tight_runtime "video" "video.mp4" three_segments
                  llm_config failing_provider (Some "transcript") (Some drug_transcript)
                  "llm" empty_world in
  fst result = Returned (harmful_events (snd result), total_tokens (snd result)).
Proof.
  split; [reflexivity|]. split; [reflexivity|].
  exact (analyze_segments_isolates_failures tight_runtime "video" "video.mp4"
           three_segments llm_config failing_provider (Some "transcript")
           (Some drug_transcript) "llm" empty_world tight_planner_config eq_refl).
Defined.

(** ** segment_analyzer.py: keyword scoring *)




